(** * Session-scoped search, history and analytics backend: a shallow embedding

    The TypeScript services and controllers of the search backend are
    embedded here as Rocq functions, file by file:

    - [JS]                 the pieces of the JavaScript runtime the code uses
    - [Models]             the Mongoose models ([Click], [SearchHistory], [SearchQuery])
    - [Runtime]            process state, environment and the effect monad
    - [Mongo]              the driver calls the services issue
    - [SessionService]     services/sessionService.ts
    - [ProductsService]    services/productsService.ts
    - [SearchService]      services/searchService.ts
    - [Express]            what a handler is given and what it answers
    - [SearchController]   controllers/searchController.ts
    - [AnalyticsService]   services/analyticsService.ts
    - [AnalyticsController] controllers/analyticsController.ts
    - [AuthService]        services/authService.ts
    - [AuthMiddleware]     middleware/auth.ts
    - [CategoriesService]  services/categoriesService.ts
    - [ValidateSearchParams] middleware/validateSearchParams.ts
    - [Invariants]         invariants of the process state

    The properties proved of these functions follow the definitions.

    Conventions.  JavaScript strings are sequences of code units; they are
    modelled by [string], one [ascii] per code unit (U+0000..U+00FF).  Dates
    are millisecond timestamps in [Z].  Integers produced by [parseInt] and
    array lengths are in [Z]; prices are integral amounts (CLP). *)

From Stdlib Require Import ZArith List String Ascii Bool Lia Permutation Sorted.
From Stdlib Require Import HexString DecimalString.
From stdpp Require Import gmap strings list fin_maps.

Local Open Scope string_scope.
Local Open Scope list_scope.
Local Open Scope Z_scope.

(* ===================================================================== *)
(** ** The JavaScript runtime *)
(* ===================================================================== *)

Module JS.

(** Truthiness of a string: every string but the empty one. *)
Definition truthy (s : string) : bool :=
  match s with EmptyString => false | String _ _ => true end.

(** Truthiness of an optional string ([undefined] is falsy). *)
Definition truthy_opt (o : option string) : bool :=
  match o with None => false | Some s => truthy s end.

(** [s.startsWith(p)] *)
Fixpoint startsWith (s p : string) : bool :=
  match p with
  | EmptyString => true
  | String c p' =>
      match s with
      | EmptyString => false
      | String d s' => if Ascii.eqb c d then startsWith s' p' else false
      end
  end.

(** [s.substring(n)] for [0 <= n] *)
Fixpoint substringFrom (n : nat) (s : string) : string :=
  match n with
  | O => s
  | S n' => match s with EmptyString => EmptyString | String _ s' => substringFrom n' s' end
  end.

(** [s.replace(pat, rep)] with a string pattern: only the first occurrence
    of [pat] is replaced; [s] is returned unchanged when [pat] does not
    occur.  ([rep] is taken literally; the code only passes ['']). *)
Fixpoint replace (s pat rep : string) : string :=
  if startsWith s pat then rep +:+ substringFrom (String.length pat) s
  else match s with
       | EmptyString => EmptyString
       | String c s' => String c (replace s' pat rep)
       end.

(** [s.includes(sub)] *)
Fixpoint includes (s sub : string) : bool :=
  if startsWith s sub then true
  else match s with
       | EmptyString => false
       | String _ s' => includes s' sub
       end.

(** White space and line terminators removed by [trim]. *)
Definition isWhiteSpace (c : ascii) : bool :=
  let n := nat_of_ascii c in
  ((9 <=? n)%nat && (n <=? 13)%nat) || (n =? 32)%nat || (n =? 160)%nat.

Fixpoint trimStart (s : string) : string :=
  match s with
  | EmptyString => EmptyString
  | String c s' => if isWhiteSpace c then trimStart s' else s
  end.

Fixpoint trimEnd (s : string) : string :=
  match s with
  | EmptyString => EmptyString
  | String c s' =>
      match trimEnd s' with
      | EmptyString => if isWhiteSpace c then EmptyString else String c EmptyString
      | t => String c t
      end
  end.

(** [s.trim()] *)
Definition trim (s : string) : string := trimEnd (trimStart s).

(** Lower-case mapping of one code unit: [A-Z] and the Latin-1 capitals. *)
Definition lowerChar (c : ascii) : ascii :=
  let n := nat_of_ascii c in
  if ((65 <=? n)%nat && (n <=? 90)%nat)
     || ((192 <=? n)%nat && (n <=? 222)%nat && negb (n =? 215)%nat)
  then ascii_of_nat (n + 32) else c.

(** [s.toLowerCase()] *)
Fixpoint toLowerCase (s : string) : string :=
  match s with
  | EmptyString => EmptyString
  | String c s' => String (lowerChar c) (toLowerCase s')
  end.

(** [Math.max(a, b)], [Math.min(a, b)] on integers *)
Definition Math_max (a b : Z) : Z := Z.max a b.
Definition Math_min (a b : Z) : Z := Z.min a b.

(** A JavaScript number as the code meets it: an integer, [Infinity],
    [-Infinity] or [NaN]. *)
Inductive Number := Int (z : Z) | PosInf | NegInf | NaN.

(** [Math.ceil(a / b)] for integers [a], [b]. *)
Definition Math_ceil_div (a b : Z) : Number :=
  if b =? 0 then
    (if a =? 0 then NaN else if 0 <? a then PosInf else NegInf)
  else Int (- ((- a) / b)).

(** [a < b] for an integer [a] and a number [b] *)
Definition lt_num (a : Z) (b : Number) : bool :=
  match b with
  | Int z => a <? z
  | PosInf => true
  | NegInf => false
  | NaN => false
  end.

(** [arr.slice(start, end)]: negative indices count from the end and both
    are clamped to the array. *)
Definition slice {A : Type} (l : list A) (start end_ : Z) : list A :=
  let len := Z.of_nat (length l) in
  let k := if start <? 0 then Z.max (len + start) 0 else Z.min start len in
  let final := if end_ <? 0 then Z.max (len + end_) 0 else Z.min end_ len in
  take (Z.to_nat (final - k)) (drop (Z.to_nat k) l).

(** [arr.find(pred)] *)
Definition find {A : Type} (pred : A -> bool) (l : list A) : option A :=
  List.find pred l.

(** [arr.sort(cmp)]: the sort is stable; [cmp a b <= 0] keeps [a] before [b]. *)
Section Sort.
Context {A : Type} (cmp : A -> A -> Z).

Fixpoint insert_sorted (x : A) (l : list A) : list A :=
    match l with
    | [] => [x]
    | y :: ys => if cmp x y <=? 0 then x :: y :: ys else y :: insert_sorted x ys
    end.

Fixpoint sort (l : list A) : list A :=
    match l with
    | [] => []
    | x :: xs => insert_sorted x (sort xs)
    end.
End Sort.

End JS.

(* ===================================================================== *)
(** ** The Mongoose models (models/Click.ts, models/Search.ts) *)
(* ===================================================================== *)

Module Models.

(** A stored click ([IClick], collection [clicks]).  The collection is
    schemaless and the aggregations guard against documents whose
    [id_producto] is missing, null or empty: all three are [""] here. *)
Record Click := mkClick {
  click_id : string;                    (* _id *)
  click_id_producto : string;           (* id_producto *)
  click_nombre : string;                (* nombre *)
  click_fecha : Z;                      (* fecha *)
  click_userId : option string          (* userId, optional *)
}.

(** [SearchFilters] (services/searchService.ts) *)
Record SearchFilters := mkFilters {
  f_precio : option string;
  f_categoria : option string;
  f_condicion : option string;
  f_ordenar : option string;
  f_ordenPrecio : option string
}.

Definition noFilters : SearchFilters := mkFilters None None None None None.

Inductive SortDir := asc | desc.

(** A stored search ([ISearchHistory], collection [search_history]). *)
Record SearchHistory := mkSearchHistory {
  h_id : string;                        (* _id *)
  h_userId : string;
  h_queryText : string;
  h_filters : SearchFilters;
  h_sortBy : option string;
  h_sortDir : option SortDir;
  h_page : Z;
  h_pageSize : Z;
  h_requestedAt : Z;
  h_results : list string
}.

(** A stored query ([ISearchQuery], collection [search_queries]): no owner. *)
Record SearchQuery := mkSearchQuery {
  q_id : string;                        (* _id *)
  q_valor_busqueda : string;
  q_fecha : Z
}.

(** Plain objects, as [lean()] and JSON fixtures give them: an ordered list
    of fields. *)
Inductive JsVal := VStr (s : string) | VNum (z : Z) | VDate (t : Z) | VNull.

Definition JsObj := list (string * JsVal).

Definition keys (o : JsObj) : list string := map fst o.

Definition hasField (k : string) (o : JsObj) : bool :=
  existsb (String.eqb k) (keys o).

(** The plain object of a stored click: the fields the document has. *)
Definition lean_click (c : Click) : JsObj :=
  [("_id", VStr (click_id c))]
  ++ [("id_producto", VStr (click_id_producto c));
      ("nombre", VStr (click_nombre c)); ("fecha", VDate (click_fecha c))]
  ++ match click_userId c with Some u => [("userId", VStr u)] | None => [] end.

End Models.

(* ===================================================================== *)
(** ** Process state, environment and effects *)
(* ===================================================================== *)

Module Runtime.
Import Models.

(** Thrown values: [Error] and the controller's [BadRequestError]. *)
Inductive Error := Err (message : string) | BadRequestError (message : string).

Definition error_message (e : Error) : string :=
  match e with Err m => m | BadRequestError m => m end.

Inductive Outcome (A : Type) := Returns (a : A) | Throws (e : Error).
Arguments Returns {A} a.
Arguments Throws {A} e.

(** [SessionInfo] (services/sessionService.ts) *)
Record SessionInfo := mkSession {
  sessionId : string;
  createdAt : Z;
  lastActivity : Z
}.

(** Catalog data: [PublicacionFromAPI] and [ProductoNormalizado]
    (services/productsService.ts). *)
Record Multimedia := mkMultimedia { m_url : string; m_orden : Z }.

Record ProductoAPI := mkProductoAPI {
  pa_precio : Z;
  pa_categoria : string;
  pa_condicion : string;
  pa_stock : Z;
  pa_marca : string
}.

Record PublicacionFromAPI := mkPublicacion {
  pub_id : string;
  pub_id_producto : string;
  pub_titulo : string;
  pub_descripcion : string;
  pub_multimedia : list Multimedia;
  pub_producto : option ProductoAPI
}.

Record ProductoNormalizado := mkProducto {
  p_id : string;
  p_id_producto : string;
  p_titulo : string;
  p_descripcion : string;
  p_precio : Z;
  p_categoria : string;
  p_condicion : string;
  p_stock : Z;
  p_marca : string;
  p_multimedia : list Multimedia;
  p_imagen : option string
}.

(** The answer of [GET /publicaciones]: a transport error, or a body whose
    [data] is an array or is not. *)
Inductive ApiResponse :=
| ApiError (message : string)
| ApiData (data : option (list PublicacionFromAPI)).

(** One entry of data/clicks_dummy.json: the three fields the code reads
    and whatever else the fixture carries. *)
Record DummyClick := mkDummyClick {
  dc_id_producto : string;
  dc_nombre : string;
  dc_fecha : Z;
  dc_other : JsObj
}.

Definition dummy_obj (d : DummyClick) : JsObj :=
  [("id_producto", VStr (dc_id_producto d)); ("nombre", VStr (dc_nombre d));
   ("fecha", VDate (dc_fecha d))] ++ dc_other d.

(** The calls made to the database driver. *)
Inductive DbCall :=
| HistorySave                                  (* new SearchHistory(..).save() *)
| HistoryDeleteOne (_id userId : string)       (* SearchHistory.deleteOne *)
| HistoryDeleteMany (userId : string)          (* SearchHistory.deleteMany *)
| HistoryFind (userId : string)                (* SearchHistory.find *)
| QueryCreate                                  (* SearchQuery.create *)
| ClickCreate                                  (* Click.create *)
| ClickDeleteMany (userId : string)            (* Click.deleteMany *)
| ClickCount                                   (* Click.countDocuments *)
| ClickFind                                    (* Click.find *)
| ClickAggregate.                              (* Click.aggregate *)

(** What a handler is given and cannot change: the environment switches,
    the fixtures (data/*.json, not part of the sources at hand), the answer
    of the catalog, the driver calls that throw (store unreachable, bad
    id, ...), and the clock. *)
Record Env := mkEnv {
  USE_DUMMY_PRODUCTS : bool;
  USE_DUMMY_ANALYTICS : bool;
  productosDemo : list PublicacionFromAPI;
  clicksDummy : list DummyClick;
  publicaciones : ApiResponse;
  db_throws : DbCall -> bool;
  clock : Z
}.

Record Db := mkDb {
  search_history : list SearchHistory;
  search_queries : list SearchQuery;
  clicks : list Click;
  next_oid : N
}.

Inductive LogLevel := LvLog | LvWarn | LvError.

(** The mutable state of the process: the database, the session map of
    sessionService.ts and the console. *)
Record World := mkWorld {
  db : Db;
  activeSessions : gmap string SessionInfo;
  console : list (LogLevel * string)
}.

Definition set_db (d : Db) (w : World) : World :=
  mkWorld d (activeSessions w) (console w).

Definition set_activeSessions (m : gmap string SessionInfo) (w : World) : World :=
  mkWorld (db w) m (console w).

Definition set_search_history (l : list SearchHistory) (d : Db) : Db :=
  mkDb l (search_queries d) (clicks d) (next_oid d).

Definition set_search_queries (l : list SearchQuery) (d : Db) : Db :=
  mkDb (search_history d) l (clicks d) (next_oid d).

Definition set_clicks (l : list Click) (d : Db) : Db :=
  mkDb (search_history d) (search_queries d) l (next_oid d).

(** A fresh [_id] for an inserted document. *)
Definition fresh_oid (d : Db) : string * Db :=
  (HexString.of_N (next_oid d),
   mkDb (search_history d) (search_queries d) (clicks d) (N.succ (next_oid d))).

(** Computations: they read the environment, change the world and either
    return or throw.  What was changed before a throw stays changed. *)
Definition M (A : Type) : Type := Env -> World -> Outcome A * World.

Definition ret {A} (a : A) : M A := fun _ w => (Returns a, w).

Definition bind {A B} (m : M A) (f : A -> M B) : M B :=
  fun env w =>
    match m env w with
    | (Returns a, w') => f a env w'
    | (Throws e, w') => (Throws e, w')
    end.

Definition throw {A} (e : Error) : M A := fun _ w => (Throws e, w).

(** [try { body } catch (error) { handler }] *)
Definition try_catch {A} (body : M A) (handler : Error -> M A) : M A :=
  fun env w =>
    match body env w with
    | (Returns a, w') => (Returns a, w')
    | (Throws e, w') => handler e env w'
    end.

Definition ask : M Env := fun env w => (Returns env, w).

Definition get : M World := fun _ w => (Returns w, w).

Definition modify (f : World -> World) : M unit := fun _ w => (Returns tt, f w).

(** [Date.now()], [new Date()] *)
Definition Date_now : M Z := fun env w => (Returns (clock env), w).

Definition console_log (msg : string) : M unit :=
  modify (fun w => mkWorld (db w) (activeSessions w) (console w ++ [(LvLog, msg)])).

Definition console_warn (msg : string) : M unit :=
  modify (fun w => mkWorld (db w) (activeSessions w) (console w ++ [(LvWarn, msg)])).

Definition console_error (msg : string) : M unit :=
  modify (fun w => mkWorld (db w) (activeSessions w) (console w ++ [(LvError, msg)])).

(** Decimal rendering of a number inside a template literal. *)
Definition show (z : Z) : string := NilZero.string_of_int (Z.to_int z).

(** A computation that touches nothing but the console. *)
Definition console_only {A} (m : M A) : Prop :=
  forall env w,
    db (snd (m env w)) = db w /\ activeSessions (snd (m env w)) = activeSessions w.

(** A computation whose outcome depends on the environment alone. *)
Definition env_only {A} (m : M A) : Prop :=
  forall env w1 w2, fst (m env w1) = fst (m env w2).

Definition run {A} (m : M A) (env : Env) (w : World) : Outcome A := fst (m env w).

Definition exec {A} (m : M A) (env : Env) (w : World) : World := snd (m env w).

End Runtime.

Declare Scope m_scope.
Delimit Scope m_scope with M.
Notation "x <- m ;; k" := (Runtime.bind m (fun x => k))
  (at level 100, m at next level, right associativity) : m_scope.
Notation "m ;;; k" := (Runtime.bind m (fun _ => k))
  (at level 100, right associativity) : m_scope.

(* ===================================================================== *)
(** ** The database driver, as the services call it *)
(* ===================================================================== *)

Module Mongo.
Import Models Runtime.

(** A driver call throws when the database cannot serve it and otherwise
    reads or changes the collections. *)
Definition call {A} (c : DbCall) (f : Db -> A * Db) : M A :=
  fun env w =>
    if db_throws env c then (Throws (Err "MongoError"), w)
    else let '(a, d) := f (db w) in (Returns a, set_db d w).

(** Removal of the first document a filter matches ([deleteOne]). *)
Fixpoint deleteFirst {A} (p : A -> bool) (l : list A) : Z * list A :=
  match l with
  | [] => (0, [])
  | x :: xs =>
      if p x then (1, xs)
      else let '(n, r) := deleteFirst p xs in (n, x :: r)
  end.

(** Removal of every document a filter matches ([deleteMany]). *)
Definition deleteAll {A} (p : A -> bool) (l : list A) : Z * list A :=
  (Z.of_nat (length (List.filter p l)), List.filter (fun x => negb (p x)) l).

(** [SearchHistory.deleteOne({ _id, userId })], giving [deletedCount] *)
Definition SearchHistory_deleteOne (_id userId : string) : M Z :=
  call (HistoryDeleteOne _id userId) (fun d =>
    let '(n, r) := deleteFirst
                     (fun h => String.eqb (h_id h) _id && String.eqb (h_userId h) userId)
                     (search_history d) in
    (n, set_search_history r d)).

(** [SearchHistory.deleteMany({ userId })], giving [deletedCount] *)
Definition SearchHistory_deleteMany (userId : string) : M Z :=
  call (HistoryDeleteMany userId) (fun d =>
    let '(n, r) := deleteAll (fun h => String.eqb (h_userId h) userId) (search_history d) in
    (n, set_search_history r d)).

(** [Click.deleteMany({ userId })], giving [deletedCount] *)
Definition Click_deleteMany (userId : string) : M Z :=
  call (ClickDeleteMany userId) (fun d =>
    let '(n, r) := deleteAll
                     (fun c => match click_userId c with
                               | Some u => String.eqb u userId
                               | None => false
                               end)
                     (clicks d) in
    (n, set_clicks r d)).

(** [SearchHistory.find({ userId }).sort({ requestedAt: -1 }).limit(n)] *)
Definition SearchHistory_find_sorted (userId : string) (limit : nat) : M (list SearchHistory) :=
  call (HistoryFind userId) (fun d =>
    (take limit
       (JS.sort (fun a b => h_requestedAt b - h_requestedAt a)
          (List.filter (fun h => String.eqb (h_userId h) userId) (search_history d))),
     d)).

(** [new SearchHistory(doc).save()]: [userId] and [queryText] are required
    (a required string must not be empty); the saved document carries its
    own [_id], whatever [h_id doc] was. *)
Definition with_id (oid : string) (h : SearchHistory) : SearchHistory :=
  mkSearchHistory oid (h_userId h) (h_queryText h) (h_filters h) (h_sortBy h)
    (h_sortDir h) (h_page h) (h_pageSize h) (h_requestedAt h) (h_results h).

Definition SearchHistory_save (doc : SearchHistory) : M SearchHistory :=
  fun env w =>
    if negb (JS.truthy (h_userId doc)) || negb (JS.truthy (h_queryText doc))
    then (Throws (Err "ValidationError"), w)
    else call HistorySave (fun d =>
           let '(oid, d') := fresh_oid d in
           (with_id oid doc, set_search_history (search_history d' ++ [with_id oid doc]) d'))
           env w.

(** [SearchQuery.create({ valor_busqueda, fecha })] *)
Definition SearchQuery_create (valor_busqueda : string) (fecha : Z) : M unit :=
  fun env w =>
    if negb (JS.truthy valor_busqueda) then (Throws (Err "ValidationError"), w)
    else call QueryCreate (fun d =>
           let '(oid, d') := fresh_oid d in
           (tt, set_search_queries
                  (search_queries d' ++ [mkSearchQuery oid valor_busqueda fecha]) d')) env w.

(** [Click.create({ id_producto, nombre, fecha, userId })] *)
Definition Click_create (id_producto nombre : string) (fecha : Z) (userId : option string)
  : M unit :=
  fun env w =>
    if negb (JS.truthy id_producto) || negb (JS.truthy nombre)
    then (Throws (Err "ValidationError"), w)
    else call ClickCreate (fun d =>
           let '(oid, d') := fresh_oid d in
           (tt, set_clicks (clicks d' ++ [mkClick oid id_producto nombre fecha userId]) d'))
           env w.

(** The filter [{ id_producto: { $exists: true, $nin: [null, ''] } }] *)
Definition valid_id_producto (c : Click) : bool := JS.truthy (click_id_producto c).

(** [Click.countDocuments()] and [Click.countDocuments(filter)] *)
Definition Click_countDocuments (filter : Click -> bool) : M Z :=
  call ClickCount (fun d => (Z.of_nat (length (List.filter filter (clicks d))), d)).

(** The field list of [select('a b c')]: the names between spaces. *)
Fixpoint split_fields (acc : string) (s : string) : list string :=
  match s with
  | EmptyString => if JS.truthy acc then [acc] else []
  | String c s' =>
      if Ascii.eqb c " "%char
      then (if JS.truthy acc then [acc] else []) ++ split_fields EmptyString s'
      else split_fields (acc +:+ String c EmptyString) s'
  end.

(** An inclusive projection keeps the named fields, and [_id], which is
    kept unless it is excluded by name. *)
Definition select (fields : string) (o : JsObj) : JsObj :=
  let names := split_fields EmptyString fields in
  List.filter (fun kv => String.eqb (fst kv) "_id" || existsb (String.eqb (fst kv)) names) o.

(** [Click.find().select(fields).sort({ fecha: -1 }).lean()] *)
Definition Click_find_select_sort_lean (fields : string) : M (list JsObj) :=
  call ClickFind (fun d =>
    (map (fun c => select fields (lean_click c))
         (JS.sort (fun a b => click_fecha b - click_fecha a) (clicks d)),
     d)).

(** One group of the [$group] stage of the popular-products pipeline:
    [{ _id: '$id_producto', clickCount: { $sum: 1 }, lastClick: { $max:
    '$fecha' }, nombre: { $first: '$nombre' } }]. *)
Record ClickGroup := mkGroup {
  g_id : string;
  g_clickCount : Z;
  g_lastClick : Z;
  g_nombre : string
}.

Fixpoint group_add (c : Click) (gs : list ClickGroup) : list ClickGroup :=
  match gs with
  | [] => [mkGroup (click_id_producto c) 1 (click_fecha c) (click_nombre c)]
  | g :: gs' =>
      if String.eqb (g_id g) (click_id_producto c)
      then mkGroup (g_id g) (g_clickCount g + 1)
                   (Z.max (g_lastClick g) (click_fecha c)) (g_nombre g) :: gs'
      else g :: group_add c gs'
  end.

(** [$group] by [id_producto]; groups appear in order of first occurrence. *)
Definition group_by_id_producto (l : list Click) : list ClickGroup :=
  fold_left (fun gs c => group_add c gs) l [].

(** [{ $sort: { clickCount: -1 } }] *)
Definition sort_clickCount_desc (gs : list ClickGroup) : list ClickGroup :=
  JS.sort (fun a b => g_clickCount b - g_clickCount a) gs.

(** [{ $limit: n }]: the stage is rejected unless [n] is a positive integer. *)
Definition limit_stage {A} (n : JS.Number) (l : list A) : Outcome (list A) :=
  match n with
  | JS.Int z => if 1 <=? z then Returns (take (Z.to_nat z) l)
                else Throws (Err "MongoServerError: the limit must be positive")
  | _ => Throws (Err "MongoServerError: the limit must be positive")
  end.

(** [Click.aggregate(pipeline)] *)
Definition Click_aggregate {A} (pipeline : list Click -> Outcome A) : M A :=
  fun env w =>
    if db_throws env ClickAggregate then (Throws (Err "MongoError"), w)
    else match pipeline (clicks (db w)) with
         | Returns a => (Returns a, w)
         | Throws e => (Throws e, w)
         end.

(** [.limit(n)] of a [find]: [0] is no limit, a negative [n] limits like
    its absolute value. *)
Definition limit_docs {A} (n : Z) (l : list A) : list A :=
  if n =? 0 then l else take (Z.to_nat (Z.abs n)) l.

(** [Click.find({ id_producto }).sort({ fecha: -1 }).limit(n)] *)
Definition Click_find_by_producto (id_producto : string) (limit : Z) : M (list Click) :=
  call ClickFind (fun d =>
    (limit_docs limit
       (JS.sort (fun a b => click_fecha b - click_fecha a)
          (List.filter (fun c => String.eqb (click_id_producto c) id_producto) (clicks d))),
     d)).

(** [Click.find({ userId }).sort({ fecha: -1 }).limit(n)] *)
Definition Click_find_by_user (userId : string) (limit : Z) : M (list Click) :=
  call ClickFind (fun d =>
    (limit_docs limit
       (JS.sort (fun a b => click_fecha b - click_fecha a)
          (List.filter (fun c => match click_userId c with
                                 | Some u => String.eqb u userId
                                 | None => false
                                 end) (clicks d))),
     d)).

End Mongo.

(* ===================================================================== *)
(** ** services/sessionService.ts *)
(* ===================================================================== *)

Module SessionService.
Import Models Runtime.
Local Open Scope m_scope.

(** Idle time after which an anonymous session is expired (12 hours). *)
Definition SESSION_TIMEOUT : Z := 12 * 60 * 60 * 1000.

(** Period of the cleanup job (5 minutes). *)
Definition CLEANUP_INTERVAL : Z := 5 * 60 * 1000.

(** [generateSessionId()], given the value [randomUUID()] returned *)
Definition generateSessionId (uuid : string) : string := "session_" +:+ uuid.

Definition registerSession (sessionId : string) : M unit :=
  now <- Date_now ;;
  w <- get ;;
  match activeSessions w !! sessionId with
  | Some session =>
      (* session.lastActivity = now *)
      modify (set_activeSessions
                (<[sessionId := mkSession (Runtime.sessionId session) (createdAt session) now]>
                   (activeSessions w)))
  | None =>
      modify (set_activeSessions
                (<[sessionId := mkSession sessionId now now]> (activeSessions w))) ;;;
      console_log ("Nueva sesión anónima creada: " +:+ sessionId)
  end.

Definition isSessionActive (sessionId : string) : M bool :=
  w <- get ;;
  match activeSessions w !! sessionId with
  | None => ret false
  | Some session =>
      t <- Date_now ;;
      let age := t - lastActivity session in
      ret (age <? SESSION_TIMEOUT)
  end.

Definition getSession (sessionId : string) : M (option SessionInfo) :=
  active <- isSessionActive sessionId ;;
  if negb active then ret None
  else w <- get ;; ret (activeSessions w !! sessionId).

Definition getAnonymousUserId (sessionId : string) : string :=
  "anonymous_" +:+ sessionId.

Definition isAnonymousUserId (userId : string) : bool :=
  JS.startsWith userId "anonymous_".

Definition extractSessionId (userId : string) : option string :=
  if negb (isAnonymousUserId userId) then None
  else Some (JS.replace userId "anonymous_" "").

Definition cleanupSessionHistory (sessionId : string) : M unit :=
  try_catch
    (deletedSearches <- Mongo.SearchHistory_deleteMany ("anonymous_" +:+ sessionId) ;;
     deletedClicks <- Mongo.Click_deleteMany ("anonymous_" +:+ sessionId) ;;
     console_log ("Historial de sesión " +:+ sessionId +:+ " limpiado: "
                  +:+ show deletedSearches +:+ " búsquedas, "
                  +:+ show deletedClicks +:+ " clicks") ;;;
     modify (fun w => set_activeSessions (delete sessionId (activeSessions w)) w))
    (fun error =>
       console_error ("Error al limpiar historial de sesión " +:+ sessionId +:+ ":")).

Definition closeSession (sessionId : string) : M unit :=
  if negb (JS.truthy sessionId) then ret tt
  else console_log ("Cerrando sesión: " +:+ sessionId) ;;;
       cleanupSessionHistory sessionId.

(** [for (const x of xs) { await body(x) }] *)
Fixpoint for_of {A} (xs : list A) (body : A -> M unit) : M unit :=
  match xs with
  | [] => ret tt
  | x :: xs' => body x ;;; for_of xs' body
  end.

(** The scan of [cleanupExpiredSessions]: the ids pushed to
    [expiredSessions] while iterating over the session map.  (A JavaScript
    [Map] iterates in insertion order; the map here lists its entries in
    an order of its own.  Each cascade acts on the records and the entry
    of one session only, so the order plays no part in what follows.) *)
Definition expiredSessions (now : Z) (sessions : gmap string SessionInfo) : list string :=
  map fst
    (List.filter
       (fun entry => let age := now - lastActivity (snd entry) in SESSION_TIMEOUT <=? age)
       (map_to_list sessions)).

Definition cleanupExpiredSessions : M unit :=
  now <- Date_now ;;
  w <- get ;;
  let expired := expiredSessions now (activeSessions w) in
  for_of expired cleanupSessionHistory ;;;
  if (0 <? length expired)%nat
  then console_log ("Limpieza automática: " +:+ show (Z.of_nat (length expired))
                    +:+ " sesiones expiradas eliminadas")
  else ret tt.

Definition getStats : M (Z * Z) :=
  w <- get ;;
  ret (Z.of_nat (size (activeSessions w)), Z.of_nat (size (activeSessions w))).

End SessionService.

(* ===================================================================== *)
(** ** services/productsService.ts *)
(* ===================================================================== *)

Module ProductsService.
Import Models Runtime.
Local Open Scope m_scope.

Record FilterOptions := mkFilterOptions {
  fo_busqueda : option string;
  fo_precio_min : option Z;
  fo_precio_max : option Z;
  fo_categoria : option string;
  fo_condicion : option string;
  fo_ordenar : option string;
  fo_page : option Z;
  fo_pageSize : option Z
}.

(** The empty options object [{}] *)
Definition noOptions : FilterOptions :=
  mkFilterOptions None None None None None None None None.

Record Metadata := mkMetadata {
  md_total : Z;
  md_page : Z;
  md_pageSize : Z;
  md_totalPages : JS.Number;
  md_hasMore : bool
}.

Record PaginatedResponse := mkPaginated {
  productos : list ProductoNormalizado;
  metadata : Metadata
}.

(** The first image of a publication, after [multimedia.sort] by [orden]
    (the sort is in place: the normalized product carries the sorted list). *)
Definition primeraImagen (sorted : list Multimedia) : option string :=
  match sorted with
  | [] => None
  | m :: _ => Some (m_url m)
  end.

Definition normalizePublicacion (pub : PublicacionFromAPI) : M (option ProductoNormalizado) :=
  match pub_producto pub with
  | None =>
      console_warn ("Publicación " +:+ pub_id pub +:+ " sin datos de producto") ;;;
      ret None
  | Some producto =>
      let sorted := JS.sort (fun a b => m_orden a - m_orden b) (pub_multimedia pub) in
      ret (Some (mkProducto (pub_id pub) (pub_id_producto pub) (pub_titulo pub)
                   (pub_descripcion pub) (pa_precio producto) (pa_categoria producto)
                   (pa_condicion producto) (pa_stock producto) (pa_marca producto)
                   sorted (primeraImagen sorted)))
  end.

(** [arr.map(f)] for an effectful [f] *)
Fixpoint mapM {A B} (f : A -> M B) (l : list A) : M (list B) :=
  match l with
  | [] => ret []
  | x :: xs => y <- f x ;; ys <- mapM f xs ;; ret (y :: ys)
  end.

(** [.filter(p => p !== null)] *)
Definition nonNull {A} (l : list (option A)) : list A :=
  flat_map (fun o => match o with Some a => [a] | None => [] end) l.

(** [getDemoProducts()]: the fixture products; reading [p.producto.precio]
    of an entry without [producto] is a TypeError. *)
Definition getDemoProducts : M (list ProductoNormalizado) :=
  env <- ask ;;
  mapM (fun p =>
          match pub_producto p with
          | None => throw (Err "TypeError: Cannot read properties of null")
          | Some producto =>
              let sorted := JS.sort (fun a b => m_orden a - m_orden b) (pub_multimedia p) in
              ret (mkProducto (pub_id p) (pub_id_producto p) (pub_titulo p)
                     (pub_descripcion p) (pa_precio producto) (pa_categoria producto)
                     (pa_condicion producto) (pa_stock producto) (pa_marca producto)
                     sorted (primeraImagen sorted))
          end)
       (productosDemo env).

(** [this.apiClient.get('/publicaciones')], then the array found in the body *)
Definition apiClient_get_publicaciones : M (option (list PublicacionFromAPI)) :=
  fun env w =>
    match publicaciones env with
    | ApiError message => (Throws (Err message), w)
    | ApiData data => (Returns data, w)
    end.

(** Step 1 of [searchAndFilterProducts]: the products to work on. *)
Definition todosProductos : M (list ProductoNormalizado) :=
  env <- ask ;;
  if USE_DUMMY_PRODUCTS env then
    console_log "MODO DUMMY ACTIVADO: Usando productos_dummy.json" ;;;
    getDemoProducts
  else
    try_catch
      (console_log "Obteniendo publicaciones desde API externa (puerto 4040)..." ;;;
       data <- apiClient_get_publicaciones ;;
       match data with
       | Some (pub :: pubs) =>
           console_log (show (Z.of_nat (length (pub :: pubs)))
                        +:+ " publicaciones obtenidas de API EXTERNA (Grupo 2)") ;;;
           normalized <- mapM normalizePublicacion (pub :: pubs) ;;
           ret (nonNull normalized)
       | _ => throw (Err "API no retornó datos")
       end)
      (fun apiError =>
         console_error ("API externa no disponible: " +:+ error_message apiError) ;;;
         throw (Err ("No se pudo conectar con la API de publicaciones: "
                     +:+ error_message apiError))).

Definition from_option {A} (d : A) (o : option A) : A :=
  match o with Some a => a | None => d end.

(** Steps 2 to 5 of [searchAndFilterProducts]: text, price, category and
    condition filters in this order, then the sort. *)
Definition filterAndSort (filters : FilterOptions) (todos : list ProductoNormalizado)
  : list ProductoNormalizado :=
  let busqueda := from_option "" (fo_busqueda filters) in
  let l1 :=
    if JS.truthy busqueda && JS.truthy (JS.trim busqueda) then
      let searchLower := JS.trim (JS.toLowerCase busqueda) in
      List.filter (fun p =>
                     JS.includes (JS.toLowerCase (p_titulo p)) searchLower
                     || JS.includes (JS.toLowerCase (p_descripcion p)) searchLower
                     || JS.includes (JS.toLowerCase (p_marca p)) searchLower)
                  todos
    else todos in
  let l2 :=
    match fo_precio_min filters with
    | Some precio_min => List.filter (fun p => precio_min <=? p_precio p) l1
    | None => l1
    end in
  let l3 :=
    match fo_precio_max filters with
    | Some precio_max => List.filter (fun p => p_precio p <=? precio_max) l2
    | None => l2
    end in
  let l4 :=
    if JS.truthy_opt (fo_categoria filters) then
      List.filter (fun p => String.eqb (JS.toLowerCase (p_categoria p))
                              (JS.toLowerCase (from_option "" (fo_categoria filters)))) l3
    else l3 in
  let l5 :=
    if JS.truthy_opt (fo_condicion filters) then
      List.filter (fun p => String.eqb (JS.toLowerCase (p_condicion p))
                              (JS.toLowerCase (from_option "" (fo_condicion filters)))) l4
    else l4 in
  if JS.truthy_opt (fo_ordenar filters) then
    if String.eqb (from_option "" (fo_ordenar filters)) "precio-asc"
    then JS.sort (fun a b => p_precio a - p_precio b) l5
    else if String.eqb (from_option "" (fo_ordenar filters)) "precio-desc"
    then JS.sort (fun a b => p_precio b - p_precio a) l5
    else l5
  else l5.

Definition show_number (n : JS.Number) : string :=
  match n with
  | JS.Int z => show z
  | JS.PosInf => "Infinity"
  | JS.NegInf => "-Infinity"
  | JS.NaN => "NaN"
  end.

Definition searchAndFilterProducts (filters : FilterOptions) : M PaginatedResponse :=
  let page := from_option 1 (fo_page filters) in
  let pageSize := from_option 20 (fo_pageSize filters) in
  try_catch
    ((* 1. the products of the catalog *)
     todos <- todosProductos ;;
     (* 2-5. filters and sort *)
     let productosFiltrados := filterAndSort filters todos in
     (* 6. pagination *)
     let total := Z.of_nat (length productosFiltrados) in
     let totalPages := JS.Math_ceil_div total pageSize in
     let startIndex := (page - 1) * pageSize in
     let endIndex := startIndex + pageSize in
     let productosPaginados := JS.slice productosFiltrados startIndex endIndex in
     console_log ("Página " +:+ show page +:+ "/" +:+ show_number totalPages
                  +:+ " - Mostrando " +:+ show (Z.of_nat (length productosPaginados))
                  +:+ " de " +:+ show total +:+ " productos") ;;;
     ret (mkPaginated productosPaginados
            (mkMetadata total page pageSize totalPages (JS.lt_num page totalPages))))
    (fun error =>
       console_error ("Error en búsqueda y filtrado: " +:+ error_message error) ;;;
       throw error).

(** [getProductos(filters?)]: every product, optionally of one category. *)
Definition getProductos (categoria : option string) : M (list ProductoNormalizado) :=
  let byCategoria (l : list ProductoNormalizado) :=
    if JS.truthy_opt categoria then
      List.filter (fun p => String.eqb (JS.toLowerCase (p_categoria p))
                              (JS.toLowerCase (from_option "" categoria))) l
    else l in
  try_catch
    (env <- ask ;;
     if USE_DUMMY_PRODUCTS env then
       console_log "MODO DUMMY: Usando productos_dummy.json" ;;;
       demo <- getDemoProducts ;;
       ret (byCategoria demo)
     else
       console_log "Obteniendo todos los productos desde API..." ;;;
       data <- apiClient_get_publicaciones ;;
       match data with
       | Some (pub :: pubs) =>
           normalized <- mapM normalizePublicacion (pub :: pubs) ;;
           let productos := byCategoria (nonNull normalized) in
           console_log (show (Z.of_nat (length productos)) +:+ " productos obtenidos") ;;;
           ret productos
       | _ => throw (Err "API no retornó datos")
       end)
    (fun error =>
       console_error ("Error obteniendo productos: " +:+ error_message error) ;;;
       throw (Err ("No se pudo obtener productos: " +:+ error_message error))).

End ProductsService.

(* ===================================================================== *)
(** ** services/searchService.ts *)
(* ===================================================================== *)

Module SearchService.
Import Models Runtime.
Local Open Scope m_scope.

(** The argument of [saveSearchHistory] *)
Record SaveSearchHistoryData := mkSaveData {
  sd_userId : string;
  sd_queryText : string;
  sd_filters : option SearchFilters;
  sd_sortBy : option string;
  sd_sortDir : option SortDir;
  sd_page : option Z;
  sd_pageSize : option Z;
  sd_results : list string;
  sd_isAnonymous : bool
}.

(** [n || d] for an optional number: [undefined] and [0] give [d]. *)
Definition num_or (n : option Z) (d : Z) : Z :=
  match n with
  | Some z => if z =? 0 then d else z
  | None => d
  end.

Definition saveSearchHistory (data : SaveSearchHistoryData) : M SearchHistory :=
  requestedAt <- Date_now ;;
  let searchHistory :=
    mkSearchHistory "" (sd_userId data) (sd_queryText data)
      (match sd_filters data with Some f => f | None => noFilters end)
      (sd_sortBy data) (sd_sortDir data)
      (num_or (sd_page data) 1) (num_or (sd_pageSize data) 20)
      requestedAt (sd_results data) in
  saved <- Mongo.SearchHistory_save searchHistory ;;
  (if sd_isAnonymous data
   then console_log ("Historial temporal guardado para sesión anónima: " +:+ sd_userId data)
   else console_log ("Historial permanente guardado para usuario: " +:+ sd_userId data)) ;;;
  ret saved.

Definition saveSearchQuery (queryText : string) : M unit :=
  if JS.truthy queryText && JS.truthy (JS.trim queryText) then
    fecha <- Date_now ;;
    Mongo.SearchQuery_create (JS.trim queryText) fecha ;;;
    console_log ("Búsqueda registrada para análisis: " +:+ queryText)
  else ret tt.

(** [getSearchHistory(userId?, limit = 10)] *)
Definition getSearchHistory (userId : option string) (limit : nat) : M (list SearchHistory) :=
  match userId with
  | Some u => if JS.truthy u then Mongo.SearchHistory_find_sorted u limit else ret []
  | None => ret []
  end.

Definition deleteSearchHistory (searchId userId : string) : M bool :=
  deletedCount <- Mongo.SearchHistory_deleteOne searchId userId ;;
  ret (0 <? deletedCount).

Definition clearUserHistory (userId : string) : M Z :=
  deletedCount <- Mongo.SearchHistory_deleteMany userId ;;
  console_log ("Historial completo eliminado para usuario " +:+ userId +:+ ": "
               +:+ show deletedCount +:+ " registros") ;;;
  ret deletedCount.

Definition saveClick (id_producto nombre : string) (userId : option string) : M unit :=
  fecha <- Date_now ;;
  Mongo.Click_create id_producto nombre fecha userId ;;;
  let type :=
    if JS.truthy_opt userId
       && negb (SessionService.isAnonymousUserId (ProductsService.from_option "" userId))
    then "permanente" else "temporal" in
  console_log ("Click " +:+ type +:+ " registrado: " +:+ nombre
               +:+ " (" +:+ id_producto +:+ ")").

(** [getClicksByProduct(id_producto, limit = 100)] *)
Definition getClicksByProduct (id_producto : string) (limit : Z) : M (list Click) :=
  Mongo.Click_find_by_producto id_producto limit.

(** [getClicksByUser(userId, limit = 50)] *)
Definition getClicksByUser (userId : string) (limit : Z) : M (list Click) :=
  Mongo.Click_find_by_user userId limit.

End SearchService.

(* ===================================================================== *)
(** ** Requests and responses *)
(* ===================================================================== *)

Module Express.

(** What the authentication middleware leaves on the request. *)
Record Auth := mkAuth {
  userId : option string;
  sessionId : option string;
  isAnonymous : bool
}.

(** The body given to [res.json]: a payload, or [{ error }]. *)
Inductive Body (A : Type) := Json (payload : A) | ErrorJson (error : string).
Arguments Json {A} payload.
Arguments ErrorJson {A} error.

(** A response: [res.json(x)] answers 200, [res.status(n).json(x)] answers [n]. *)
Record Response (A : Type) := mkResponse { status : Z; body : Body A }.
Arguments mkResponse {A} status body.
Arguments status {A} r.
Arguments body {A} r.

Definition json {A} (payload : A) : Response A := mkResponse 200 (Json payload).

Definition status_error {A} (code : Z) (error : string) : Response A :=
  mkResponse code (ErrorJson error).

End Express.

(* ===================================================================== *)
(** ** controllers/searchController.ts *)
(* ===================================================================== *)

Module SearchController.
Import Models Runtime Express.
Local Open Scope m_scope.

(** [req.searchQuery], the sanitized query that [validateSearchParams]
    stores on the request before [search] runs: strings are trimmed, an
    empty one is [undefined], [page] and [pageSize] are numbers. *)
Record SearchQueryParams := mkSearchQueryParams {
  sq_busqueda : option string;
  sq_precio : option string;
  sq_categoria : option string;
  sq_condicion : option string;
  sq_ordenar : option string;
  sq_page : Z;
  sq_pageSize : Z
}.

(** The price label of the query as a range (the [switch] of [search]). *)
Definition rangoPrecio (precio : string) : option Z * option Z :=
  if String.eqb precio "hasta 5000" then (None, Some 5000)
  else if String.eqb precio "entre 5000 - 10000" then (Some 5000, Some 10000)
  else if String.eqb precio "entre 10000 - 25000" then (Some 10000, Some 25000)
  else if String.eqb precio "entre 25000 - 50000" then (Some 25000, Some 50000)
  else if String.eqb precio "entre 50000 - 100000" then (Some 50000, Some 100000)
  else if String.eqb precio "entre 100000 - 300000" then (Some 100000, Some 300000)
  else if String.eqb precio "entre 300000 - 500000" then (Some 300000, Some 500000)
  else if String.eqb precio "mas de 500000" then (Some 500000, None)
  else (None, None).

(** [x] when it is a non-empty string, for [if (x) obj.k = x] *)
Definition when_truthy (x : option string) : option string :=
  if JS.truthy_opt x then x else None.

Record SearchPayload := mkSearchPayload {
  result : ProductsService.PaginatedResponse;
  response_sessionId : option string
}.

(** The options [search] hands to [searchAndFilterProducts]. *)
Definition searchOptions (safe : SearchQueryParams) : ProductsService.FilterOptions :=
  let busqueda := ProductsService.from_option "" (sq_busqueda safe) in
  let precio := sq_precio safe in
  let '(precio_min, precio_max) :=
    if JS.truthy_opt precio then rangoPrecio (ProductsService.from_option "" precio)
    else (None, None) in
  ProductsService.mkFilterOptions (Some busqueda) precio_min precio_max
    (sq_categoria safe) (sq_condicion safe) (sq_ordenar safe)
    (Some (sq_page safe)) (Some (sq_pageSize safe)).

(** The record [search] hands to [saveSearchHistory]. *)
Definition historyData (req : Auth) (safe : SearchQueryParams)
    (result : ProductsService.PaginatedResponse) : SearchService.SaveSearchHistoryData :=
  let ordenar := sq_ordenar safe in
  let filtros := mkFilters (when_truthy (sq_precio safe)) (when_truthy (sq_categoria safe))
                   (when_truthy (sq_condicion safe)) (when_truthy ordenar) None in
  SearchService.mkSaveData
    (ProductsService.from_option "" (userId req))
    (ProductsService.from_option "" (sq_busqueda safe))
    (Some filtros)
    ordenar
    (if String.eqb (ProductsService.from_option "" ordenar) "precio-asc"
     then Some asc
     else if String.eqb (ProductsService.from_option "" ordenar) "precio-desc"
     then Some desc else None)
    (Some (sq_page safe))
    (Some (sq_pageSize safe))
    (map p_id_producto (ProductsService.productos result))
    (isAnonymous req).

Definition search (req : Auth) (safe : SearchQueryParams) : M (Response SearchPayload) :=
  try_catch
    (let busqueda := ProductsService.from_option "" (sq_busqueda safe) in
     result <- ProductsService.searchAndFilterProducts (searchOptions safe) ;;
     (* 1. search_query whenever there is search text *)
     let hasSearchText := JS.truthy busqueda && negb (String.eqb (JS.trim busqueda) "") in
     (if hasSearchText then SearchService.saveSearchQuery busqueda else ret tt) ;;;
     (* 2. search_history only with text, a userId and results *)
     (if hasSearchText && JS.truthy_opt (userId req)
         && (0 <? length (ProductsService.productos result))%nat
      then SearchService.saveSearchHistory (historyData req safe result) ;;; ret tt
      else ret tt) ;;;
     console_log "Búsqueda realizada en 0ms" ;;;
     console_log ("Página " +:+ show (ProductsService.md_page (ProductsService.metadata result))
                  +:+ "/"
                  +:+ ProductsService.show_number
                        (ProductsService.md_totalPages (ProductsService.metadata result))
                  +:+ " - "
                  +:+ show (ProductsService.md_total (ProductsService.metadata result))
                  +:+ " resultados") ;;;
     ret (json (mkSearchPayload result
                  (if isAnonymous req && JS.truthy_opt (sessionId req)
                   then sessionId req else None))))
    (fun error =>
       console_error "Error en búsqueda:" ;;;
       match error with
       | BadRequestError message => ret (status_error 400 message)
       | Err _ => ret (status_error 500 "Error al realizar la búsqueda")
       end).

Record HistoryPayload := mkHistoryPayload {
  historial : list SearchHistory;
  historial_sessionId : option string;     (* with isTemporary and message *)
}.

Definition getSearchHistory (req : Auth) : M (Response HistoryPayload) :=
  try_catch
    (if negb (JS.truthy_opt (userId req)) then ret (status_error 401 "Usuario no autenticado")
     else
       historial <- SearchService.getSearchHistory (userId req) 10 ;;
       console_log "Historial obtenido en 0ms" ;;;
       ret (json (mkHistoryPayload historial
                    (if isAnonymous req && JS.truthy_opt (sessionId req)
                     then sessionId req else None))))
    (fun error =>
       console_error "Error al obtener historial:" ;;;
       ret (status_error 500 "Error al obtener el historial")).

(** [{ success: true, message }] *)
Record SuccessPayload := mkSuccess { message : string }.

(** [deleteSearchHistory], for [req.params.id] *)
Definition deleteSearchHistory (req : Auth) (id : option string) : M (Response SuccessPayload) :=
  try_catch
    (if negb (JS.truthy_opt id) then ret (status_error 400 "ID de búsqueda requerido")
     else if negb (JS.truthy_opt (userId req))
     then ret (status_error 401 "Usuario no autenticado")
     else
       deleted <- SearchService.deleteSearchHistory
                    (ProductsService.from_option "" id)
                    (ProductsService.from_option "" (userId req)) ;;
       if negb deleted
       then ret (status_error 404 "Búsqueda no encontrada o no autorizado")
       else ret (json (mkSuccess "Búsqueda eliminada del historial")))
    (fun error =>
       console_error "Error al eliminar búsqueda del historial:" ;;;
       ret (status_error 500 "Error al eliminar búsqueda del historial")).

(** [closeAnonymousSession], for the session id found on the request, in
    the body or in the query *)
Definition closeAnonymousSession (sessionId : option string) : M (Response SuccessPayload) :=
  try_catch
    (if negb (JS.truthy_opt sessionId) then ret (status_error 400 "sessionId requerido")
     else
       SessionService.closeSession (ProductsService.from_option "" sessionId) ;;;
       ret (json (mkSuccess "Sesión anónima cerrada y historial temporal eliminado")))
    (fun error =>
       console_error "Error al cerrar sesión anónima:" ;;;
       ret (status_error 500 "Error al cerrar sesión anónima")).

(** [registerProductClick], for a body whose fields are strings *)
Definition registerProductClick (req : Auth) (id_producto nombre : option string)
  : M (Response SuccessPayload) :=
  try_catch
    (if negb (JS.truthy_opt id_producto)
     then ret (status_error 400 "id_producto es requerido y debe ser string")
     else if negb (JS.truthy_opt nombre)
     then ret (status_error 400 "nombre es requerido y debe ser string")
     else
       SearchService.saveClick (ProductsService.from_option "" id_producto)
         (ProductsService.from_option "" nombre) (userId req) ;;;
       ret (json (mkSuccess "Click registrado exitosamente")))
    (fun error =>
       console_error "Error al registrar click:" ;;;
       ret (status_error 500 "Error al registrar el click")).

(** [{ success: true, message, deletedCount }] *)
Record ClearedPayload := mkCleared { cleared_message : string; deletedCount : Z }.

Definition clearSearchHistory (req : Auth) : M (Response ClearedPayload) :=
  try_catch
    (if negb (JS.truthy_opt (userId req)) then ret (status_error 401 "Usuario no autenticado")
     else
       deletedCount <- SearchService.clearUserHistory
                         (ProductsService.from_option "" (userId req)) ;;
       ret (json (mkCleared ("Historial completo eliminado: " +:+ show deletedCount
                             +:+ " registros") deletedCount)))
    (fun error =>
       console_error "Error al limpiar historial:" ;;;
       ret (status_error 500 "Error al limpiar el historial")).

(** [{ id_producto, totalClicks, clicks }] *)
Record ProductClicksPayload := mkProductClicks {
  pc_id_producto : string;
  totalClicks : Z;
  pc_clicks : list Click
}.

(** [req.params.name] *)
Definition param (name : string) (params : list (string * string)) : option string :=
  match List.find (fun kv => String.eqb (fst kv) name) params with
  | Some kv => Some (snd kv)
  | None => None
  end.

(** [getProductClicks]; [params] is [req.params], the values bound to the
    names of the route. *)
Definition getProductClicks (params : list (string * string))
  : M (Response ProductClicksPayload) :=
  try_catch
    (let id_producto := param "id_producto" params in
     if negb (JS.truthy_opt id_producto) then ret (status_error 400 "id_producto es requerido")
     else
       clicks <- SearchService.getClicksByProduct
                   (ProductsService.from_option "" id_producto) 100 ;;
       ret (json (mkProductClicks (ProductsService.from_option "" id_producto)
                    (Z.of_nat (length clicks)) clicks)))
    (fun error =>
       console_error "Error al obtener clicks del producto:" ;;;
       ret (status_error 500 "Error al obtener clicks del producto")).

(** The route [GET /clicks/:productId] of routes/searchRoutes.ts, which
    binds the path segment to the name [productId]. *)
Definition route_clicks_productId (segment : string) : M (Response ProductClicksPayload) :=
  getProductClicks [("productId", segment)].

End SearchController.

(* ===================================================================== *)
(** ** services/analyticsService.ts *)
(* ===================================================================== *)

Module AnalyticsService.
Import Models Runtime.
Local Open Scope m_scope.

(** One entry of the popular-products answer.  [pp_producto] is [None]
    when the entry has no [producto] field, [Some None] for
    [producto: null] and [Some (Some p)] for a joined product. *)
Record PopularProduct := mkPopular {
  pp_id_producto : string;
  pp_nombre : string;
  pp_clickCount : Z;
  pp_lastClick : Z;
  pp_producto : option (option ProductoNormalizado)
}.

(** The aggregation pipeline of [getPopularProducts]: [$match] valid
    [id_producto], [$group], [$sort] by [clickCount] descending, [$limit],
    [$project]. *)
Definition topClicks_pipeline (limit : JS.Number) (clicks : list Click)
  : Outcome (list Mongo.ClickGroup) :=
  Mongo.limit_stage limit
    (Mongo.sort_clickCount_desc
       (Mongo.group_by_id_producto (List.filter Mongo.valid_id_producto clicks))).

(** The entry of the answer when the catalog could not be read. *)
Definition local_entry (item : Mongo.ClickGroup) : PopularProduct :=
  mkPopular (Mongo.g_id item) (Mongo.g_nombre item) (Mongo.g_clickCount item)
    (Mongo.g_lastClick item) None.

(** The entry of the answer joined with the products at hand:
    [producto: producto || null]. *)
Definition joined_entry (productosCompletos : list ProductoNormalizado)
    (item : Mongo.ClickGroup) : PopularProduct :=
  let producto :=
    JS.find (fun p => String.eqb (p_id_producto p) (Mongo.g_id item)) productosCompletos in
  mkPopular (Mongo.g_id item) (Mongo.g_nombre item) (Mongo.g_clickCount item)
    (Mongo.g_lastClick item) (Some producto).

(** The click of the fixture as a click document, for counting. *)
Definition dummy_click (d : DummyClick) : Click :=
  mkClick "" (dc_id_producto d) (dc_nombre d) (dc_fecha d) None.

(** [slice(0, limit)] for a limit that may not be an integer *)
Definition slice_to {A} (l : list A) (limit : JS.Number) : list A :=
  match limit with
  | JS.Int z => JS.slice l 0 z
  | JS.PosInf => l
  | JS.NegInf => []
  | JS.NaN => []
  end.

Definition getPopularProductsFromDummy (limit : JS.Number) : M (list PopularProduct) :=
  env <- ask ;;
  (* clickCounts: per id_producto the count, the first nombre, the last fecha *)
  let clickCounts := Mongo.group_by_id_producto (map dummy_click (clicksDummy env)) in
  productosNormalizados <- ProductsService.getProductos None ;;
  let topProducts :=
    slice_to
      (JS.sort (fun a b => pp_clickCount b - pp_clickCount a)
         (map (joined_entry productosNormalizados) clickCounts))
      limit in
  console_log ("Top " +:+ show (Z.of_nat (length topProducts))
               +:+ " productos populares (DUMMY)") ;;;
  ret topProducts.

(** [getPopularProducts(limit = 6)] *)
Definition getPopularProducts (limit : JS.Number) : M (list PopularProduct) :=
  try_catch
    (env <- ask ;;
     useDummy <-
       (if USE_DUMMY_ANALYTICS env then
          validClickCount <- Mongo.Click_countDocuments Mongo.valid_id_producto ;;
          ret (validClickCount =? 0)
        else ret false) ;;
     if (useDummy : bool) then
       console_log "MODO DUMMY ANALYTICS: Usando clicks_dummy.json" ;;;
       getPopularProductsFromDummy limit
     else
       topClicks <- Mongo.Click_aggregate (topClicks_pipeline limit) ;;
       console_log ("Top " +:+ show (Z.of_nat (length topClicks))
                    +:+ " productos más clickeados (BD real)") ;;;
       try_catch
         (result <- ProductsService.searchAndFilterProducts ProductsService.noOptions ;;
          let productosCompletos := ProductsService.productos result in
          ret (map (joined_entry productosCompletos) topClicks))
         (fun apiError =>
            console_warn "API de productos no disponible, usando datos locales" ;;;
            ret (map local_entry topClicks)))
    (fun error =>
       console_error "Error al obtener productos populares:" ;;;
       throw error).

Definition getAllClicks : M (list JsObj) :=
  try_catch
    (env <- ask ;;
     clickCount <- Mongo.Click_countDocuments (fun _ => true) ;;
     if (clickCount =? 0) && USE_DUMMY_ANALYTICS env then
       console_log "MODO DUMMY ANALYTICS: Usando clicks_dummy.json" ;;;
       ret (map dummy_obj (clicksDummy env))
     else
       (* userId is not selected: it is none of the analytics group's business *)
       clicks <- Mongo.Click_find_select_sort_lean "id_producto nombre fecha" ;;
       console_log (show (Z.of_nat (length clicks)) +:+ " clicks obtenidos (BD real)") ;;;
       ret clicks)
    (fun error =>
       console_error "Error al obtener clicks:" ;;;
       throw error).

End AnalyticsService.

(* ===================================================================== *)
(** ** controllers/analyticsController.ts *)
(* ===================================================================== *)

Module AnalyticsController.
Import Models Runtime Express.
Local Open Scope m_scope.

(** [Math.max(x, b)] and [Math.min(x, b)] for a parsed number [x] *)
Definition max_with (x : JS.Number) (b : Z) : JS.Number :=
  match x with
  | JS.Int z => JS.Int (JS.Math_max z b)
  | JS.PosInf => JS.PosInf
  | JS.NegInf => JS.Int b
  | JS.NaN => JS.NaN
  end.

Definition min_with (x : JS.Number) (b : Z) : JS.Number :=
  match x with
  | JS.Int z => JS.Int (JS.Math_min z b)
  | JS.PosInf => JS.Int b
  | JS.NegInf => JS.NegInf
  | JS.NaN => JS.NaN
  end.

Record TopProductsPayload := mkTopProducts {
  total : Z;
  productos : list AnalyticsService.PopularProduct
}.

(** [getTopProducts]; [limit] is [None] when the query has no [limit] and
    otherwise what [parseInt(req.query.limit, 10)] gives. *)
Definition getTopProducts (limit : option JS.Number) : M (Response TopProductsPayload) :=
  try_catch
    (let limit := match limit with Some n => n | None => JS.Int 6 end in
     let limitSafe := min_with (max_with limit 1) 20 in
     topProducts <- AnalyticsService.getPopularProducts limitSafe ;;
     console_log "Top productos obtenidos en 0ms" ;;;
     ret (json (mkTopProducts (Z.of_nat (length topProducts)) topProducts)))
    (fun error =>
       console_error "Error al obtener top productos:" ;;;
       ret (status_error 500 "Error al obtener productos más buscados")).

Definition getAllClicks : M (Response (list JsObj)) :=
  try_catch
    (clicks <- AnalyticsService.getAllClicks ;;
     ret (json clicks))
    (fun error =>
       console_error "Error al obtener clicks:" ;;;
       ret (status_error 500 "Error al obtener datos de clicks")).

End AnalyticsController.

(* ===================================================================== *)
(** ** services/authService.ts *)
(* ===================================================================== *)

Module AuthService.
Import Models Runtime.
Local Open Scope m_scope.

(** [UserInfo], as the authentication service describes a user. *)
Record UserInfo := mkUserInfo {
  ui_id : string;
  ui_nombre : string;
  ui_apellido : string;
  ui_correo : string;
  ui_roles : list string;
  ui_permisos : list string;
  ui_activo : bool
}.

(** An entry of [tokenCache]. *)
Record CacheEntry := mkCacheEntry {
  ce_userInfo : UserInfo;
  ce_timestamp : Z
}.

(** How [axios.get(AUTH_SERVICE_URL/auth/me)] ends for a token: with the
    user of a 200 answer, or with an error. *)
Inductive AxiosError :=
| Status401
| ECONNREFUSED
| ETIMEDOUT
| OtherAxiosError (message : string)
| NotAxiosError.

Inductive AuthMe := AuthOk (data : UserInfo) | AuthFails (error : AxiosError).

(** The configuration of the module: environment variables, the two JSON
    templates of data/ and the authentication service itself. *)
Record Config := mkConfig {
  AUTH_SERVICE_URL : string;
  USE_DUMMY_AUTH : bool;
  testAuthenticatedUser : UserInfo;
  anonymousUserTemplate : UserInfo;
  auth_me : string -> AuthMe
}.

(** Lifetime of a cache entry (5 minutes). *)
Definition CACHE_DURATION : Z := 5 * 60 * 1000.

(** [verifyToken(token)]; [tokenCache] is passed in and handed back. *)
Definition verifyToken (cfg : Config) (token : string) (tokenCache : gmap string CacheEntry)
  : M (option UserInfo * gmap string CacheEntry) :=
  if negb (JS.truthy token) || String.eqb (JS.trim token) "" then ret (None, tokenCache)
  else if USE_DUMMY_AUTH cfg then
    console_log "MODO PRUEBA ACTIVADO: Usando usuario de prueba autenticado" ;;;
    ret (Some (testAuthenticatedUser cfg), tokenCache)
  else
    now <- Date_now ;;
    let cached := tokenCache !! token in
    let fresh := match cached with
                 | Some entry => now - ce_timestamp entry <? CACHE_DURATION
                 | None => false
                 end in
    if fresh then
      console_log "Token verificado desde cache" ;;;
      ret (option_map ce_userInfo cached, tokenCache)
    else
      (* an expired entry is deleted before the service is asked *)
      let tokenCache := match cached with
                        | Some _ => delete token tokenCache
                        | None => tokenCache
                        end in
      console_log ("Verificando token con servicio de autenticación: "
                   +:+ AUTH_SERVICE_URL cfg +:+ "/auth/me") ;;;
      match auth_me cfg token with
      | AuthOk userInfo =>
          console_log ("Token válido para usuario: " +:+ ui_correo userInfo
                       +:+ " (" +:+ ui_id userInfo +:+ ")") ;;;
          ret (Some userInfo, <[token := mkCacheEntry userInfo now]> tokenCache)
      | AuthFails error =>
          match error with
          | Status401 => console_warn "Token inválido o expirado"
          | ECONNREFUSED =>
              console_error "No se pudo conectar con el servicio de autenticación"
          | ETIMEDOUT =>
              console_error "Timeout al conectar con el servicio de autenticación"
          | OtherAxiosError message =>
              console_error ("Error al verificar token: " +:+ message)
          | NotAxiosError => console_error "Error desconocido al verificar token:"
          end ;;;
          ret (None, tokenCache)
      end.

(** [getAnonymousUser()] *)
Definition getAnonymousUser (cfg : Config) : M UserInfo :=
  console_log "Usando plantilla de usuario anónimo (sin autenticación)" ;;;
  ret (anonymousUserTemplate cfg).

End AuthService.

(* ===================================================================== *)
(** ** middleware/auth.ts *)
(* ===================================================================== *)

Module AuthMiddleware.
Import Models Runtime AuthService.
Local Open Scope m_scope.

(** The fields the middleware adds to the Express request. *)
Record Request := mkRequest {
  req_userId : option string;
  req_userEmail : option string;
  req_userName : option string;
  req_userRoles : option (list string);
  req_userPermissions : option (list string);
  req_userInfo : option UserInfo;
  req_userRole : option string;
  req_sessionId : option string;
  req_isAnonymous : option bool
}.

(** A request no middleware has touched. *)
Definition bare : Request := mkRequest None None None None None None None None None.

(** What the controllers read of the request. *)
Definition auth_of (req : Request) : Express.Auth :=
  Express.mkAuth (req_userId req) (req_sessionId req)
    (match req_isAnonymous req with Some b => b | None => false end).

(** [roles[0]] *)
Definition first_role (roles : list string) : option string :=
  match roles with
  | [] => None
  | r :: _ => Some r
  end.

(** [handleAnonymousSession(req, sessionIdHeader)]; [uuid] is what
    [randomUUID()] gives if a session id has to be generated.  The answer
    is the request and the value of the [X-Session-Id] response header. *)
Definition handleAnonymousSession (cfg : Config) (uuid : string) (req : Request)
    (sessionIdHeader : option string) : M (Request * string) :=
  anonymousUser <- getAnonymousUser cfg ;;
  reuse <- (if JS.truthy_opt sessionIdHeader
            then SessionService.isSessionActive (ProductsService.from_option "" sessionIdHeader)
            else ret false) ;;
  sessionId <- (if negb reuse then
                  let sessionId := SessionService.generateSessionId uuid in
                  console_log ("Nueva sesión anónima: " +:+ sessionId) ;;;
                  ret sessionId
                else
                  let sessionId := ProductsService.from_option "" sessionIdHeader in
                  console_log ("Sesión anónima existente: " +:+ sessionId) ;;;
                  ret sessionId) ;;
  SessionService.registerSession sessionId ;;;
  ret (mkRequest
         (Some (SessionService.getAnonymousUserId sessionId))
         (Some (ui_correo anonymousUser))
         (Some (ui_nombre anonymousUser +:+ " " +:+ ui_apellido anonymousUser))
         (Some (ui_roles anonymousUser))
         (Some (ui_permisos anonymousUser))
         (Some anonymousUser)
         (first_role (ui_roles anonymousUser))
         (Some sessionId)
         (Some true),
       sessionId).

(** [s.split(' ')] *)
Fixpoint split_space (acc : string) (s : string) : list string :=
  match s with
  | EmptyString => [acc]
  | String c s' =>
      if Ascii.eqb c " "%char then acc :: split_space EmptyString s'
      else split_space (acc +:+ String c EmptyString) s'
  end.

(** The request of a verified user. *)
Definition authenticated (req : Request) (userInfo : UserInfo) : Request :=
  mkRequest
    (Some (ui_id userInfo))
    (Some (ui_correo userInfo))
    (Some (ui_nombre userInfo +:+ " " +:+ ui_apellido userInfo))
    (Some (ui_roles userInfo))
    (Some (ui_permisos userInfo))
    (Some userInfo)
    (first_role (ui_roles userInfo))
    (req_sessionId req)
    (Some false).

(** [optionalAuthenticate(req, res, next)] for the headers [authorization]
    and [x-session-id].  It always ends by calling [next()]; the answer is
    the request handed on, the [X-Session-Id] response header if one was
    set, and the token cache. *)
Definition optionalAuthenticate (cfg : Config) (uuid : string)
    (authorization sessionIdHeader : option string)
    (tokenCache : gmap string CacheEntry)
  : M (Request * option string * gmap string CacheEntry) :=
  let anonymous :=
    r <- handleAnonymousSession cfg uuid bare sessionIdHeader ;;
    ret (fst r, Some (snd r), tokenCache) in
  try_catch
    (if JS.truthy_opt authorization then
       let parts := split_space EmptyString (ProductsService.from_option "" authorization) in
       match parts with
       | [scheme; token] =>
           if negb (String.eqb scheme "Bearer") then
             console_warn "Formato de token incorrecto, continuando sin autenticación" ;;;
             anonymous
           else
             v <- verifyToken cfg token tokenCache ;;
             match fst v with
             | Some userInfo =>
                 console_log ("Usuario autenticado: " +:+ ui_correo userInfo
                              +:+ " (" +:+ ui_id userInfo +:+ ")") ;;;
                 ret (authenticated bare userInfo, None, snd v)
             | None =>
                 console_warn "Token inválido, usando sesión anónima" ;;;
                 r <- handleAnonymousSession cfg uuid bare sessionIdHeader ;;
                 ret (fst r, Some (snd r), snd v)
             end
       | _ =>
           console_warn "Formato de token incorrecto, continuando sin autenticación" ;;;
           anonymous
       end
     else anonymous)
    (fun error =>
       console_error "Error en autenticación opcional:" ;;;
       ret (bare, None, tokenCache)).

End AuthMiddleware.

(* ===================================================================== *)
(** ** services/categoriesService.ts *)
(* ===================================================================== *)

Module CategoriesService.
Import Models Runtime.
Local Open Scope m_scope.

(** [TopProduct] *)
Record TopProduct := mkTopProduct {
  tp_productId : option string;
  tp_totalClicks : Z;
  tp_producto : option ProductoNormalizado
}.

(** The value of ['$productId'] in a click: the documents of models/Click.ts
    have the fields [id_producto], [nombre], [fecha] and [userId], and no
    [productId], so the value is missing. *)
Definition field_productId (c : Click) : option string := None.

Fixpoint count_add (k : option string) (gs : list (option string * Z))
  : list (option string * Z) :=
  match gs with
  | [] => [(k, 1)]
  | g :: gs' =>
      if bool_decide (fst g = k)
      then (fst g, snd g + 1) :: gs'
      else g :: count_add k gs'
  end.

(** [{ $group: { _id: key, totalClicks: { $sum: 1 } } }]; a missing key
    groups under null. *)
Definition group_count (key : Click -> option string) (l : list Click)
  : list (option string * Z) :=
  fold_left (fun gs c => count_add (key c) gs) l [].

(** [getTopClickedProducts(limit = 6)] *)
Definition getTopClickedProducts (limit : JS.Number) : M (list TopProduct) :=
  try_catch
    (topProducts <- Mongo.Click_aggregate (fun clicks =>
                      Mongo.limit_stage limit
                        (JS.sort (fun a b => snd b - snd a)
                           (group_count field_productId clicks))) ;;
     productos <- ProductsService.getProductos None ;;
     let topProductsWithDetails :=
       map (fun item =>
              let producto :=
                JS.find (fun p => match fst item with
                                  | Some _id => String.eqb (p_id_producto p) _id
                                  | None => false
                                  end) productos in
              mkTopProduct (fst item) (snd item) producto)
           topProducts in
     ret (List.filter (fun p => match tp_producto p with Some _ => true | None => false end)
            topProductsWithDetails))
    (fun error =>
       console_error "Error al obtener productos más clickeados:" ;;;
       throw error).

(** [getProductsByCategory(categoryName)] *)
Definition getProductsByCategory (categoryName : string) : M (list ProductoNormalizado) :=
  try_catch
    (ProductsService.getProductos (Some categoryName))
    (fun error =>
       console_error "Error al obtener productos por categoría:" ;;;
       throw error).

End CategoriesService.

(* ===================================================================== *)
(** ** middleware/validateSearchParams.ts *)
(* ===================================================================== *)

Module ValidateSearchParams.
Import Models Runtime.

(** A value of the parsed query string: a string, an array (a repeated
    parameter) or a nested object. *)
Inductive QueryValue := QString (s : string) | QArray (l : list string) | QObject.

(** The query object, as [sanitizePlainObject] hands it over. *)
Definition Query := list (string * QueryValue).

Definition ALLOWED_KEYS : list string :=
  ["busqueda"; "precio"; "categoria"; "ubicacion"; "condicion"; "ordenar"; "page"; "pageSize"].

Definition RANGOS_PRECIO : list string :=
  ["hasta 5000"; "entre 5000 - 10000"; "entre 10000 - 25000"; "entre 25000 - 50000";
   "entre 50000 - 100000"; "entre 100000 - 300000"; "entre 300000 - 500000";
   "mas de 500000"].

Definition ORDENAMIENTO_VALIDOS : list string := ["precio-asc"; "precio-desc"].

(** A string between double quotes, for the error messages. *)
Definition quoted (s : string) : string :=
  String (ascii_of_nat 34) (s +:+ String (ascii_of_nat 34) EmptyString).

(** [set.has(x)] *)
Definition has (set : list string) (x : string) : bool := existsb (String.eqb x) set.

(** [cleaned[key]] *)
Definition lookup_key (key : string) (cleaned : Query) : option QueryValue :=
  match List.find (fun kv => String.eqb (fst kv) key) cleaned with
  | Some kv => Some (snd kv)
  | None => None
  end.

(** The decimal digits at the head of a string, most significant first. *)
Fixpoint digits (s : string) (acc : option Z) : option Z :=
  match s with
  | EmptyString => acc
  | String c s' =>
      let n := nat_of_ascii c in
      if ((48 <=? n)%nat && (n <=? 57)%nat)%bool
      then digits s' (Some (10 * match acc with Some a => a | None => 0 end
                            + Z.of_nat (n - 48)))
      else acc
  end.

(** [parseInt(s, 10)]: leading white space, an optional sign, then the
    longest run of digits; [NaN] when there is no digit. *)
Definition parseInt (s : string) : JS.Number :=
  match JS.trimStart s with
  | String "-" rest =>
      match digits rest None with Some z => JS.Int (- z) | None => JS.NaN end
  | String "+" rest =>
      match digits rest None with Some z => JS.Int z | None => JS.NaN end
  | rest =>
      match digits rest None with Some z => JS.Int z | None => JS.NaN end
  end.

(** [parseInt(value as string, 10)] of a query value (an object reads as
    ["[object Object]"]). *)
Definition parseInt_value (v : QueryValue) : JS.Number :=
  match v with
  | QString s => parseInt s
  | QArray l => parseInt (String.concat "," l)
  | QObject => JS.NaN
  end.

(** What the middleware does: it answers 400 with an error, or stores
    [req.searchQuery] (here with [ubicacion] beside it) and calls [next()]. *)
Inductive Validation :=
| Next (searchQuery : SearchController.SearchQueryParams) (ubicacion : option string)
| BadRequest (error : string).

(** The first key that is not allowed or is repeated. *)
Fixpoint check_keys (keys : Query) : option string :=
  match keys with
  | [] => None
  | (key, value) :: rest =>
      if negb (has ALLOWED_KEYS key) then Some ("Parámetro no permitido: " +:+ key)
      else match value with
           | QArray _ => Some ("Parámetro duplicado no permitido: " +:+ key)
           | _ => check_keys rest
           end
  end.

(** [typeof raw === 'string' ? raw.trim() : undefined] *)
Definition trimmed (raw : option QueryValue) : option string :=
  match raw with
  | Some (QString s) => Some (JS.trim s)
  | _ => None
  end.

(** [raw !== undefined && typeof raw !== 'string'] *)
Definition not_string (raw : option QueryValue) : bool :=
  match raw with
  | Some (QString _) => false
  | Some _ => true
  | None => false
  end.

(** [x && x.length > n] *)
Definition longer_than (n : nat) (x : option string) : bool :=
  match x with
  | Some s => JS.truthy s && (n <? String.length s)%nat
  | None => false
  end.

Section WithEscape.

(** [escapeRegex] of utils/security.ts, which is not among the sources. *)
Context (escapeRegex : string -> string).

(** [x ? escapeRegex(x) : undefined] *)
Definition safe (x : option string) : option string :=
  match x with
  | Some s => if JS.truthy s then Some (escapeRegex s) else None
  | None => None
  end.

Definition validateSearchParams (cleaned : Query) : Validation :=
  match check_keys cleaned with
  | Some error => BadRequest error
  | None =>
  let busquedaRaw := lookup_key "busqueda" cleaned in
  let precioRaw := lookup_key "precio" cleaned in
  let categoriaRaw := lookup_key "categoria" cleaned in
  let ubicacionRaw := lookup_key "ubicacion" cleaned in
  let condicionRaw := lookup_key "condicion" cleaned in
  let ordenarRaw := lookup_key "ordenar" cleaned in
  if not_string busquedaRaw then BadRequest "busqueda debe ser string"
  else if not_string categoriaRaw then BadRequest "categoria debe ser string"
  else if not_string ubicacionRaw then BadRequest "ubicacion debe ser string"
  else if not_string condicionRaw then BadRequest "condicion debe ser string"
  else if not_string precioRaw then BadRequest "precio debe ser string"
  else if not_string ordenarRaw then BadRequest "ordenar debe ser string"
  else
  let busqueda := trimmed busquedaRaw in
  let categoria := trimmed categoriaRaw in
  let ubicacion := trimmed ubicacionRaw in
  let condicion := trimmed condicionRaw in
  let precio := trimmed precioRaw in
  let ordenar := trimmed ordenarRaw in
  if longer_than 100 busqueda then BadRequest "busqueda demasiado larga"
  else if longer_than 50 categoria then BadRequest "categoria demasiado larga"
  else if longer_than 50 ubicacion then BadRequest "ubicacion demasiado larga"
  else if longer_than 20 condicion then BadRequest "condicion demasiado larga"
  else if JS.truthy_opt precio
          && negb (has RANGOS_PRECIO (ProductsService.from_option "" precio))
  then BadRequest ("precio inválido (use: " +:+ quoted "hasta 50000" +:+ ", "
                   +:+ quoted "entre 50000 - 100000" +:+ ", "
                   +:+ quoted "entre 100000 - 300000" +:+ ", "
                   +:+ quoted "entre 300000 - 500000" +:+ ", "
                   +:+ quoted "mas de 500000" +:+ ")")
  else if JS.truthy_opt ordenar
          && negb (has ORDENAMIENTO_VALIDOS (ProductsService.from_option "" ordenar))
  then BadRequest ("ordenar inválido (use: " +:+ quoted "precio-asc" +:+ " o "
                   +:+ quoted "precio-desc" +:+ ")")
  else
  let page_check :=
    match lookup_key "page" cleaned with
    | None => Some 1
    | Some pageRaw =>
        match parseInt_value pageRaw with
        | JS.Int parsed => if parsed <? 1 then None else Some parsed
        | _ => None
        end
    end in
  match page_check with
  | None => BadRequest "page debe ser un número entero positivo"
  | Some page =>
  let pageSize_check :=
    match lookup_key "pageSize" cleaned with
    | None => Some 20
    | Some pageSizeRaw =>
        match parseInt_value pageSizeRaw with
        | JS.Int parsed => if (parsed <? 1) || (100 <? parsed) then None else Some parsed
        | _ => None
        end
    end in
  match pageSize_check with
  | None => BadRequest "pageSize debe ser un número entre 1 y 100"
  | Some pageSize =>
      Next (SearchController.mkSearchQueryParams (safe busqueda) precio (safe categoria)
              (safe condicion) ordenar page pageSize)
           (safe ubicacion)
  end
  end
  end.

End WithEscape.

End ValidateSearchParams.

(* ===================================================================== *)
(** ** Invariants of the process state *)
(* ===================================================================== *)

Module Invariants.
Import Models Runtime.

(** The session map is well formed at time [now]: every entry is filed
    under its own id, was created no later than it was last active, and
    was last active no later than [now]. *)
Definition sessions_ok (now : Z) (m : gmap string SessionInfo) : Prop :=
  forall k s, m !! k = Some s ->
    sessionId s = k /\ createdAt s <= lastActivity s /\ lastActivity s <= now.

(** The ids of the stored history records were issued by the store: each
    is the rendering of a number below [next_oid], and no two records
    share one. *)
Definition ids_issued (d : Db) : Prop :=
  (forall h, In h (search_history d) ->
     exists n, h_id h = HexString.of_N n /\ (n < next_oid d)%N)
  /\ NoDup (map h_id (search_history d)).

End Invariants.

(* ===================================================================== *)
(** * Properties of the embedded code *)
(* ===================================================================== *)

Import Models Runtime.
Local Open Scope m_scope.

(** ** Running computations *)

Lemma bind_returns {A B} (m : M A) (f : A -> M B) (env : Env) (w w' : World) (a : A) :
  m env w = (Returns a, w') -> bind m f env w = f a env w'.
Proof. intros H. unfold bind. rewrite H. reflexivity. Qed.

Lemma bind_throws {A B} (m : M A) (f : A -> M B) (env : Env) (w w' : World) (e : Error) :
  m env w = (Throws e, w') -> bind m f env w = (Throws e, w').
Proof. intros H. unfold bind. rewrite H. reflexivity. Qed.

Lemma try_catch_returns {A} (body : M A) (h : Error -> M A) (env : Env) (w w' : World) (a : A) :
  body env w = (Returns a, w') -> try_catch body h env w = (Returns a, w').
Proof. intros H. unfold try_catch. rewrite H. reflexivity. Qed.

Lemma try_catch_throws {A} (body : M A) (h : Error -> M A) (env : Env) (w w' : World) (e : Error) :
  body env w = (Throws e, w') -> try_catch body h env w = h e env w'.
Proof. intros H. unfold try_catch. rewrite H. reflexivity. Qed.

(** ** Session ids and owner ids *)

Lemma startsWith_split (p u : string) :
  JS.startsWith u p = true -> u = p +:+ JS.substringFrom (String.length p) u.
Proof.
  revert u. induction p as [|c p IH]; intros u H; simpl in *.
  - reflexivity.
  - destruct u as [|d u]; [discriminate H|].
    simpl in H. destruct (Ascii.eqb c d) eqn:E; [|discriminate H].
    apply Ascii.eqb_eq in E. subst d.
    change (String c p +:+ ?x) with (String c (p +:+ x)). f_equal. apply IH. exact H.
Qed.

Lemma replace_prefix (s pat rep : string) :
  JS.startsWith s pat = true ->
  JS.replace s pat rep = rep +:+ JS.substringFrom (String.length pat) s.
Proof. intros H. destruct s; cbn [JS.replace]; rewrite H; reflexivity. Qed.

(** C7. For an anonymous owner id [u] (one that starts with [anonymous_])
    deriving the owner id of the extracted session id gives [u] back; for
    any other id [extractSessionId] gives null. *)
Theorem C7_anonymous_owner_id_roundtrip (u : string) :
  (SessionService.isAnonymousUserId u = true ->
   exists s, SessionService.extractSessionId u = Some s
             /\ SessionService.getAnonymousUserId s = u)
  /\ (SessionService.isAnonymousUserId u = false ->
      SessionService.extractSessionId u = None).
Proof.
  unfold SessionService.extractSessionId, SessionService.getAnonymousUserId,
    SessionService.isAnonymousUserId.
  split; intros H; rewrite H; simpl; [|reflexivity].
  eexists; split; [reflexivity|].
  rewrite (replace_prefix _ _ _ H). change ("" +:+ ?x) with x.
  symmetry. exact (startsWith_split _ _ H).
Qed.

Lemma C7_witness :
  (exists s, SessionService.extractSessionId "anonymous_session_42" = Some s
             /\ SessionService.getAnonymousUserId s = "anonymous_session_42")
  /\ SessionService.extractSessionId "user_001" = None.
Proof.
  split.
  - apply (proj1 (C7_anonymous_owner_id_roundtrip "anonymous_session_42")). reflexivity.
  - apply (proj2 (C7_anonymous_owner_id_roundtrip "user_001")). reflexivity.
Defined.

(** ** Session activity and the sweep scan *)

Lemma isSessionActive_eq (env : Env) (w : World) (sid : string) :
  SessionService.isSessionActive sid env w =
  (Returns match activeSessions w !! sid with
           | None => false
           | Some s => clock env - lastActivity s <? SessionService.SESSION_TIMEOUT
           end, w).
Proof.
  unfold SessionService.isSessionActive, bind, get, ret, Date_now.
  destruct (activeSessions w !! sid); reflexivity.
Qed.

Lemma expiredSessions_In (now : Z) (m : gmap string SessionInfo) (sid : string) :
  In sid (SessionService.expiredSessions now m)
  <-> exists s, m !! sid = Some s /\ SessionService.SESSION_TIMEOUT <= now - lastActivity s.
Proof.
  unfold SessionService.expiredSessions. rewrite in_map_iff. split.
  - intros [[k s] [Hk Hin]]. simpl in Hk. subst k.
    apply filter_In in Hin. destruct Hin as [Hin Hage]. simpl in Hage.
    exists s. split; [|lia].
    apply elem_of_map_to_list. apply list_elem_of_In. exact Hin.
  - intros [s [Hs Hage]]. exists (sid, s). split; [reflexivity|].
    apply filter_In. split.
    + apply list_elem_of_In. apply elem_of_map_to_list. exact Hs.
    + simpl. lia.
Qed.

Lemma NoDup_map_fst_filter {A B} (p : A * B -> bool) (l : list (A * B)) :
  NoDup (map fst l) -> NoDup (map fst (List.filter p l)).
Proof.
  induction l as [|x l IH]; simpl; intros H; [constructor|].
  apply NoDup_cons in H. destruct H as [Hx Hl].
  destruct (p x); simpl; [|auto].
  apply NoDup_cons. split; [|auto].
  intros Hin. apply Hx. apply list_elem_of_In in Hin. apply list_elem_of_In.
  apply in_map_iff in Hin. destruct Hin as [y [Hy Hin]].
  apply filter_In in Hin. apply in_map_iff. exists y. tauto.
Qed.

Lemma expiredSessions_NoDup (now : Z) (m : gmap string SessionInfo) :
  NoDup (SessionService.expiredSessions now m).
Proof.
  unfold SessionService.expiredSessions. apply NoDup_map_fst_filter.
  exact (NoDup_fst_map_to_list m).
Qed.

(** C6. [isSessionActive] answers true exactly for a registered session
    idle for less than 12 hours; the scan of [cleanupExpiredSessions]
    collects, once each, exactly the registered sessions idle for 12 hours
    or more, and these are the sessions the run cleans up. *)
Theorem C6_session_activity_and_sweep_scan (env : Env) (w : World) (sid : string) :
  (exists b, SessionService.isSessionActive sid env w = (Returns b, w)
             /\ (b = true <-> exists s, activeSessions w !! sid = Some s
                                         /\ clock env - lastActivity s < 12 * 60 * 60 * 1000))
  /\ (In sid (SessionService.expiredSessions (clock env) (activeSessions w))
      <-> exists s, activeSessions w !! sid = Some s
                    /\ clock env - lastActivity s >= 12 * 60 * 60 * 1000)
  /\ NoDup (SessionService.expiredSessions (clock env) (activeSessions w))
  /\ SessionService.cleanupExpiredSessions env w
     = (let expired := SessionService.expiredSessions (clock env) (activeSessions w) in
        SessionService.for_of expired SessionService.cleanupSessionHistory ;;;
        if (0 <? length expired)%nat
        then console_log ("Limpieza automática: " +:+ show (Z.of_nat (length expired))
                          +:+ " sesiones expiradas eliminadas")
        else ret tt) env w.
Proof.
  split; [|split; [|split]].
  - eexists. split; [apply isSessionActive_eq|].
    unfold SessionService.SESSION_TIMEOUT.
    destruct (activeSessions w !! sid) as [s|]; split.
    + intros H. exists s. split; [reflexivity|]. apply Z.ltb_lt in H. lia.
    + intros [s' [Hs Hlt]]. inversion Hs; subst s'. apply Z.ltb_lt. lia.
    + discriminate.
    + intros [s' [Hs _]]. discriminate.
  - rewrite expiredSessions_In. unfold SessionService.SESSION_TIMEOUT.
    split; intros [s [Hs H]]; exists s; (split; [exact Hs|lia]).
  - apply expiredSessions_NoDup.
  - reflexivity.
Qed.

Lemma C6_witness :
  let hour := 60 * 60 * 1000 in
  let env := mkEnv false false [] [] (ApiError "down") (fun _ => false) (20 * hour) in
  let w := mkWorld (mkDb [] [] [] 0)
             (<["fresh" := mkSession "fresh" (9 * hour) (9 * hour)]>
                (<["stale" := mkSession "stale" (1 * hour) (8 * hour)]> ∅)) [] in
  run (SessionService.isSessionActive "fresh") env w = Returns true
  /\ run (SessionService.isSessionActive "stale") env w = Returns false
  /\ In "stale" (SessionService.expiredSessions (clock env) (activeSessions w))
  /\ ~ In "fresh" (SessionService.expiredSessions (clock env) (activeSessions w)).
Proof.
  intros hour env w.
  destruct (C6_session_activity_and_sweep_scan env w "fresh") as [[b1 [E1 H1]] [F1 _]].
  destruct (C6_session_activity_and_sweep_scan env w "stale") as [[b2 [E2 H2]] [F2 _]].
  unfold run. rewrite E1, E2. cbn [fst].
  split; [|split; [|split]].
  - f_equal. apply H1. exists (mkSession "fresh" (9 * hour) (9 * hour)).
    split; [reflexivity|subst hour; simpl; lia].
  - f_equal. destruct b2; [|reflexivity].
    destruct (proj1 H2 eq_refl) as [s [Hs Hlt]].
    vm_compute in Hs. injection Hs as <-. subst hour. simpl in Hlt. lia.
  - apply F2. exists (mkSession "stale" (1 * hour) (8 * hour)).
    split; [reflexivity|subst hour; simpl; lia].
  - intros Hin. destruct (proj1 F1 Hin) as [s [Hs Hge]].
    vm_compute in Hs. injection Hs as <-. subst hour. simpl in Hge. lia.
Defined.

(** ** Registering a session *)

Lemma registerSession_sessions (env : Env) (w : World) (sid : string) :
  fst (SessionService.registerSession sid env w) = Returns tt
  /\ activeSessions (snd (SessionService.registerSession sid env w))
     = <[sid := match activeSessions w !! sid with
                | Some s => mkSession (sessionId s) (createdAt s) (clock env)
                | None => mkSession sid (clock env) (clock env)
                end]> (activeSessions w)
  /\ db (snd (SessionService.registerSession sid env w)) = db w.
Proof.
  unfold SessionService.registerSession, bind, get, Date_now, modify, console_log, modify.
  destruct (activeSessions w !! sid); simpl; auto.
Qed.

(** C10. [registerSession] on a registered id changes only the
    [lastActivity] of that entry; on a new id it adds an entry created and
    last active now; no other entry is touched. *)
Theorem C10_registerSession_frame (env : Env) (w : World) (sid : string) :
  let w' := exec (SessionService.registerSession sid) env w in
  run (SessionService.registerSession sid) env w = Returns tt
  /\ (forall s, activeSessions w !! sid = Some s ->
        exists s', activeSessions w' !! sid = Some s'
                   /\ sessionId s' = sessionId s
                   /\ createdAt s' = createdAt s
                   /\ lastActivity s' = clock env)
  /\ (activeSessions w !! sid = None ->
        exists s', activeSessions w' !! sid = Some s'
                   /\ sessionId s' = sid
                   /\ createdAt s' = clock env
                   /\ lastActivity s' = createdAt s')
  /\ (forall other, other <> sid -> activeSessions w' !! other = activeSessions w !! other)
  /\ db w' = db w.
Proof.
  intros w'. subst w'. unfold run, exec.
  destruct (registerSession_sessions env w sid) as [Hr [Hs Hd]].
  split; [exact Hr|]. rewrite Hs. repeat split.
  - intros s H. rewrite H, lookup_insert_eq. eexists. split; [reflexivity|]. auto.
  - intros H. rewrite H, lookup_insert_eq. eexists. split; [reflexivity|]. auto.
  - intros other Hne. apply lookup_insert_ne. congruence.
  - exact Hd.
Qed.

Lemma C10_witness :
  let env := mkEnv false false [] [] (ApiError "down") (fun _ => false) 5000 in
  let w := mkWorld (mkDb [] [] [] 0)
             (<["s1" := mkSession "s1" 1000 2000]> (<["s2" := mkSession "s2" 1500 1500]> ∅)) [] in
  let w' := exec (SessionService.registerSession "s1") env w in
  (exists s', activeSessions w' !! "s1" = Some s'
              /\ sessionId s' = "s1" /\ createdAt s' = 1000 /\ lastActivity s' = 5000)
  /\ activeSessions w' !! "s2" = activeSessions w !! "s2"
  /\ (exists s', activeSessions (exec (SessionService.registerSession "s3") env w) !! "s3" = Some s'
                 /\ sessionId s' = "s3" /\ createdAt s' = 5000 /\ lastActivity s' = createdAt s').
Proof.
  intros env w w'.
  pose proof (C10_registerSession_frame env w "s1") as H1.
  pose proof (C10_registerSession_frame env w "s3") as H3.
  split; [|split].
  - apply (proj1 (proj2 H1) (mkSession "s1" 1000 2000)). reflexivity.
  - apply (proj1 (proj2 (proj2 (proj2 H1)))). discriminate.
  - apply (proj1 (proj2 (proj2 H3))). reflexivity.
Defined.

(** ** The cascade of a session and its failures *)

(** The three ways [cleanupSessionHistory] can go. *)
Lemma cleanupSessionHistory_cases (env : Env) (w : World) (sid : string) :
  let uid := "anonymous_" +:+ sid in
  fst (SessionService.cleanupSessionHistory sid env w) = Returns tt
  /\ (db_throws env (HistoryDeleteMany uid) = true ->
      activeSessions (snd (SessionService.cleanupSessionHistory sid env w)) = activeSessions w
      /\ db (snd (SessionService.cleanupSessionHistory sid env w)) = db w)
  /\ (db_throws env (HistoryDeleteMany uid) = false ->
      db_throws env (ClickDeleteMany uid) = true ->
      activeSessions (snd (SessionService.cleanupSessionHistory sid env w)) = activeSessions w)
  /\ (db_throws env (HistoryDeleteMany uid) = false ->
      db_throws env (ClickDeleteMany uid) = false ->
      activeSessions (snd (SessionService.cleanupSessionHistory sid env w))
      = delete sid (activeSessions w)
      /\ search_history (db (snd (SessionService.cleanupSessionHistory sid env w)))
         = List.filter (fun h => negb (String.eqb (h_userId h) uid)) (search_history (db w))
      /\ clicks (db (snd (SessionService.cleanupSessionHistory sid env w)))
         = List.filter (fun c => negb match click_userId c with
                                      | Some u => String.eqb u uid
                                      | None => false
                                      end) (clicks (db w))).
Proof.
  intros uid. subst uid.
  unfold SessionService.cleanupSessionHistory, try_catch, bind,
    Mongo.SearchHistory_deleteMany, Mongo.Click_deleteMany, Mongo.call, Mongo.deleteAll,
    console_log, console_error, modify.
  destruct (db_throws env (HistoryDeleteMany ("anonymous_" +:+ sid))) eqn:E1; simpl.
  - repeat split; auto; discriminate.
  - destruct (db_throws env (ClickDeleteMany ("anonymous_" +:+ sid))) eqn:E2; simpl;
      repeat split; auto; discriminate.
Qed.

Lemma cleanupSessionHistory_lookup (env : Env) (w : World) (sid k : string) :
  activeSessions (snd (SessionService.cleanupSessionHistory sid env w)) !! k
  = if decide (k = sid) then
      (if db_throws env (HistoryDeleteMany ("anonymous_" +:+ sid))
          || db_throws env (ClickDeleteMany ("anonymous_" +:+ sid))
       then activeSessions w !! k else None)
    else activeSessions w !! k.
Proof.
  destruct (cleanupSessionHistory_cases env w sid) as [_ [H1 [H2 H3]]].
  destruct (db_throws env (HistoryDeleteMany ("anonymous_" +:+ sid))) eqn:E1; simpl.
  - destruct (H1 eq_refl) as [-> _]. destruct (decide (k = sid)); reflexivity.
  - destruct (db_throws env (ClickDeleteMany ("anonymous_" +:+ sid))) eqn:E2; simpl.
    + rewrite (H2 eq_refl eq_refl). destruct (decide (k = sid)); reflexivity.
    + destruct (H3 eq_refl eq_refl) as [-> _].
      destruct (decide (k = sid)) as [->|Hne].
      * apply lookup_delete_eq.
      * apply lookup_delete_ne. congruence.
Qed.

(** A sweep over any list of sessions returns, and an entry is gone
    afterwards only if it was swept and its cascade did not fail. *)
Lemma for_of_cleanup (env : Env) (l : list string) (w : World) :
  fst (SessionService.for_of l SessionService.cleanupSessionHistory env w) = Returns tt
  /\ forall k,
       activeSessions (snd (SessionService.for_of l SessionService.cleanupSessionHistory env w)) !! k
       = if existsb (String.eqb k) l
            && negb (db_throws env (HistoryDeleteMany ("anonymous_" +:+ k))
                     || db_throws env (ClickDeleteMany ("anonymous_" +:+ k)))
         then None else activeSessions w !! k.
Proof.
  revert w. induction l as [|sid l IH]; intros w.
  - simpl. split; [reflexivity|]. intros k. reflexivity.
  - cbn [SessionService.for_of]. unfold bind at 1. unfold bind at 1.
    destruct (cleanupSessionHistory_cases env w sid) as [Hr _].
    pose proof (cleanupSessionHistory_lookup env w sid) as Hk.
    destruct (SessionService.cleanupSessionHistory sid env w) as [o w1].
    simpl in Hr, Hk. subst o.
    destruct (IH w1) as [IHr IHk]. split; [exact IHr|].
    intros k. rewrite IHk, Hk. simpl.
    destruct (String.eqb_spec k sid) as [->|Hne].
    + rewrite decide_True by reflexivity. simpl.
      destruct (db_throws env (HistoryDeleteMany ("anonymous_" +:+ sid))
                || db_throws env (ClickDeleteMany ("anonymous_" +:+ sid))); simpl.
      * rewrite andb_false_r. reflexivity.
      * destruct (existsb _ l); reflexivity.
    + rewrite decide_False by exact Hne. simpl. reflexivity.
Qed.

Lemma cleanupExpiredSessions_effect (env : Env) (w : World) :
  fst (SessionService.cleanupExpiredSessions env w) = Returns tt
  /\ forall k,
       activeSessions (snd (SessionService.cleanupExpiredSessions env w)) !! k
       = if existsb (String.eqb k)
              (SessionService.expiredSessions (clock env) (activeSessions w))
            && negb (db_throws env (HistoryDeleteMany ("anonymous_" +:+ k))
                     || db_throws env (ClickDeleteMany ("anonymous_" +:+ k)))
         then None else activeSessions w !! k.
Proof.
  assert (E : SessionService.cleanupExpiredSessions env w
              = match SessionService.for_of
                        (SessionService.expiredSessions (clock env) (activeSessions w))
                        SessionService.cleanupSessionHistory env w with
                | (Returns _, w1) =>
                    (if (0 <? length (SessionService.expiredSessions (clock env)
                                        (activeSessions w)))%nat
                     then console_log ("Limpieza automática: "
                            +:+ show (Z.of_nat (length (SessionService.expiredSessions
                                                          (clock env) (activeSessions w))))
                            +:+ " sesiones expiradas eliminadas")
                     else ret tt) env w1
                | (Throws e, w1) => (Throws e, w1)
                end) by reflexivity.
  rewrite E. clear E.
  destruct (for_of_cleanup env
              (SessionService.expiredSessions (clock env) (activeSessions w)) w) as [Hr Hk].
  destruct (SessionService.for_of _ SessionService.cleanupSessionHistory env w) as [o w1].
  simpl in Hr, Hk. subst o.
  destruct (0 <? length _)%nat; simpl; split; auto.
Qed.

(** C8. A cascade that throws does not escape [cleanupSessionHistory], so
    the sweep does not crash; the session then stays registered, unchanged,
    and the next sweep collects it again.  The registry entry is removed
    only when both store deletions have completed. *)
Theorem C8_cascade_failure_keeps_session (env : Env) (w : World) (sid : string) :
  let uid := SessionService.getAnonymousUserId sid in
  let w' := exec (SessionService.cleanupSessionHistory sid) env w in
  let swept := exec SessionService.cleanupExpiredSessions env w in
  run (SessionService.cleanupSessionHistory sid) env w = Returns tt
  /\ run SessionService.cleanupExpiredSessions env w = Returns tt
  /\ (db_throws env (HistoryDeleteMany uid) = true
      \/ db_throws env (ClickDeleteMany uid) = true ->
      activeSessions w' = activeSessions w
      /\ activeSessions swept !! sid = activeSessions w !! sid
      /\ (forall later, clock env <= later ->
            In sid (SessionService.expiredSessions (clock env) (activeSessions w)) ->
            In sid (SessionService.expiredSessions later (activeSessions swept))))
  /\ (forall s, activeSessions w !! sid = Some s -> activeSessions w' !! sid = None ->
        db_throws env (HistoryDeleteMany uid) = false
        /\ db_throws env (ClickDeleteMany uid) = false
        /\ (forall h, In h (search_history (db w')) -> h_userId h <> uid)
        /\ (forall c, In c (clicks (db w')) -> click_userId c <> Some uid)).
Proof.
  intros uid w' swept. subst uid w' swept.
  unfold run, exec, SessionService.getAnonymousUserId.
  destruct (cleanupSessionHistory_cases env w sid) as [Hr [H1 [H2 H3]]].
  destruct (cleanupExpiredSessions_effect env w) as [Hsr Hsk].
  split; [exact Hr|]. split; [exact Hsr|]. split.
  - intros Hfail.
    assert (Hor : db_throws env (HistoryDeleteMany ("anonymous_" +:+ sid))
                  || db_throws env (ClickDeleteMany ("anonymous_" +:+ sid)) = true).
    { destruct Hfail as [-> | ->]; [reflexivity | apply orb_true_r]. }
    assert (Hkeep : activeSessions (snd (SessionService.cleanupExpiredSessions env w)) !! sid
                    = activeSessions w !! sid).
    { rewrite Hsk, Hor. simpl. rewrite andb_false_r. reflexivity. }
    split; [|split; [exact Hkeep|]].
    + destruct (db_throws env (HistoryDeleteMany ("anonymous_" +:+ sid))) eqn:E1.
      * apply (H1 eq_refl).
      * simpl in Hor. apply (H2 eq_refl Hor).
    + intros later Hlater Hin.
      apply expiredSessions_In in Hin. destruct Hin as [s [Hs Hage]].
      apply expiredSessions_In. exists s. split; [|lia].
      rewrite Hkeep. exact Hs.
  - intros s Hs Hgone.
    destruct (db_throws env (HistoryDeleteMany ("anonymous_" +:+ sid))) eqn:E1.
    { destruct (H1 eq_refl) as [Hkeep _]. rewrite Hkeep, Hs in Hgone. discriminate. }
    destruct (db_throws env (ClickDeleteMany ("anonymous_" +:+ sid))) eqn:E2.
    { rewrite (H2 eq_refl eq_refl), Hs in Hgone. discriminate. }
    destruct (H3 eq_refl eq_refl) as [_ [Hh Hc]].
    split; [reflexivity|]. split; [reflexivity|]. split.
    + intros h Hin Heq. rewrite Hh in Hin. apply filter_In in Hin.
      destruct Hin as [_ Hp]. rewrite Heq, String.eqb_refl in Hp. discriminate.
    + intros c Hin Heq. rewrite Hc in Hin. apply filter_In in Hin.
      destruct Hin as [_ Hp]. rewrite Heq, String.eqb_refl in Hp. discriminate.
Qed.

Lemma C8_witness :
  let env := mkEnv false false [] [] (ApiError "down")
               (fun c => match c with
                         | ClickDeleteMany u => String.eqb u "anonymous_s1"
                         | _ => false
                         end)
               (50 * 60 * 60 * 1000) in
  let h1 := mkSearchHistory "h1" "anonymous_s1" "laptop" noFilters None None 1 20 1000 ["A"] in
  let c1 := mkClick "c1" "A" "Laptop" 1000 (Some "anonymous_s2") in
  let w := mkWorld (mkDb [h1] [] [c1] 2)
             (<["s1" := mkSession "s1" 1000 2000]> (<["s2" := mkSession "s2" 1500 1500]> ∅)) [] in
  (activeSessions (exec (SessionService.cleanupSessionHistory "s1") env w) = activeSessions w
   /\ activeSessions (exec SessionService.cleanupExpiredSessions env w) !! "s1"
      = activeSessions w !! "s1"
   /\ (forall later, clock env <= later ->
         In "s1" (SessionService.expiredSessions (clock env) (activeSessions w)) ->
         In "s1" (SessionService.expiredSessions later
                    (activeSessions (exec SessionService.cleanupExpiredSessions env w)))))
  /\ (db_throws env (HistoryDeleteMany (SessionService.getAnonymousUserId "s2")) = false
      /\ db_throws env (ClickDeleteMany (SessionService.getAnonymousUserId "s2")) = false
      /\ (forall h, In h (search_history (db (exec (SessionService.cleanupSessionHistory "s2") env w)))
                    -> h_userId h <> SessionService.getAnonymousUserId "s2")
      /\ (forall c, In c (clicks (db (exec (SessionService.cleanupSessionHistory "s2") env w)))
                    -> click_userId c <> Some (SessionService.getAnonymousUserId "s2"))).
Proof.
  intros env h1 c1 w.
  split.
  - apply (proj1 (proj2 (proj2 (C8_cascade_failure_keeps_session env w "s1")))).
    right. reflexivity.
  - apply (proj2 (proj2 (proj2 (C8_cascade_failure_keeps_session env w "s2")))
             (mkSession "s2" 1500 1500)); reflexivity.
Defined.

(** ** Deleting one history record *)

Lemma deleteFirst_none {A} (p : A -> bool) (l : list A) :
  (forall x, In x l -> p x = false) -> Mongo.deleteFirst p l = (0, l).
Proof.
  induction l as [|x l IH]; intros H; simpl; [reflexivity|].
  rewrite (H x (or_introl eq_refl)).
  rewrite IH; [reflexivity|]. intros y Hy. apply H. right. exact Hy.
Qed.

Lemma deleteFirst_deleted {A} (p : A -> bool) (l : list A) :
  0 < fst (Mongo.deleteFirst p l) -> exists x, In x l /\ p x = true.
Proof.
  induction l as [|x l IH]; simpl; intros H; [lia|].
  destruct (p x) eqn:E.
  - exists x. auto.
  - destruct (Mongo.deleteFirst p l) as [n r]. simpl in *.
    destruct (IH H) as [y [Hy Hp]]. exists y. auto.
Qed.

Lemma deleteFirst_unique {A} (p : A -> bool) (l : list A) (r : A) :
  NoDup l -> In r l -> p r = true -> (forall x, In x l -> p x = true -> x = r) ->
  fst (Mongo.deleteFirst p l) = 1
  /\ forall x, In x (snd (Mongo.deleteFirst p l)) <-> In x l /\ x <> r.
Proof.
  induction l as [|y l IH]; intros Hnd Hin Hp Huniq; [destruct Hin|].
  apply NoDup_cons in Hnd. destruct Hnd as [Hy Hnd]. simpl.
  destruct (p y) eqn:E.
  - assert (y = r) by (apply Huniq; [left; reflexivity|exact E]). subst y.
    simpl. split; [reflexivity|]. intros x. split.
    + intros Hx. split; [right; exact Hx|].
      intros ->. apply Hy. apply list_elem_of_In. exact Hx.
    + intros [[Hx|Hx] Hne]; [congruence|exact Hx].
  - destruct Hin as [Hin|Hin]; [congruence|].
    destruct (IH Hnd Hin Hp) as [H1 H2].
    { intros x Hx. apply Huniq. right. exact Hx. }
    destruct (Mongo.deleteFirst p l) as [n rest]. simpl in *.
    split; [exact H1|]. intros x. rewrite H2. split.
    + intros [Hx|[Hx Hne]]; [subst x; split; [auto|congruence]|tauto].
    + intros [[Hx|Hx] Hne]; [auto|tauto].
Qed.

Lemma NoDup_map_inv {A B} (f : A -> B) (l : list A) :
  NoDup (map f l) -> NoDup l /\ forall x y, In x l -> In y l -> f x = f y -> x = y.
Proof.
  induction l as [|a l IH]; simpl; intros H.
  - split; [constructor|]. intros x y [].
  - apply NoDup_cons in H. destruct H as [Ha Hl]. destruct (IH Hl) as [Hnd Hinj].
    assert (Hfresh : forall x, In x l -> f x <> f a).
    { intros x Hx Heq. apply Ha. apply list_elem_of_In. rewrite <- Heq.
      apply in_map. exact Hx. }
    split.
    + apply NoDup_cons. split; [|exact Hnd].
      intros Hin. apply list_elem_of_In in Hin. apply (Hfresh a Hin). reflexivity.
    + intros x y [Hx|Hx] [Hy|Hy] Heq; subst; auto.
      * exfalso. apply (Hfresh y Hy). congruence.
      * exfalso. apply (Hfresh x Hx). congruence.
Qed.

Lemma set_search_history_same (w : World) :
  set_db (set_search_history (search_history (db w)) (db w)) w = w.
Proof. destruct w as [[h q c n] s l]. reflexivity. Qed.

Lemma truthy_opt_Some (s : string) : JS.truthy_opt (Some s) = JS.truthy s.
Proof. reflexivity. Qed.

(** C9. Deleting a stored history record as somebody else deletes nothing
    and answers false, which the controller turns into 404; the store is
    left as it was.  The owner's call answers true and removes that record
    and no other.  A call answers true only for a stored record with that
    id owned by the caller. *)
Theorem C9_delete_history_checks_owner
    (env : Env) (w : World) (r : SearchHistory) (caller : string) (req : Express.Auth) :
  In r (search_history (db w)) ->
  NoDup (map h_id (search_history (db w))) ->
  JS.truthy (h_id r) = true ->
  JS.truthy caller = true ->
  Express.userId req = Some caller ->
  db_throws env (HistoryDeleteOne (h_id r) caller) = false ->
  (caller <> h_userId r ->
   SearchService.deleteSearchHistory (h_id r) caller env w = (Returns false, w)
   /\ SearchController.deleteSearchHistory req (Some (h_id r)) env w
      = (Returns (Express.status_error 404 "Búsqueda no encontrada o no autorizado"), w))
  /\ (caller = h_userId r ->
      let w' := exec (SearchService.deleteSearchHistory (h_id r) caller) env w in
      run (SearchService.deleteSearchHistory (h_id r) caller) env w = Returns true
      /\ (forall x, In x (search_history (db w')) <-> In x (search_history (db w)) /\ x <> r)
      /\ SearchController.deleteSearchHistory req (Some (h_id r)) env w
         = (Returns (Express.json
                       (SearchController.mkSuccess "Búsqueda eliminada del historial")), w'))
  /\ (forall searchId,
        run (SearchService.deleteSearchHistory searchId caller) env w = Returns true ->
        exists x, In x (search_history (db w)) /\ h_id x = searchId /\ h_userId x = caller).
Proof.
  intros Hin Hnd Hid Hcaller Hreq Hdb.
  destruct (NoDup_map_inv _ _ Hnd) as [Hnd' Hinj].
  split; [|split].
  - intros Hne.
    assert (E : SearchService.deleteSearchHistory (h_id r) caller env w = (Returns false, w)).
    { unfold SearchService.deleteSearchHistory, bind, Mongo.SearchHistory_deleteOne, Mongo.call.
      rewrite Hdb. rewrite deleteFirst_none.
      - simpl. rewrite set_search_history_same. reflexivity.
      - intros x Hx. apply andb_false_iff.
        destruct (String.eqb_spec (h_id x) (h_id r)) as [Heq|]; [right|left; reflexivity].
        rewrite (Hinj x r Hx Hin Heq). apply String.eqb_neq. congruence. }
    split; [exact E|].
    unfold SearchController.deleteSearchHistory.
    rewrite Hreq. rewrite !truthy_opt_Some, Hid, Hcaller.
    cbn [negb ProductsService.from_option].
    apply try_catch_returns. rewrite (bind_returns _ _ _ _ _ _ E). reflexivity.
  - intros Heq w'.
    destruct (deleteFirst_unique
                (fun h => String.eqb (h_id h) (h_id r) && String.eqb (h_userId h) caller)
                (search_history (db w)) r Hnd' Hin) as [H1 H2].
    { rewrite Heq, !String.eqb_refl. reflexivity. }
    { intros x Hx Hp. apply andb_true_iff in Hp. destruct Hp as [Hp _].
      apply String.eqb_eq in Hp. exact (Hinj x r Hx Hin Hp). }
    assert (E : SearchService.deleteSearchHistory (h_id r) caller env w = (Returns true, w')).
    { subst w'. unfold exec.
      unfold SearchService.deleteSearchHistory, bind, Mongo.SearchHistory_deleteOne, Mongo.call.
      rewrite Hdb.
      destruct (Mongo.deleteFirst _ (search_history (db w))) as [n rest].
      simpl in H1. subst n. reflexivity. }
    split; [unfold run; rewrite E; reflexivity|]. split.
    + subst w'. unfold exec.
      unfold SearchService.deleteSearchHistory, bind, Mongo.SearchHistory_deleteOne, Mongo.call.
      rewrite Hdb.
      destruct (Mongo.deleteFirst _ (search_history (db w))) as [n rest].
      simpl in *. exact H2.
    + unfold SearchController.deleteSearchHistory.
      rewrite Hreq. rewrite !truthy_opt_Some, Hid, Hcaller.
      cbn [negb ProductsService.from_option].
      apply try_catch_returns. rewrite (bind_returns _ _ _ _ _ _ E). reflexivity.
  - intros searchId. unfold run.
    unfold SearchService.deleteSearchHistory, bind, Mongo.SearchHistory_deleteOne, Mongo.call.
    destruct (db_throws env (HistoryDeleteOne searchId caller)); [discriminate|].
    pose proof (deleteFirst_deleted
                  (fun h => String.eqb (h_id h) searchId && String.eqb (h_userId h) caller)
                  (search_history (db w))) as Hdel.
    destruct (Mongo.deleteFirst _ (search_history (db w))) as [n rest].
    simpl in *. intros H. inversion H as [Hpos]. apply Z.ltb_lt in Hpos.
    destruct (Hdel Hpos) as [x [Hx Hp]]. apply andb_true_iff in Hp.
    destruct Hp as [Hp1 Hp2]. apply String.eqb_eq in Hp1, Hp2. exists x. auto.
Qed.

Lemma C9_witness :
  let env := mkEnv false false [] [] (ApiError "down") (fun _ => false) 5000 in
  let r := mkSearchHistory "0x1" "user_001" "laptop hp" noFilters None None 1 20 1000 ["A"] in
  let r2 := mkSearchHistory "0x2" "user_002" "monitor" noFilters None None 1 20 2000 ["B"] in
  let w := mkWorld (mkDb [r; r2] [] [] 3) ∅ [] in
  (SearchService.deleteSearchHistory "0x1" "user_002" env w = (Returns false, w)
   /\ SearchController.deleteSearchHistory (Express.mkAuth (Some "user_002") None false)
        (Some "0x1") env w
      = (Returns (Express.status_error 404 "Búsqueda no encontrada o no autorizado"), w))
  /\ (let w' := exec (SearchService.deleteSearchHistory "0x1" "user_001") env w in
      run (SearchService.deleteSearchHistory "0x1" "user_001") env w = Returns true
      /\ (forall x, In x (search_history (db w')) <-> In x (search_history (db w)) /\ x <> r)
      /\ SearchController.deleteSearchHistory (Express.mkAuth (Some "user_001") None false)
           (Some "0x1") env w
         = (Returns (Express.json
                       (SearchController.mkSuccess "Búsqueda eliminada del historial")), w')).
Proof.
  intros env r r2 w.
  assert (Hin : In r (search_history (db w))) by (left; reflexivity).
  assert (Hnd : NoDup (map h_id (search_history (db w)))).
  { simpl. repeat constructor; rewrite ?list_elem_of_In; simpl; intuition discriminate. }
  split.
  - apply (proj1 (C9_delete_history_checks_owner env w r "user_002"
                    (Express.mkAuth (Some "user_002") None false)
                    Hin Hnd eq_refl eq_refl eq_refl eq_refl)).
    discriminate.
  - apply (proj1 (proj2 (C9_delete_history_checks_owner env w r "user_001"
                           (Express.mkAuth (Some "user_001") None false)
                           Hin Hnd eq_refl eq_refl eq_refl eq_refl))).
    reflexivity.
Defined.

(** ** Pagination *)

Lemma slice_take_drop {A} (l : list A) (start end_ : Z) :
  0 <= start -> start <= end_ ->
  JS.slice l start end_ = take (Z.to_nat (end_ - start)) (drop (Z.to_nat start) l).
Proof.
  intros H0 Hle. unfold JS.slice.
  destruct (start <? 0) eqn:E1; [apply Z.ltb_lt in E1; lia|].
  destruct (end_ <? 0) eqn:E2; [apply Z.ltb_lt in E2; lia|].
  destruct (Z_le_gt_dec (Z.of_nat (length l)) start) as [Hbig|Hsmall].
  - rewrite Z.min_r by lia. rewrite !drop_ge by lia. rewrite !take_nil. reflexivity.
  - rewrite (Z.min_l start) by lia.
    destruct (Z_le_gt_dec end_ (Z.of_nat (length l))) as [He|He].
    + rewrite Z.min_l by lia. reflexivity.
    + rewrite Z.min_r by lia.
      rewrite !take_ge; [reflexivity| |]; rewrite length_drop; lia.
Qed.

Lemma Math_ceil_div_spec (total pageSize : Z) :
  1 <= pageSize ->
  exists totalPages,
    JS.Math_ceil_div total pageSize = JS.Int totalPages
    /\ (totalPages - 1) * pageSize < total <= totalPages * pageSize.
Proof.
  intros Hps. unfold JS.Math_ceil_div.
  destruct (pageSize =? 0) eqn:E; [apply Z.eqb_eq in E; lia|].
  exists (- (- total / pageSize)). split; [reflexivity|].
  pose proof (Z.div_mod (- total) pageSize ltac:(lia)) as Hdm.
  pose proof (Z.mod_pos_bound (- total) pageSize ltac:(lia)) as Hb.
  nia.
Qed.

(** C4. Once the catalog has been read, [searchAndFilterProducts] returns
    the slice [(page-1)*pageSize, page*pageSize) of the filtered and sorted
    list, with [total] its length, [totalPages] the ceiling of
    [total/pageSize] and [hasMore] whether [page < totalPages]. *)
Theorem C4_pagination
    (env : Env) (w w1 : World) (filters : ProductsService.FilterOptions)
    (todos : list ProductoNormalizado) :
  let page := ProductsService.from_option 1 (ProductsService.fo_page filters) in
  let pageSize := ProductsService.from_option 20 (ProductsService.fo_pageSize filters) in
  let filtered := ProductsService.filterAndSort filters todos in
  let total := Z.of_nat (length filtered) in
  ProductsService.todosProductos env w = (Returns todos, w1) ->
  1 <= page ->
  1 <= pageSize ->
  exists resp w2 totalPages,
    ProductsService.searchAndFilterProducts filters env w = (Returns resp, w2)
    /\ ProductsService.productos resp
       = take (Z.to_nat (page * pageSize - (page - 1) * pageSize))
           (drop (Z.to_nat ((page - 1) * pageSize)) filtered)
    /\ ProductsService.md_total (ProductsService.metadata resp) = total
    /\ ProductsService.md_page (ProductsService.metadata resp) = page
    /\ ProductsService.md_pageSize (ProductsService.metadata resp) = pageSize
    /\ ProductsService.md_totalPages (ProductsService.metadata resp) = JS.Int totalPages
    /\ (totalPages - 1) * pageSize < total <= totalPages * pageSize
    /\ ProductsService.md_hasMore (ProductsService.metadata resp) = (page <? totalPages).
Proof.
  intros page pageSize filtered total Htodos Hpage Hps.
  destruct (Math_ceil_div_spec total pageSize Hps) as [tp [Htp Hbounds]].
  unfold ProductsService.searchAndFilterProducts.
  fold page pageSize.
  eexists _, _, tp. split.
  - apply try_catch_returns.
    rewrite (bind_returns _ _ _ _ _ _ Htodos).
    fold filtered. fold total. rewrite Htp.
    unfold bind, console_log, modify, ret. reflexivity.
  - cbn [ProductsService.productos ProductsService.metadata ProductsService.md_total
           ProductsService.md_page ProductsService.md_pageSize
           ProductsService.md_totalPages ProductsService.md_hasMore JS.lt_num].
    repeat split; try reflexivity; try lia.
    rewrite slice_take_drop by nia.
    f_equal. f_equal. lia.
Qed.

(** The scenario of 25 matching products read ten at a time: page 3 holds
    the last five. *)
Lemma C4_witness :
  let pub := fun i : nat =>
               mkPublicacion (show (Z.of_nat i)) (show (Z.of_nat i)) "Laptop" "portable" []
                 (Some (mkProductoAPI (1000 * Z.of_nat i) "Electronica" "nuevo" 1 "HP")) in
  let producto := fun i : nat =>
               mkProducto (show (Z.of_nat i)) (show (Z.of_nat i)) "Laptop" "portable"
                 (1000 * Z.of_nat i) "Electronica" "nuevo" 1 "HP" [] None in
  let env := mkEnv false false [] [] (ApiData (Some (map pub (seq 1 25)))) (fun _ => false) 0 in
  let w := mkWorld (mkDb [] [] [] 0) ∅ [] in
  let filters := ProductsService.mkFilterOptions (Some "laptop") None None None None None
                   (Some 3) (Some 10) in
  exists resp w2 totalPages,
    ProductsService.searchAndFilterProducts filters env w = (Returns resp, w2)
    /\ ProductsService.productos resp
       = take (Z.to_nat (3 * 10 - (3 - 1) * 10))
           (drop (Z.to_nat ((3 - 1) * 10))
              (ProductsService.filterAndSort filters (map producto (seq 1 25))))
    /\ ProductsService.md_total (ProductsService.metadata resp) = 25
    /\ ProductsService.md_page (ProductsService.metadata resp) = 3
    /\ ProductsService.md_pageSize (ProductsService.metadata resp) = 10
    /\ ProductsService.md_totalPages (ProductsService.metadata resp) = JS.Int totalPages
    /\ (totalPages - 1) * 10 < 25 <= totalPages * 10
    /\ ProductsService.md_hasMore (ProductsService.metadata resp) = (3 <? totalPages).
Proof.
  intros pub producto env w filters.
  refine (C4_pagination env w _ filters (map producto (seq 1 25)) _ _ _).
  - vm_compute. reflexivity.
  - vm_compute. discriminate.
  - vm_compute. discriminate.
Defined.

(** ** Reading the catalog touches only the console *)

Lemma console_only_ret {A} (a : A) : console_only (ret a).
Proof. intros env w. split; reflexivity. Qed.

Lemma console_only_throw {A} (e : Error) : console_only (@throw A e).
Proof. intros env w. split; reflexivity. Qed.

Lemma console_only_ask : console_only ask.
Proof. intros env w. split; reflexivity. Qed.

Lemma console_only_log (msg : string) : console_only (console_log msg).
Proof. intros env w. split; reflexivity. Qed.

Lemma console_only_warn (msg : string) : console_only (console_warn msg).
Proof. intros env w. split; reflexivity. Qed.

Lemma console_only_error (msg : string) : console_only (console_error msg).
Proof. intros env w. split; reflexivity. Qed.

Lemma console_only_bind {A B} (m : M A) (f : A -> M B) :
  console_only m -> (forall a, console_only (f a)) -> console_only (bind m f).
Proof.
  intros Hm Hf env w. unfold bind. specialize (Hm env w).
  destruct (m env w) as [[a|e] w1]; simpl in *; [|exact Hm].
  destruct (Hf a env w1) as [H1 H2]. destruct Hm as [H3 H4].
  split; congruence.
Qed.

Lemma console_only_try_catch {A} (body : M A) (h : Error -> M A) :
  console_only body -> (forall e, console_only (h e)) -> console_only (try_catch body h).
Proof.
  intros Hm Hf env w. unfold try_catch. specialize (Hm env w).
  destruct (body env w) as [[a|e] w1]; simpl in *; [exact Hm|].
  destruct (Hf e env w1) as [H1 H2]. destruct Hm as [H3 H4].
  split; congruence.
Qed.

Lemma console_only_mapM {A B} (f : A -> M B) (l : list A) :
  (forall a, console_only (f a)) -> console_only (ProductsService.mapM f l).
Proof.
  intros Hf. induction l as [|x l IH]; simpl.
  - apply console_only_ret.
  - apply console_only_bind; [apply Hf|]. intros y.
    apply console_only_bind; [exact IH|]. intros ys. apply console_only_ret.
Qed.

Lemma console_only_if {A} (b : bool) (m1 m2 : M A) :
  console_only m1 -> console_only m2 -> console_only (if b then m1 else m2).
Proof. destruct b; auto. Qed.

Create HintDb console discriminated.
#[local] Hint Resolve console_only_ret console_only_throw console_only_ask
  console_only_log console_only_warn console_only_error console_only_mapM
  console_only_if : console.
#[local] Hint Extern 2 (console_only (bind _ _)) =>
  apply console_only_bind; [|intros ?] : console.
#[local] Hint Extern 2 (console_only (try_catch _ _)) =>
  apply console_only_try_catch; [|intros ?] : console.

Lemma console_only_normalizePublicacion (pub : PublicacionFromAPI) :
  console_only (ProductsService.normalizePublicacion pub).
Proof.
  unfold ProductsService.normalizePublicacion.
  destruct (pub_producto pub); auto with console.
Qed.

Lemma console_only_apiClient : console_only ProductsService.apiClient_get_publicaciones.
Proof.
  intros env w. unfold ProductsService.apiClient_get_publicaciones.
  destruct (publicaciones env); split; reflexivity.
Qed.

Lemma console_only_getDemoProducts : console_only ProductsService.getDemoProducts.
Proof.
  unfold ProductsService.getDemoProducts.
  apply console_only_bind; [apply console_only_ask|]. intros env.
  apply console_only_mapM. intros p. destruct (pub_producto p); auto with console.
Qed.

#[local] Hint Resolve console_only_normalizePublicacion console_only_apiClient
  console_only_getDemoProducts : console.

Lemma console_only_todosProductos : console_only ProductsService.todosProductos.
Proof.
  unfold ProductsService.todosProductos.
  apply console_only_bind; [apply console_only_ask|]. intros env.
  apply console_only_if; [auto with console|].
  apply console_only_try_catch; [|intros e; auto with console].
  apply console_only_bind; [auto with console|]. intros _.
  apply console_only_bind; [auto with console|]. intros data.
  destruct data as [[|pub pubs]|]; auto 6 with console.
Qed.

Lemma console_only_searchAndFilterProducts (filters : ProductsService.FilterOptions) :
  console_only (ProductsService.searchAndFilterProducts filters).
Proof.
  unfold ProductsService.searchAndFilterProducts.
  apply console_only_try_catch; [|intros e; auto with console].
  apply console_only_bind; [apply console_only_todosProductos|]. intros todos.
  auto with console.
Qed.

Lemma console_only_getProductos (categoria : option string) :
  console_only (ProductsService.getProductos categoria).
Proof.
  unfold ProductsService.getProductos.
  apply console_only_try_catch; [|intros e; auto with console].
  apply console_only_bind; [apply console_only_ask|]. intros env.
  apply console_only_if; [auto 6 with console|].
  apply console_only_bind; [auto with console|]. intros _.
  apply console_only_bind; [auto with console|]. intros data.
  destruct data as [[|pub pubs]|]; auto 6 with console.
Qed.

(** ** What a search writes *)

Lemma trim_empty : JS.trim "" = "".
Proof. reflexivity. Qed.

Lemma truthy_not_empty (s : string) : JS.truthy s = negb (String.eqb s "").
Proof. destruct s; reflexivity. Qed.

Lemma truthy_iff (s : string) : JS.truthy s = true <-> s <> "".
Proof. destruct s; simpl; split; congruence. Qed.

Lemma truthy_trim (s : string) : JS.truthy (JS.trim s) = true -> JS.truthy s = true.
Proof. destruct s; [discriminate|reflexivity]. Qed.

(** The test [busqueda && busqueda.trim() !== ''] of the controller and the
    test [queryText && queryText.trim()] of the service are one test. *)
Lemma hasSearchText_eq (s : string) :
  JS.truthy s && negb (String.eqb (JS.trim s) "") = JS.truthy (JS.trim s)
  /\ JS.truthy s && JS.truthy (JS.trim s) = JS.truthy (JS.trim s).
Proof.
  rewrite <- truthy_not_empty.
  destruct (JS.truthy (JS.trim s)) eqn:E.
  - rewrite (truthy_trim s E). split; reflexivity.
  - rewrite !andb_false_r. split; reflexivity.
Qed.

Lemma saveSearchQuery_run (env : Env) (w : World) (q : string) :
  SearchService.saveSearchQuery q env w
  = if JS.truthy (JS.trim q) then
      if db_throws env QueryCreate then (Throws (Err "MongoError"), w)
      else (Returns tt,
            mkWorld
              (mkDb (search_history (db w))
                 (search_queries (db w)
                  ++ [mkSearchQuery (HexString.of_N (next_oid (db w))) (JS.trim q) (clock env)])
                 (clicks (db w)) (N.succ (next_oid (db w))))
              (activeSessions w)
              (console w ++ [(LvLog, "Búsqueda registrada para análisis: " +:+ q)]))
    else (Returns tt, w).
Proof.
  unfold SearchService.saveSearchQuery.
  rewrite (proj2 (hasSearchText_eq q)).
  destruct (JS.truthy (JS.trim q)) eqn:E; [|reflexivity].
  unfold bind, Date_now, Mongo.SearchQuery_create, Mongo.call. rewrite E. simpl.
  destruct (db_throws env QueryCreate); reflexivity.
Qed.

Lemma saveSearchHistory_run (env : Env) (w : World) (data : SearchService.SaveSearchHistoryData) :
  JS.truthy (SearchService.sd_userId data) = true ->
  JS.truthy (SearchService.sd_queryText data) = true ->
  let saved :=
    mkSearchHistory (HexString.of_N (next_oid (db w)))
      (SearchService.sd_userId data) (SearchService.sd_queryText data)
      (match SearchService.sd_filters data with Some f => f | None => noFilters end)
      (SearchService.sd_sortBy data) (SearchService.sd_sortDir data)
      (SearchService.num_or (SearchService.sd_page data) 1)
      (SearchService.num_or (SearchService.sd_pageSize data) 20)
      (clock env) (SearchService.sd_results data) in
  SearchService.saveSearchHistory data env w
  = if db_throws env HistorySave then (Throws (Err "MongoError"), w)
    else (Returns saved,
          mkWorld
            (mkDb (search_history (db w) ++ [saved]) (search_queries (db w))
               (clicks (db w)) (N.succ (next_oid (db w))))
            (activeSessions w)
            (console w
             ++ [(LvLog,
                  (if SearchService.sd_isAnonymous data
                   then "Historial temporal guardado para sesión anónima: "
                   else "Historial permanente guardado para usuario: ")
                  +:+ SearchService.sd_userId data)])).
Proof.
  intros Hu Hq saved. subst saved.
  unfold SearchService.saveSearchHistory, bind, Date_now, Mongo.SearchHistory_save, Mongo.call.
  cbn [h_userId h_queryText]. rewrite Hu, Hq. cbn [negb orb].
  destruct (db_throws env HistorySave); [reflexivity|].
  simpl. destruct (SearchService.sd_isAnonymous data); reflexivity.
Qed.

Lemma app_one_neq {A} (l : list A) (x : A) : l <> l ++ [x].
Proof.
  intros H. apply (f_equal (@length A)) in H. rewrite length_app in H. simpl in H. lia.
Qed.

(** The course of [search] once the catalog has answered: each store
    write that throws ends the request in the [catch] block. *)
Lemma search_run (env : Env) (w w1 : World) (req : Express.Auth)
    (safe : SearchController.SearchQueryParams)
    (result : ProductsService.PaginatedResponse) :
  let text := ProductsService.from_option "" (SearchController.sq_busqueda safe) in
  let ok := fun wx : World =>
    (Returns (Express.json
                (SearchController.mkSearchPayload result
                   (if Express.isAnonymous req && JS.truthy_opt (Express.sessionId req)
                    then Express.sessionId req else None))),
     mkWorld (db wx) (activeSessions wx)
       ((console wx ++ [(LvLog, "Búsqueda realizada en 0ms")])
        ++ [(LvLog,
             "Página "
             +:+ show (ProductsService.md_page (ProductsService.metadata result))
             +:+ "/"
             +:+ ProductsService.show_number
                   (ProductsService.md_totalPages (ProductsService.metadata result))
             +:+ " - "
             +:+ show (ProductsService.md_total (ProductsService.metadata result))
             +:+ " resultados")])) in
  let failed := fun wx : World =>
    (Returns (Express.status_error (A := SearchController.SearchPayload) 500
                "Error al realizar la búsqueda"),
     mkWorld (db wx) (activeSessions wx) (console wx ++ [(LvError, "Error en búsqueda:")])) in
  ProductsService.searchAndFilterProducts (SearchController.searchOptions safe) env w
  = (Returns result, w1) ->
  SearchController.search req safe env w
  = if JS.truthy (JS.trim text) then
      if db_throws env QueryCreate then failed w1
      else
        let w2 := exec (SearchService.saveSearchQuery text) env w1 in
        if JS.truthy_opt (Express.userId req)
           && (0 <? length (ProductsService.productos result))%nat
        then
          if db_throws env HistorySave then failed w2
          else ok (exec (SearchService.saveSearchHistory
                           (SearchController.historyData req safe result)) env w2)
        else ok w2
    else ok w1.
Proof.
  intros text ok failed Hs. subst text ok failed.
  unfold SearchController.search at 1. unfold try_catch at 1. cbv zeta.
  rewrite (bind_returns _ _ _ _ _ _ Hs).
  rewrite (proj1 (hasSearchText_eq _)).
  destruct (JS.truthy (JS.trim _)) eqn:Etext; cbn [andb].
  - unfold bind at 1. unfold exec. rewrite saveSearchQuery_run, Etext.
    destruct (db_throws env QueryCreate) eqn:Eq; [reflexivity|].
    cbn [snd].
    destruct (JS.truthy_opt (Express.userId req)
              && (0 <? length (ProductsService.productos result))%nat) eqn:Econd.
    + apply andb_true_iff in Econd. destruct Econd as [Eu _].
      unfold bind at 1. unfold bind at 1.
      rewrite saveSearchHistory_run.
      * destruct (db_throws env HistorySave); reflexivity.
      * unfold SearchController.historyData. cbn [SearchService.sd_userId].
        destruct (Express.userId req); [exact Eu|discriminate].
      * unfold SearchController.historyData. cbn [SearchService.sd_queryText].
        apply truthy_trim. exact Etext.
    + reflexivity.
  - reflexivity.
Qed.

(** C5 (as amended).  On a search whose catalog lookup succeeds and whose
    store writes do not throw, a query record is appended exactly when the
    text is not blank, a history record exactly when moreover an owner is
    resolved and the result page is not empty, and the response carries
    the results in every case. *)
Theorem C5_search_records_created
    (env : Env) (w w1 : World) (req : Express.Auth)
    (safe : SearchController.SearchQueryParams)
    (result : ProductsService.PaginatedResponse) :
  let text := ProductsService.from_option "" (SearchController.sq_busqueda safe) in
  let w' := exec (SearchController.search req safe) env w in
  ProductsService.searchAndFilterProducts (SearchController.searchOptions safe) env w
  = (Returns result, w1) ->
  db_throws env QueryCreate = false ->
  db_throws env HistorySave = false ->
  run (SearchController.search req safe) env w
  = Returns (Express.json
               (SearchController.mkSearchPayload result
                  (if Express.isAnonymous req && JS.truthy_opt (Express.sessionId req)
                   then Express.sessionId req else None)))
  /\ ((exists q, search_queries (db w') = search_queries (db w) ++ [q])
      <-> JS.trim text <> "")
  /\ (JS.trim text = "" -> search_queries (db w') = search_queries (db w))
  /\ (forall q, search_queries (db w') = search_queries (db w) ++ [q] ->
        q_valor_busqueda q = JS.trim text /\ q_fecha q = clock env)
  /\ ((exists h, search_history (db w') = search_history (db w) ++ [h])
      <-> (JS.trim text <> "" /\ JS.truthy_opt (Express.userId req) = true
           /\ ProductsService.productos result <> []))
  /\ (~ (JS.trim text <> "" /\ JS.truthy_opt (Express.userId req) = true
         /\ ProductsService.productos result <> []) ->
      search_history (db w') = search_history (db w))
  /\ (forall h, search_history (db w') = search_history (db w) ++ [h] ->
        Some (h_userId h) = Express.userId req
        /\ h_queryText h = text
        /\ h_results h = map p_id_producto (ProductsService.productos result)
        /\ h_requestedAt h = clock env).
Proof.
  intros text w' Hs Hq Hh. subst w'. unfold run, exec.
  rewrite (search_run env w w1 req safe result Hs). fold text.
  destruct (console_only_searchAndFilterProducts (SearchController.searchOptions safe) env w)
    as [Hdb _].
  rewrite Hs in Hdb. cbn [snd] in Hdb.
  rewrite Hq, Hh. unfold exec. rewrite saveSearchQuery_run, Hq.
  assert (Hres : (0 <? length (ProductsService.productos result))%nat = true
                 <-> ProductsService.productos result <> []).
  { destruct (ProductsService.productos result); simpl; split; intros H;
      first [reflexivity | discriminate | (exfalso; apply H; reflexivity)]. }
  destruct (JS.truthy (JS.trim text)) eqn:Etext.
  - assert (Hne : JS.trim text <> "") by (apply truthy_iff; exact Etext).
    cbn [snd].
    destruct (JS.truthy_opt (Express.userId req)
              && (0 <? length (ProductsService.productos result))%nat) eqn:Econd.
    + apply andb_true_iff in Econd. destruct Econd as [Eu Er].
      rewrite saveSearchHistory_run, Hh.
      2:{ unfold SearchController.historyData. cbn [SearchService.sd_userId].
          destruct (Express.userId req); [exact Eu|discriminate]. }
      2:{ unfold SearchController.historyData. cbn [SearchService.sd_queryText].
          apply truthy_trim. exact Etext. }
      cbn [fst snd db search_queries search_history]. rewrite Hdb.
      refine (conj eq_refl (conj _ (conj _ (conj _ (conj _ (conj _ _)))))).
      * split; [intros _; exact Hne|intros _; eexists; reflexivity].
      * intros E. congruence.
      * intros q H. apply app_inj_tail in H. destruct H as [_ <-]. split; reflexivity.
      * split; [intros _|intros _; eexists; reflexivity].
        split; [exact Hne|]. split; [exact Eu|]. apply Hres. exact Er.
      * intros Hn. exfalso. apply Hn.
        split; [exact Hne|]. split; [exact Eu|]. apply Hres. exact Er.
      * intros h H. apply app_inj_tail in H. destruct H as [_ <-].
        cbn [h_userId h_queryText h_results h_requestedAt].
        unfold SearchController.historyData.
        cbn [SearchService.sd_userId SearchService.sd_queryText SearchService.sd_results].
        split; [|split; [reflexivity|split; reflexivity]].
        destruct (Express.userId req); [reflexivity|discriminate].
    + cbn [fst snd db search_queries search_history]. rewrite Hdb.
      assert (Hno : ~ (JS.trim text <> "" /\ JS.truthy_opt (Express.userId req) = true
                       /\ ProductsService.productos result <> [])).
      { intros [_ [Eu Er]]. apply Hres in Er. rewrite Eu, Er in Econd. discriminate. }
      refine (conj eq_refl (conj _ (conj _ (conj _ (conj _ (conj _ _)))))).
      * split; [intros _; exact Hne|intros _; eexists; reflexivity].
      * intros E. congruence.
      * intros q H. apply app_inj_tail in H. destruct H as [_ <-]. split; reflexivity.
      * split; [intros [h H]; exfalso; exact (app_one_neq _ _ H)|].
        intros H. exfalso. exact (Hno H).
      * intros _. reflexivity.
      * intros h H. exfalso. exact (app_one_neq _ _ H).
  - assert (He : JS.trim text = "").
    { destruct (JS.trim text); [reflexivity|discriminate]. }
    cbn [fst snd db]. rewrite Hdb.
    refine (conj eq_refl (conj _ (conj _ (conj _ (conj _ (conj _ _)))))).
    + split; [intros [q H]; exfalso; exact (app_one_neq _ _ H)|].
      intros H. congruence.
    + intros _. reflexivity.
    + intros q H. exfalso. exact (app_one_neq _ _ H).
    + split; [intros [h H]; exfalso; exact (app_one_neq _ _ H)|].
      intros [H _]. congruence.
    + intros _. reflexivity.
    + intros h H. exfalso. exact (app_one_neq _ _ H).
Qed.

(** Two searches of an anonymous session: ["laptop"], which has results,
    leaves one query record and one history record; browsing a category
    without text leaves none. *)
Lemma C5_witness :
  let env := mkEnv false false [] []
               (ApiData (Some [mkPublicacion "p1" "A" "Laptop HP" "portable" []
                                 (Some (mkProductoAPI 500000 "Electronica" "nuevo" 2 "HP"))]))
               (fun _ => false) 1000 in
  let w := mkWorld (mkDb [] [] [] 0) ∅ [] in
  let req := Express.mkAuth (Some "anonymous_session_1") (Some "session_1") true in
  let typed := SearchController.mkSearchQueryParams (Some "laptop") None None None None 1 20 in
  let browse := SearchController.mkSearchQueryParams None None (Some "Electronica")
                  None None 1 20 in
  ((exists q, search_queries (db (exec (SearchController.search req typed) env w))
              = search_queries (db w) ++ [q])
   /\ (exists h, search_history (db (exec (SearchController.search req typed) env w))
                 = search_history (db w) ++ [h]))
  /\ (search_queries (db (exec (SearchController.search req browse) env w))
      = search_queries (db w)
      /\ search_history (db (exec (SearchController.search req browse) env w))
         = search_history (db w)).
Proof.
  intros env w req typed browse. split.
  - pose proof (fun r w1 Hs =>
                  C5_search_records_created env w w1 req typed r Hs eq_refl eq_refl) as HC.
    edestruct HC as (_ & Hq & _ & _ & Hh & _).
    { vm_compute. reflexivity. }
    split.
    + apply Hq. vm_compute. discriminate.
    + apply Hh. vm_compute. repeat split; discriminate.
  - pose proof (fun r w1 Hs =>
                  C5_search_records_created env w w1 req browse r Hs eq_refl eq_refl) as HC.
    edestruct HC as (_ & _ & Hq & _ & _ & Hh & _).
    { vm_compute. reflexivity. }
    split.
    + apply Hq. reflexivity.
    + apply Hh. intros [H _]. apply H. reflexivity.
Defined.

(** C5, as first stated, fails when the catalog cannot be reached: the
    text is not empty and yet no query record is written. *)
Lemma C5_counterexample :
  let env := mkEnv false false [] [] (ApiError "connect ECONNREFUSED") (fun _ => false) 1000 in
  let w := mkWorld (mkDb [] [] [] 0) ∅ [] in
  let req := Express.mkAuth (Some "user_001") None false in
  let safe := SearchController.mkSearchQueryParams (Some "laptop") None None None None 1 20 in
  let w' := exec (SearchController.search req safe) env w in
  ~ ((exists q, search_queries (db w') = search_queries (db w) ++ [q])
     <-> ProductsService.from_option "" (SearchController.sq_busqueda safe) <> "").
Proof.
  intros env w req safe w' [_ H].
  destruct H as [q Hq]; [discriminate|].
  vm_compute in Hq. discriminate Hq.
Qed.

(** ** A store write that fails during a search *)

(** C2 (as amended).  The search awaits its store writes inside the
    handler's [try]: when the append of the query record, or the append of
    the history record the request calls for, throws, the failure is
    logged and the request is answered 500 with an error body instead of
    the results.  When neither throws, the results are returned. *)
Theorem C2_store_failure_fails_search
    (env : Env) (w w1 : World) (req : Express.Auth)
    (safe : SearchController.SearchQueryParams)
    (result : ProductsService.PaginatedResponse) :
  let text := ProductsService.from_option "" (SearchController.sq_busqueda safe) in
  let w' := exec (SearchController.search req safe) env w in
  ProductsService.searchAndFilterProducts (SearchController.searchOptions safe) env w
  = (Returns result, w1) ->
  JS.trim text <> "" ->
  (db_throws env QueryCreate = true
   \/ (JS.truthy_opt (Express.userId req) = true
       /\ ProductsService.productos result <> []
       /\ db_throws env HistorySave = true) ->
   run (SearchController.search req safe) env w
   = Returns (Express.status_error 500 "Error al realizar la búsqueda")
   /\ In (LvError, "Error en búsqueda:") (console w'))
  /\ (db_throws env QueryCreate = false /\ db_throws env HistorySave = false ->
      run (SearchController.search req safe) env w
      = Returns (Express.json
                   (SearchController.mkSearchPayload result
                      (if Express.isAnonymous req && JS.truthy_opt (Express.sessionId req)
                       then Express.sessionId req else None)))).
Proof.
  intros text w' Hs Htext. subst w'. unfold run, exec.
  rewrite (search_run env w w1 req safe result Hs). fold text.
  apply truthy_iff in Htext. rewrite Htext.
  split.
  - intros [Hq | [Eu [Er Hh]]].
    + rewrite Hq. cbn [fst snd console]. split; [reflexivity|].
      apply in_or_app. right. left. reflexivity.
    + destruct (db_throws env QueryCreate).
      * cbn [fst snd console]. split; [reflexivity|].
        apply in_or_app. right. left. reflexivity.
      * rewrite Eu, Hh.
        destruct (ProductsService.productos result); [congruence|].
        cbn [length Nat.ltb Nat.leb andb fst snd console]. split; [reflexivity|].
        apply in_or_app. right. left. reflexivity.
  - intros [Hq Hh]. rewrite Hq, Hh.
    destruct (JS.truthy_opt (Express.userId req)
              && (0 <? length (ProductsService.productos result))%nat); reflexivity.
Qed.

Lemma C2_witness :
  let env := mkEnv false false [] []
               (ApiData (Some [mkPublicacion "p1" "A" "Laptop HP" "portable" []
                                 (Some (mkProductoAPI 500000 "Electronica" "nuevo" 2 "HP"))]))
               (fun c => match c with HistorySave => true | _ => false end) 1000 in
  let w := mkWorld (mkDb [] [] [] 0) ∅ [] in
  let req := Express.mkAuth (Some "user_001") None false in
  let safe := SearchController.mkSearchQueryParams (Some "laptop") None None None None 1 20 in
  run (SearchController.search req safe) env w
  = Returns (Express.status_error 500 "Error al realizar la búsqueda")
  /\ In (LvError, "Error en búsqueda:")
        (console (exec (SearchController.search req safe) env w)).
Proof.
  intros env w req safe.
  pose proof (fun r w1 Hs => C2_store_failure_fails_search env w w1 req safe r Hs) as HC.
  edestruct HC as [Hfail _].
  { vm_compute. reflexivity. }
  { vm_compute. discriminate. }
  apply Hfail. right. vm_compute. repeat split; discriminate.
Defined.

(** C2, as first stated, fails: with the store refusing the query append,
    the products were found and the request is answered 500 all the same. *)
Lemma C2_counterexample :
  let env := mkEnv false false [] []
               (ApiData (Some [mkPublicacion "p1" "A" "Laptop HP" "portable" []
                                 (Some (mkProductoAPI 500000 "Electronica" "nuevo" 2 "HP"))]))
               (fun c => match c with QueryCreate => true | _ => false end) 1000 in
  let w := mkWorld (mkDb [] [] [] 0) ∅ [] in
  let req := Express.mkAuth (Some "user_001") None false in
  let safe := SearchController.mkSearchQueryParams (Some "laptop") None None None None 1 20 in
  (exists result,
     run (ProductsService.searchAndFilterProducts (SearchController.searchOptions safe)) env w
     = Returns result
     /\ length (ProductsService.productos result) = 1%nat)
  /\ run (SearchController.search req safe) env w
     = Returns (Express.status_error 500 "Error al realizar la búsqueda").
Proof.
  intros env w req safe. split.
  - eexists. split; vm_compute; reflexivity.
  - vm_compute. reflexivity.
Qed.

(** ** The export of all clicks *)

Lemma sort_map {A B} (f : A -> B) (cmpA : A -> A -> Z) (cmpB : B -> B -> Z) (l : list A) :
  (forall a b, cmpB (f a) (f b) = cmpA a b) ->
  map f (JS.sort cmpA l) = JS.sort cmpB (map f l).
Proof.
  intros Hcmp. induction l as [|x l IH]; simpl; [reflexivity|].
  rewrite <- IH. generalize (JS.sort cmpA l). intros s.
  induction s as [|y s IHs]; simpl; [reflexivity|].
  rewrite Hcmp. destruct (cmpA x y <=? 0); simpl; [reflexivity|].
  rewrite IHs. reflexivity.
Qed.

Lemma sort_length {A} (cmp : A -> A -> Z) (l : list A) :
  length (JS.sort cmp l) = length l.
Proof.
  induction l as [|x l IH]; simpl; [reflexivity|].
  rewrite <- IH. generalize (JS.sort cmp l). intros s.
  induction s as [|y s IHs]; simpl; [reflexivity|].
  destruct (cmp x y <=? 0); simpl; [reflexivity|]. rewrite IHs. reflexivity.
Qed.

(** What [select('id_producto nombre fecha')] leaves of a stored click. *)
Lemma select_lean_click (c : Click) :
  Mongo.select "id_producto nombre fecha" (lean_click c)
  = [("_id", VStr (click_id c)); ("id_producto", VStr (click_id_producto c));
     ("nombre", VStr (click_nombre c)); ("fecha", VDate (click_fecha c))].
Proof. unfold lean_click. destruct (click_userId c); reflexivity. Qed.

Lemma getAllClicks_run (env : Env) (w : World) :
  run AnalyticsController.getAllClicks env w
  = if db_throws env ClickCount
    then Returns (Express.status_error 500 "Error al obtener datos de clicks")
    else if (Z.of_nat (length (clicks (db w))) =? 0) && USE_DUMMY_ANALYTICS env
    then Returns (Express.json (map dummy_obj (clicksDummy env)))
    else if db_throws env ClickFind
    then Returns (Express.status_error 500 "Error al obtener datos de clicks")
    else Returns (Express.json
                    (map (fun c => Mongo.select "id_producto nombre fecha" (lean_click c))
                       (JS.sort (fun a b => click_fecha b - click_fecha a) (clicks (db w))))).
Proof.
  unfold run, AnalyticsController.getAllClicks, AnalyticsService.getAllClicks,
    try_catch, bind, ask, Mongo.Click_countDocuments, Mongo.Click_find_select_sort_lean,
    Mongo.call, console_log, console_error, modify, throw, ret.
  destruct (db_throws env ClickCount); [reflexivity|]. cbn [fst snd db].
  assert (Hlen : length (List.filter (fun _ : Click => true) (clicks (db w)))
                 = length (clicks (db w))).
  { induction (clicks (db w)); simpl; congruence. }
  rewrite Hlen.
  destruct ((Z.of_nat (length (clicks (db w))) =? 0) && USE_DUMMY_ANALYTICS env);
    [reflexivity|].
  cbn [fst snd db].
  destruct (db_throws env ClickFind); reflexivity.
Qed.

(** C1.  What [GET /api/analytics/clicks] serves from the store: every
    entry has the fields [_id], [id_producto], [nombre] and [fecha], in
    this order, and no others.  So [userId] is never exported, and the
    whole answer is the same for two stores that differ only in the owners
    of their clicks; but the record id [_id] is exported with the three
    documented fields, which the projection does not exclude. *)
Theorem C1_allClicks_fields_and_owner (env : Env) (w : World) (entries : list JsObj) :
  (USE_DUMMY_ANALYTICS env = false \/ clicks (db w) <> []) ->
  run AnalyticsController.getAllClicks env w = Returns (Express.json entries) ->
  (forall e, In e entries ->
     keys e = ["_id"; "id_producto"; "nombre"; "fecha"] /\ hasField "userId" e = false)
  /\ length entries = length (clicks (db w))
  /\ (forall w2,
        map (fun c => mkClick (click_id c) (click_id_producto c) (click_nombre c)
                        (click_fecha c) None) (clicks (db w2))
        = map (fun c => mkClick (click_id c) (click_id_producto c) (click_nombre c)
                          (click_fecha c) None) (clicks (db w)) ->
        run AnalyticsController.getAllClicks env w2
        = run AnalyticsController.getAllClicks env w).
Proof.
  intros Hstore Hrun.
  assert (Hbranch : (Z.of_nat (length (clicks (db w))) =? 0) && USE_DUMMY_ANALYTICS env = false).
  { destruct Hstore as [-> | Hne]; [apply andb_false_r|].
    destruct (clicks (db w)); [congruence|reflexivity]. }
  split; [|split].
  - rewrite getAllClicks_run, Hbranch in Hrun.
    destruct (db_throws env ClickCount); [discriminate|].
    destruct (db_throws env ClickFind); [discriminate|].
    assert (Hentries :
              map (fun c => Mongo.select "id_producto nombre fecha" (lean_click c))
                (JS.sort (fun a b => click_fecha b - click_fecha a) (clicks (db w)))
              = entries) by (unfold Express.json in Hrun; congruence).
    subst entries. intros e He.
    apply in_map_iff in He. destruct He as [c [<- _]].
    rewrite select_lean_click. split; reflexivity.
  - rewrite getAllClicks_run, Hbranch in Hrun.
    destruct (db_throws env ClickCount); [discriminate|].
    destruct (db_throws env ClickFind); [discriminate|].
    assert (Hentries :
              map (fun c => Mongo.select "id_producto nombre fecha" (lean_click c))
                (JS.sort (fun a b => click_fecha b - click_fecha a) (clicks (db w)))
              = entries) by (unfold Express.json in Hrun; congruence).
    subst entries. rewrite length_map, sort_length. reflexivity.
  - intros w2 Hsame. rewrite !getAllClicks_run.
    assert (Hlen : length (clicks (db w2)) = length (clicks (db w))).
    { apply (f_equal (@length Click)) in Hsame. rewrite !length_map in Hsame. exact Hsame. }
    rewrite Hlen.
    destruct (db_throws env ClickCount); [reflexivity|].
    destruct ((Z.of_nat (length (clicks (db w))) =? 0) && USE_DUMMY_ANALYTICS env);
      [reflexivity|].
    destruct (db_throws env ClickFind); [reflexivity|].
    do 2 f_equal.
    set (forget := fun c => mkClick (click_id c) (click_id_producto c) (click_nombre c)
                              (click_fecha c) None) in *.
    assert (Hvia : forall l,
               map (fun c => Mongo.select "id_producto nombre fecha" (lean_click c))
                   (JS.sort (fun a b => click_fecha b - click_fecha a) l)
               = map (fun c => Mongo.select "id_producto nombre fecha" (lean_click c))
                   (JS.sort (fun a b => click_fecha b - click_fecha a) (map forget l))).
    { intros l.
      rewrite <- (sort_map forget (fun a b => click_fecha b - click_fecha a)
                    (fun a b => click_fecha b - click_fecha a) l) by reflexivity.
      rewrite map_map. apply map_ext. intros c. cbv beta.
      rewrite !select_lean_click. reflexivity. }
    rewrite (Hvia (clicks (db w2))), (Hvia (clicks (db w))), Hsame. reflexivity.
Qed.

Lemma C1_witness :
  let env := mkEnv false true [] [] (ApiError "down") (fun _ => false) 5000 in
  let c1 := mkClick "0x1" "prod_456def" "Laptop HP Pavilion 15" 1000 (Some "user_001") in
  let c2 := mkClick "0x2" "prod_456def" "Laptop HP Pavilion 15" 3000 None in
  let c1' := mkClick "0x1" "prod_456def" "Laptop HP Pavilion 15" 1000 (Some "anonymous_s1") in
  let w := mkWorld (mkDb [] [] [c1; c2] 3) ∅ [] in
  let w2 := mkWorld (mkDb [] [] [c1'; c2] 3) ∅ [] in
  let entries := [[("_id", VStr "0x2"); ("id_producto", VStr "prod_456def");
                   ("nombre", VStr "Laptop HP Pavilion 15"); ("fecha", VDate 3000)];
                  [("_id", VStr "0x1"); ("id_producto", VStr "prod_456def");
                   ("nombre", VStr "Laptop HP Pavilion 15"); ("fecha", VDate 1000)]] in
  (forall e, In e entries ->
     keys e = ["_id"; "id_producto"; "nombre"; "fecha"] /\ hasField "userId" e = false)
  /\ run AnalyticsController.getAllClicks env w2 = run AnalyticsController.getAllClicks env w.
Proof.
  intros env c1 c2 c1' w w2 entries.
  assert (Hstore : USE_DUMMY_ANALYTICS env = false \/ clicks (db w) <> [])
    by (right; discriminate).
  assert (Hrun : run AnalyticsController.getAllClicks env w = Returns (Express.json entries))
    by reflexivity.
  destruct (C1_allClicks_fields_and_owner env w entries Hstore Hrun) as [Hkeys [_ Hsame]].
  split; [exact Hkeys|].
  apply Hsame. reflexivity.
Defined.

(** The export of one stored click: its entry has a field besides
    [id_producto], [nombre] and [fecha], the record id. *)
Lemma allClicks_entry_keeps_record_id :
  let env := mkEnv false false [] [] (ApiError "down") (fun _ => false) 5000 in
  let c1 := mkClick "0x1" "prod_456def" "Laptop HP Pavilion 15" 1000 (Some "user_001") in
  let w := mkWorld (mkDb [] [] [c1] 2) ∅ [] in
  exists e,
    run AnalyticsController.getAllClicks env w = Returns (Express.json [e])
    /\ ~ (forall k, In k (keys e) -> In k ["id_producto"; "nombre"; "fecha"]).
Proof.
  intros env c1 w. eexists. split; [reflexivity|].
  intros H. specialize (H "_id" (or_introl eq_refl)).
  simpl in H. intuition discriminate.
Qed.

(** ** The outcome of reading the catalog depends on the environment only *)

Lemma env_only_ret {A} (a : A) : env_only (ret a).
Proof. intros env w1 w2. reflexivity. Qed.

Lemma env_only_throw {A} (e : Error) : env_only (@throw A e).
Proof. intros env w1 w2. reflexivity. Qed.

Lemma env_only_ask : env_only ask.
Proof. intros env w1 w2. reflexivity. Qed.

Lemma env_only_log (msg : string) : env_only (console_log msg).
Proof. intros env w1 w2. reflexivity. Qed.

Lemma env_only_warn (msg : string) : env_only (console_warn msg).
Proof. intros env w1 w2. reflexivity. Qed.

Lemma env_only_error (msg : string) : env_only (console_error msg).
Proof. intros env w1 w2. reflexivity. Qed.

Lemma env_only_bind {A B} (m : M A) (f : A -> M B) :
  env_only m -> (forall a, env_only (f a)) -> env_only (bind m f).
Proof.
  intros Hm Hf env w1 w2. unfold bind. specialize (Hm env w1 w2).
  destruct (m env w1) as [[a1|e1] w1'], (m env w2) as [[a2|e2] w2']; simpl in *;
    try discriminate.
  - inversion Hm; subst. apply Hf.
  - inversion Hm; subst. reflexivity.
Qed.

Lemma env_only_try_catch {A} (body : M A) (h : Error -> M A) :
  env_only body -> (forall e, env_only (h e)) -> env_only (try_catch body h).
Proof.
  intros Hm Hf env w1 w2. unfold try_catch. specialize (Hm env w1 w2).
  destruct (body env w1) as [[a1|e1] w1'], (body env w2) as [[a2|e2] w2']; simpl in *;
    try discriminate.
  - exact Hm.
  - inversion Hm; subst. apply Hf.
Qed.

Lemma env_only_mapM {A B} (f : A -> M B) (l : list A) :
  (forall a, env_only (f a)) -> env_only (ProductsService.mapM f l).
Proof.
  intros Hf. induction l as [|x l IH]; simpl.
  - apply env_only_ret.
  - apply env_only_bind; [apply Hf|]. intros y.
    apply env_only_bind; [exact IH|]. intros ys. apply env_only_ret.
Qed.

Lemma env_only_if {A} (b : bool) (m1 m2 : M A) :
  env_only m1 -> env_only m2 -> env_only (if b then m1 else m2).
Proof. destruct b; auto. Qed.

Create HintDb envonly discriminated.
#[local] Hint Resolve env_only_ret env_only_throw env_only_ask
  env_only_log env_only_warn env_only_error env_only_mapM env_only_if : envonly.
#[local] Hint Extern 2 (env_only (bind _ _)) =>
  apply env_only_bind; [|intros ?] : envonly.
#[local] Hint Extern 2 (env_only (try_catch _ _)) =>
  apply env_only_try_catch; [|intros ?] : envonly.

Lemma env_only_normalizePublicacion (pub : PublicacionFromAPI) :
  env_only (ProductsService.normalizePublicacion pub).
Proof.
  unfold ProductsService.normalizePublicacion.
  destruct (pub_producto pub); auto with envonly.
Qed.

Lemma env_only_apiClient : env_only ProductsService.apiClient_get_publicaciones.
Proof.
  intros env w1 w2. unfold ProductsService.apiClient_get_publicaciones.
  destruct (publicaciones env); reflexivity.
Qed.

Lemma env_only_getDemoProducts : env_only ProductsService.getDemoProducts.
Proof.
  unfold ProductsService.getDemoProducts.
  apply env_only_bind; [apply env_only_ask|]. intros env.
  apply env_only_mapM. intros p. destruct (pub_producto p); auto with envonly.
Qed.

#[local] Hint Resolve env_only_normalizePublicacion env_only_apiClient
  env_only_getDemoProducts : envonly.



(** ** Grouping clicks and ordering the groups *)

Lemma group_add_count (c : Click) (gs : list Mongo.ClickGroup) (s : string) :
  match List.find (fun g => String.eqb (Mongo.g_id g) s) (Mongo.group_add c gs) with
  | Some g => Mongo.g_clickCount g
  | None => 0
  end
  = match List.find (fun g => String.eqb (Mongo.g_id g) s) gs with
    | Some g => Mongo.g_clickCount g
    | None => 0
    end + (if String.eqb (click_id_producto c) s then 1 else 0).
Proof.
  induction gs as [|g gs IH]; simpl.
  - destruct (String.eqb (click_id_producto c) s); reflexivity.
  - destruct (String.eqb_spec (Mongo.g_id g) (click_id_producto c)) as [Hgc|Hgc]; simpl.
    + destruct (String.eqb_spec (Mongo.g_id g) s) as [Hgs|Hgs].
      * rewrite <- Hgc, Hgs, String.eqb_refl. reflexivity.
      * rewrite <- Hgc. destruct (String.eqb_spec (Mongo.g_id g) s); [contradiction|lia].
    + destruct (String.eqb_spec (Mongo.g_id g) s) as [Hgs|Hgs].
      * destruct (String.eqb_spec (click_id_producto c) s); [congruence|lia].
      * exact IH.
Qed.

Lemma group_add_ids (c : Click) (gs : list Mongo.ClickGroup) (s : string) :
  In s (map Mongo.g_id (Mongo.group_add c gs))
  <-> In s (map Mongo.g_id gs) \/ s = click_id_producto c.
Proof.
  induction gs as [|g gs IH]; simpl.
  - intuition congruence.
  - destruct (String.eqb_spec (Mongo.g_id g) (click_id_producto c)) as [Hgc|Hgc]; simpl.
    + intuition congruence.
    + rewrite IH. tauto.
Qed.

Lemma group_add_NoDup (c : Click) (gs : list Mongo.ClickGroup) :
  NoDup (map Mongo.g_id gs) -> NoDup (map Mongo.g_id (Mongo.group_add c gs)).
Proof.
  induction gs as [|g gs IH]; simpl; intros H.
  - repeat constructor. rewrite list_elem_of_In. simpl. tauto.
  - apply NoDup_cons in H. destruct H as [Hg Hgs].
    destruct (String.eqb_spec (Mongo.g_id g) (click_id_producto c)) as [Hgc|Hgc]; simpl.
    + apply NoDup_cons. auto.
    + apply NoDup_cons. split; [|auto].
      rewrite list_elem_of_In, group_add_ids. rewrite list_elem_of_In in Hg.
      intros [Hin|Heq]; [auto|congruence].
Qed.

Lemma group_add_positive (c : Click) (gs : list Mongo.ClickGroup) :
  Forall (fun g => 1 <= Mongo.g_clickCount g) gs ->
  Forall (fun g => 1 <= Mongo.g_clickCount g) (Mongo.group_add c gs).
Proof.
  induction gs as [|g gs IH]; simpl; intros H.
  - repeat constructor. simpl. lia.
  - apply Forall_cons in H. destruct H as [Hg Hgs].
    destruct (String.eqb (Mongo.g_id g) (click_id_producto c)); simpl.
    + apply Forall_cons. split; [simpl; lia|exact Hgs].
    + apply Forall_cons. auto.
Qed.

Lemma group_by_snoc (l : list Click) (c : Click) :
  Mongo.group_by_id_producto (l ++ [c]) = Mongo.group_add c (Mongo.group_by_id_producto l).
Proof. unfold Mongo.group_by_id_producto. rewrite fold_left_app. reflexivity. Qed.

(** The groups of a list of clicks: one per product id that occurs, each
    counting the clicks with that id. *)
Lemma group_by_spec (l : list Click) :
  NoDup (map Mongo.g_id (Mongo.group_by_id_producto l))
  /\ Forall (fun g => 1 <= Mongo.g_clickCount g) (Mongo.group_by_id_producto l)
  /\ (forall s, In s (map Mongo.g_id (Mongo.group_by_id_producto l))
                <-> In s (map click_id_producto l))
  /\ (forall s,
        match List.find (fun g => String.eqb (Mongo.g_id g) s) (Mongo.group_by_id_producto l) with
        | Some g => Mongo.g_clickCount g
        | None => 0
        end
        = Z.of_nat (length (List.filter (fun c => String.eqb (click_id_producto c) s) l))).
Proof.
  induction l as [|c l IH] using rev_ind.
  - split; [constructor|]. split; [constructor|]. split; [reflexivity|]. reflexivity.
  - destruct IH as [Hnd [Hpos [Hids Hcount]]]. rewrite group_by_snoc.
    split; [apply group_add_NoDup; exact Hnd|].
    split; [apply group_add_positive; exact Hpos|].
    split.
    + intros s. rewrite group_add_ids, Hids, map_app, in_app_iff. simpl. intuition congruence.
    + intros s. rewrite group_add_count, Hcount, List.filter_app, length_app. simpl.
      destruct (String.eqb (click_id_producto c) s); simpl; lia.
Qed.

Lemma find_NoDup_key (gs : list Mongo.ClickGroup) (g : Mongo.ClickGroup) :
  NoDup (map Mongo.g_id gs) -> In g gs ->
  List.find (fun x => String.eqb (Mongo.g_id x) (Mongo.g_id g)) gs = Some g.
Proof.
  induction gs as [|x gs IH]; simpl; intros Hnd Hin; [destruct Hin|].
  apply NoDup_cons in Hnd. destruct Hnd as [Hx Hnd].
  destruct (String.eqb_spec (Mongo.g_id x) (Mongo.g_id g)) as [Heq|Hne].
  - destruct Hin as [->|Hin]; [reflexivity|].
    exfalso. apply Hx. rewrite list_elem_of_In, Heq. apply in_map. exact Hin.
  - destruct Hin as [->|Hin]; [congruence|]. apply IH; assumption.
Qed.

(** [arr.sort(cmp)] permutes its argument, and with a comparator [key b -
    key a] the result is in descending order of [key]. *)
Lemma sort_Permutation {A} (cmp : A -> A -> Z) (l : list A) :
  Permutation (JS.sort cmp l) l.
Proof.
  induction l as [|x l IH]; simpl; [constructor|].
  transitivity (x :: JS.sort cmp l); [|constructor; exact IH].
  generalize (JS.sort cmp l). intros s.
  induction s as [|y s IHs]; simpl; [reflexivity|].
  destruct (cmp x y <=? 0); [reflexivity|].
  transitivity (y :: x :: s); [constructor; exact IHs|apply perm_swap].
Qed.

Lemma sort_desc_sorted {A} (key : A -> Z) (l : list A) :
  StronglySorted (fun a b => key b <= key a) (JS.sort (fun a b => key b - key a) l).
Proof.
  apply Sorted_StronglySorted; [intros a b c Hab Hbc; lia|].
  induction l as [|x l IH]; simpl; [constructor|].
  revert IH. generalize (JS.sort (fun a b => key b - key a) l). intros s Hs.
  induction s as [|y s IHs]; simpl.
  - repeat constructor.
  - destruct (key y - key x <=? 0) eqn:E.
    + apply Z.leb_le in E. constructor; [exact Hs|]. constructor. lia.
    + apply Z.leb_gt in E. inversion Hs as [|? ? Hs' Hhd]; subst.
      constructor; [apply IHs; exact Hs'|].
      destruct s as [|z s]; simpl.
      * constructor. lia.
      * destruct (key z - key x <=? 0); constructor; [lia|].
        inversion Hhd; subst. assumption.
Qed.

Lemma StronglySorted_take_drop {A} (R : A -> A -> Prop) (l : list A) (n : nat) :
  StronglySorted R l ->
  StronglySorted R (take n l)
  /\ forall a b, In a (take n l) -> In b (drop n l) -> R a b.
Proof.
  revert n. induction l as [|x l IH]; intros n Hs.
  - rewrite take_nil, drop_nil. split; [constructor|]. intros a b [].
  - destruct n as [|n]; simpl.
    + split; [constructor|]. intros a b [].
    + inversion Hs as [|? ? Hs' Hall]; subst. destruct (IH n Hs') as [Ht Hr].
      split.
      * constructor; [exact Ht|]. rewrite Forall_forall in *.
        intros y Hy. apply Hall. apply list_elem_of_In.
        apply list_elem_of_In in Hy. rewrite <- (take_drop n l). apply in_or_app. left.
        exact Hy.
      * intros a b [->|Ha] Hb.
        -- rewrite Forall_forall in Hall. apply Hall. apply list_elem_of_In.
           rewrite <- (take_drop n l). apply in_or_app. right. exact Hb.
        -- apply Hr; assumption.
Qed.

(** ** The most clicked products *)



Lemma In_take {A} (x : A) (n : nat) (l : list A) : In x (take n l) -> In x l.
Proof.
  intros H. rewrite <- (take_drop n l). apply in_or_app. left. exact H.
Qed.

Lemma NoDup_map_take {A B} (f : A -> B) (n : nat) (l : list A) :
  NoDup (map f l) -> NoDup (map f (take n l)).
Proof.
  revert n. induction l as [|x l IH]; intros n H.
  - rewrite take_nil. constructor.
  - destruct n as [|n]; simpl; [constructor|].
    simpl in H. apply NoDup_cons in H. destruct H as [Hx Hl].
    apply NoDup_cons. split; [|apply IH; exact Hl].
    rewrite list_elem_of_In in *. intros Hin. apply Hx.
    apply in_map_iff in Hin. destruct Hin as [y [Hy Hin]].
    apply in_map_iff. exists y. split; [exact Hy|]. exact (In_take _ _ _ Hin).
Qed.

Lemma StronglySorted_map {A B} (f : A -> B) (R : B -> B -> Prop) (l : list A) :
  StronglySorted (fun a b => R (f a) (f b)) l -> StronglySorted R (map f l).
Proof.
  induction 1 as [|x l Hs IH Hall]; simpl; constructor; [exact IH|].
  apply List.Forall_forall. intros y Hy.
  apply in_map_iff in Hy. destruct Hy as [a [<- Ha]].
  rewrite List.Forall_forall in Hall. apply Hall. exact Ha.
Qed.




(* ===================================================================== *)
(** * Further properties *)
(* ===================================================================== *)

(** ** The sweep and the records of other owners *)

Lemma filter_filter {A} (p q : A -> bool) (l : list A) :
  List.filter p (List.filter q l) = List.filter (fun x => q x && p x) l.
Proof.
  induction l as [|x l IH]; simpl; [reflexivity|].
  destruct (q x); simpl; [destruct (p x)|]; rewrite IH; reflexivity.
Qed.

Lemma filter_all {A} (p : A -> bool) (l : list A) :
  (forall x, In x l -> p x = true) -> List.filter p l = l.
Proof.
  induction l as [|x l IH]; simpl; intros H; [reflexivity|].
  rewrite (H x (or_introl eq_refl)). f_equal. apply IH. intros y Hy. apply H. right. exact Hy.
Qed.

(** What the cascade of one session does to the store: the history
    records go once the first deletion is served, the clicks once both
    are. *)
Lemma cleanupSessionHistory_db (env : Env) (w : World) (sid : string) :
  let uid := "anonymous_" +:+ sid in
  let w' := snd (SessionService.cleanupSessionHistory sid env w) in
  search_queries (db w') = search_queries (db w)
  /\ next_oid (db w') = next_oid (db w)
  /\ search_history (db w')
     = List.filter (fun h => negb (String.eqb (h_userId h) uid
                                   && negb (db_throws env (HistoryDeleteMany uid))))
         (search_history (db w))
  /\ clicks (db w')
     = List.filter (fun c => negb (match click_userId c with
                                   | Some u => String.eqb u uid
                                   | None => false
                                   end
                                   && (negb (db_throws env (HistoryDeleteMany uid))
                                       && negb (db_throws env (ClickDeleteMany uid)))))
         (clicks (db w)).
Proof.
  intros uid w'. subst uid w'.
  unfold SessionService.cleanupSessionHistory, try_catch, bind,
    Mongo.SearchHistory_deleteMany, Mongo.Click_deleteMany, Mongo.call, Mongo.deleteAll,
    console_log, console_error, modify.
  destruct (db_throws env (HistoryDeleteMany ("anonymous_" +:+ sid))) eqn:E1; simpl.
  - repeat split; symmetry; apply filter_all; intros x _;
      rewrite ?andb_false_r; reflexivity.
  - destruct (db_throws env (ClickDeleteMany ("anonymous_" +:+ sid))) eqn:E2; simpl.
    + repeat split.
      * apply List.filter_ext. intros h. rewrite andb_true_r. reflexivity.
      * symmetry. apply filter_all. intros x _. rewrite andb_false_r. reflexivity.
    + repeat split.
      * apply List.filter_ext. intros h. rewrite andb_true_r. reflexivity.
      * apply List.filter_ext. intros c. rewrite andb_true_r. reflexivity.
Qed.

Lemma for_of_cleanup_db (env : Env) (l : list string) (w : World) :
  let w' := snd (SessionService.for_of l SessionService.cleanupSessionHistory env w) in
  search_queries (db w') = search_queries (db w)
  /\ next_oid (db w') = next_oid (db w)
  /\ search_history (db w')
     = List.filter
         (fun h => negb (existsb
                           (fun sid => String.eqb (h_userId h) ("anonymous_" +:+ sid)
                                       && negb (db_throws env
                                                  (HistoryDeleteMany ("anonymous_" +:+ sid))))
                           l))
         (search_history (db w))
  /\ clicks (db w')
     = List.filter
         (fun c => negb (existsb
                           (fun sid => match click_userId c with
                                       | Some u => String.eqb u ("anonymous_" +:+ sid)
                                       | None => false
                                       end
                                       && (negb (db_throws env
                                                   (HistoryDeleteMany ("anonymous_" +:+ sid)))
                                           && negb (db_throws env
                                                      (ClickDeleteMany ("anonymous_" +:+ sid)))))
                           l))
         (clicks (db w)).
Proof.
  revert w. induction l as [|sid l IH]; intros w.
  - simpl. repeat split; symmetry; apply filter_all; reflexivity.
  - assert (E : SessionService.for_of (sid :: l) SessionService.cleanupSessionHistory env w
                 = SessionService.for_of l SessionService.cleanupSessionHistory env
                     (snd (SessionService.cleanupSessionHistory sid env w))).
    { cbn [SessionService.for_of]. unfold bind.
      destruct (cleanupSessionHistory_cases env w sid) as [Hr _].
      destruct (SessionService.cleanupSessionHistory sid env w) as [o w1].
      simpl in Hr. subst o. reflexivity. }
    rewrite E. clear E.
    pose proof (cleanupSessionHistory_db env w sid) as Hd. cbv zeta in Hd.
    destruct Hd as [Hq [Hn [Hh Hc]]].
    specialize (IH (snd (SessionService.cleanupSessionHistory sid env w))).
    cbv zeta in IH. destruct IH as [IHq [IHn [IHh IHc]]].
    cbv zeta. rewrite IHq, IHn, IHh, IHc, Hq, Hn, Hh, Hc, !filter_filter.
    repeat split; apply List.filter_ext; intros x; simpl; rewrite negb_orb; reflexivity.
Qed.

Lemma cleanupExpiredSessions_db (env : Env) (w : World) :
  db (snd (SessionService.cleanupExpiredSessions env w))
  = db (snd (SessionService.for_of
               (SessionService.expiredSessions (clock env) (activeSessions w))
               SessionService.cleanupSessionHistory env w)).
Proof.
  assert (E : SessionService.cleanupExpiredSessions env w
              = match SessionService.for_of
                        (SessionService.expiredSessions (clock env) (activeSessions w))
                        SessionService.cleanupSessionHistory env w with
                | (Returns _, w1) =>
                    (if (0 <? length (SessionService.expiredSessions (clock env)
                                        (activeSessions w)))%nat
                     then console_log ("Limpieza automática: "
                            +:+ show (Z.of_nat (length (SessionService.expiredSessions
                                                          (clock env) (activeSessions w))))
                            +:+ " sesiones expiradas eliminadas")
                     else ret tt) env w1
                | (Throws e, w1) => (Throws e, w1)
                end) by reflexivity.
  rewrite E. clear E.
  destruct (SessionService.for_of _ SessionService.cleanupSessionHistory env w) as [[u|e] w1];
    [|reflexivity].
  destruct (0 <? length _)%nat; reflexivity.
Qed.

Lemma existsb_eqb_In (k : string) (l : list string) :
  existsb (String.eqb k) l = true <-> In k l.
Proof.
  rewrite existsb_exists. split.
  - intros [x [Hin He]]. apply String.eqb_eq in He. subst x. exact Hin.
  - intros Hin. exists k. split; [exact Hin|apply String.eqb_refl].
Qed.

(** X1.  The sweep of expired sessions takes nothing from anybody else:
    the query records are untouched, a session that is still active keeps
    its entry as it was, no record is invented, and every history record
    and click whose owner is not the anonymous owner of an expired session
    is still stored afterwards. *)
Theorem sweep_spares_other_owners (env : Env) (w : World) :
  let w' := exec SessionService.cleanupExpiredSessions env w in
  let expired := SessionService.expiredSessions (clock env) (activeSessions w) in
  search_queries (db w') = search_queries (db w)
  /\ (forall k s, activeSessions w !! k = Some s ->
        clock env - lastActivity s < SessionService.SESSION_TIMEOUT ->
        activeSessions w' !! k = Some s)
  /\ (forall h, In h (search_history (db w')) -> In h (search_history (db w)))
  /\ (forall c, In c (clicks (db w')) -> In c (clicks (db w)))
  /\ (forall h, In h (search_history (db w)) ->
        (forall sid, In sid expired -> h_userId h <> SessionService.getAnonymousUserId sid) ->
        In h (search_history (db w')))
  /\ (forall c, In c (clicks (db w)) ->
        (forall sid, In sid expired ->
           click_userId c <> Some (SessionService.getAnonymousUserId sid)) ->
        In c (clicks (db w'))).
Proof.
  intros w' expired. subst w'. unfold exec.
  destruct (cleanupExpiredSessions_effect env w) as [_ Hk].
  rewrite cleanupExpiredSessions_db.
  pose proof (for_of_cleanup_db env expired w) as Hd. cbv zeta in Hd.
  fold expired in Hk |- *.
  destruct Hd as [Hq [_ [Hh Hc]]].
  split; [exact Hq|]. split; [|split; [|split; [|split]]].
  - intros k s Hs Hact. rewrite Hk.
    destruct (existsb (String.eqb k) expired) eqn:E; [|exact Hs].
    apply existsb_eqb_In in E. apply expiredSessions_In in E.
    destruct E as [s' [Hs' Hage]]. rewrite Hs in Hs'. inversion Hs'; subst s'. lia.
  - intros h Hin. rewrite Hh in Hin. apply filter_In in Hin. tauto.
  - intros c Hin. rewrite Hc in Hin. apply filter_In in Hin. tauto.
  - intros h Hin Hown. rewrite Hh. apply filter_In. split; [exact Hin|].
    apply negb_true_iff. apply not_true_is_false. intros Hex.
    apply existsb_exists in Hex. destruct Hex as [sid [Hsid Hp]].
    apply andb_prop in Hp. destruct Hp as [Hp _]. apply String.eqb_eq in Hp.
    exact (Hown sid Hsid Hp).
  - intros c Hin Hown. rewrite Hc. apply filter_In. split; [exact Hin|].
    apply negb_true_iff. apply not_true_is_false. intros Hex.
    apply existsb_exists in Hex. destruct Hex as [sid [Hsid Hp]].
    apply andb_prop in Hp. destruct Hp as [Hp _].
    destruct (click_userId c) as [u|] eqn:Eu; [|discriminate Hp].
    apply String.eqb_eq in Hp. subst u. exact (Hown sid Hsid eq_refl).
Qed.

Lemma sweep_spares_other_owners_witness :
  let env := mkEnv false false [] [] (ApiError "down") (fun _ => false)
               (50 * 60 * 60 * 1000) in
  let h1 := mkSearchHistory "1" "anonymous_s1" "laptop" noFilters None None 1 20 1000 ["A"] in
  let h2 := mkSearchHistory "2" "user_7" "mouse" noFilters None None 1 20 1500 ["B"] in
  let s2 := mkSession "s2" 1500 (49 * 60 * 60 * 1000) in
  let w := mkWorld (mkDb [h1; h2] [] [] 3)
             (<["s1" := mkSession "s1" 1000 2000]> (<["s2" := s2]> ∅)) [] in
  activeSessions (exec SessionService.cleanupExpiredSessions env w) !! "s2" = Some s2
  /\ In h2 (search_history (db (exec SessionService.cleanupExpiredSessions env w))).
Proof.
  intros env h1 h2 s2 w.
  pose proof (sweep_spares_other_owners env w) as H. cbv zeta in H.
  destruct H as [_ [Hact [_ [_ [Hh _]]]]].
  split.
  - apply Hact; [reflexivity | vm_compute; reflexivity].
  - apply Hh; [right; left; reflexivity|].
    intros sid _ Heq. vm_compute in Heq. discriminate Heq.
Defined.

(** X2.  When the store serves the deletions of every expired session,
    one sweep finishes the job: no expired session is left in the
    registry, none of their history records or clicks is left in the
    store, the entries of the other sessions are as they were, and a
    second sweep at the same instant changes nothing. *)
Theorem sweep_completes_when_store_serves (env : Env) (w : World) :
  let w' := exec SessionService.cleanupExpiredSessions env w in
  let expired := SessionService.expiredSessions (clock env) (activeSessions w) in
  (forall sid, In sid expired ->
     db_throws env (HistoryDeleteMany (SessionService.getAnonymousUserId sid)) = false
     /\ db_throws env (ClickDeleteMany (SessionService.getAnonymousUserId sid)) = false) ->
  SessionService.expiredSessions (clock env) (activeSessions w') = []
  /\ (forall sid, In sid expired ->
        activeSessions w' !! sid = None
        /\ (forall h, In h (search_history (db w')) ->
              h_userId h <> SessionService.getAnonymousUserId sid)
        /\ (forall c, In c (clicks (db w')) ->
              click_userId c <> Some (SessionService.getAnonymousUserId sid)))
  /\ (forall k, ~ In k expired -> activeSessions w' !! k = activeSessions w !! k)
  /\ db (exec SessionService.cleanupExpiredSessions env w') = db w'
  /\ activeSessions (exec SessionService.cleanupExpiredSessions env w') = activeSessions w'.
Proof.
  intros w' expired Hserve. subst w'. unfold exec.
  unfold SessionService.getAnonymousUserId in *.
  destruct (cleanupExpiredSessions_effect env w) as [_ Hk].
  fold expired in Hk.
  assert (Hgone : forall sid, In sid expired ->
            activeSessions (snd (SessionService.cleanupExpiredSessions env w)) !! sid = None).
  { intros sid Hin. rewrite Hk.
    destruct (Hserve sid Hin) as [-> ->].
    rewrite (proj2 (existsb_eqb_In sid expired) Hin). reflexivity. }
  assert (Hkeep : forall k, ~ In k expired ->
            activeSessions (snd (SessionService.cleanupExpiredSessions env w)) !! k
            = activeSessions w !! k).
  { intros k Hn. rewrite Hk.
    destruct (existsb (String.eqb k) expired) eqn:E; [|reflexivity].
    apply existsb_eqb_In in E. contradiction. }
  assert (Hnone : SessionService.expiredSessions (clock env)
                    (activeSessions (snd (SessionService.cleanupExpiredSessions env w))) = []).
  { destruct (SessionService.expiredSessions (clock env)
                (activeSessions (snd (SessionService.cleanupExpiredSessions env w))))
      as [|sid rest] eqn:E; [reflexivity|exfalso].
    assert (Hin : In sid (SessionService.expiredSessions (clock env)
                            (activeSessions (snd (SessionService.cleanupExpiredSessions env w)))))
      by (rewrite E; left; reflexivity).
    apply expiredSessions_In in Hin. destruct Hin as [s [Hs Hage]].
    destruct (in_dec String.string_dec sid expired) as [Hi|Hn].
    - rewrite (Hgone sid Hi) in Hs. discriminate Hs.
    - rewrite (Hkeep sid Hn) in Hs. apply Hn.
      apply expiredSessions_In. exists s. split; assumption. }
  split; [exact Hnone|]. split; [|split; [exact Hkeep|]].
  - intros sid Hin. split; [exact (Hgone sid Hin)|].
    rewrite cleanupExpiredSessions_db. fold expired.
    pose proof (for_of_cleanup_db env expired w) as Hd. cbv zeta in Hd.
    destruct Hd as [_ [_ [Hh Hc]]].
    destruct (Hserve sid Hin) as [S1 S2]. split.
    + intros h Hh' Heq. rewrite Hh in Hh'. apply filter_In in Hh'.
      destruct Hh' as [_ Hp]. apply negb_true_iff in Hp.
      assert (Ht : existsb
                     (fun sid0 => String.eqb (h_userId h) ("anonymous_" +:+ sid0)
                                  && negb (db_throws env
                                             (HistoryDeleteMany ("anonymous_" +:+ sid0))))
                     expired = true).
      { apply existsb_exists. exists sid. split; [exact Hin|].
        rewrite Heq, String.eqb_refl, S1. reflexivity. }
      rewrite Ht in Hp. discriminate Hp.
    + intros c Hc' Heq. rewrite Hc in Hc'. apply filter_In in Hc'.
      destruct Hc' as [_ Hp]. apply negb_true_iff in Hp.
      assert (Ht : existsb
                     (fun sid0 => match click_userId c with
                                  | Some u => String.eqb u ("anonymous_" +:+ sid0)
                                  | None => false
                                  end
                                  && (negb (db_throws env
                                              (HistoryDeleteMany ("anonymous_" +:+ sid0)))
                                      && negb (db_throws env
                                                 (ClickDeleteMany ("anonymous_" +:+ sid0)))))
                     expired = true).
      { apply existsb_exists. exists sid. split; [exact Hin|].
        rewrite Heq, String.eqb_refl, S1, S2. reflexivity. }
      rewrite Ht in Hp. discriminate Hp.
  - split.
    + rewrite cleanupExpiredSessions_db. rewrite Hnone. reflexivity.
    + apply map_eq. intros k.
      destruct (cleanupExpiredSessions_effect env
                  (snd (SessionService.cleanupExpiredSessions env w))) as [_ Hk2].
      rewrite Hk2, Hnone. reflexivity.
Qed.

Lemma sweep_completes_when_store_serves_witness :
  let env := mkEnv false false [] [] (ApiError "down") (fun _ => false)
               (50 * 60 * 60 * 1000) in
  let h1 := mkSearchHistory "1" "anonymous_s1" "laptop" noFilters None None 1 20 1000 ["A"] in
  let h2 := mkSearchHistory "2" "user_7" "mouse" noFilters None None 1 20 1500 ["B"] in
  let c1 := mkClick "3" "A" "Laptop" 1200 (Some "anonymous_s1") in
  let w := mkWorld (mkDb [h1; h2] [] [c1] 4)
             (<["s1" := mkSession "s1" 1000 2000]>
                (<["s2" := mkSession "s2" 1500 (49 * 60 * 60 * 1000)]> ∅)) [] in
  let w' := exec SessionService.cleanupExpiredSessions env w in
  SessionService.expiredSessions (clock env) (activeSessions w') = []
  /\ search_history (db w') = [h2]
  /\ clicks (db w') = []
  /\ db (exec SessionService.cleanupExpiredSessions env w') = db w'.
Proof.
  intros env h1 h2 c1 w w'.
  assert (Hserve : forall sid,
            In sid (SessionService.expiredSessions (clock env) (activeSessions w)) ->
            db_throws env (HistoryDeleteMany (SessionService.getAnonymousUserId sid)) = false
            /\ db_throws env (ClickDeleteMany (SessionService.getAnonymousUserId sid)) = false)
    by (intros sid _; split; reflexivity).
  pose proof (sweep_completes_when_store_serves env w Hserve) as H. cbv zeta in H.
  destruct H as [H1 [_ [_ [H4 _]]]].
  split; [exact H1|]. split; [vm_compute; reflexivity|].
  split; [vm_compute; reflexivity|exact H4].
Defined.

(** ** Closing an anonymous session *)

Lemma closeSession_eq (env : Env) (w : World) (sid : string) :
  JS.truthy sid = true ->
  SessionService.closeSession sid env w
  = SessionService.cleanupSessionHistory sid env
      (mkWorld (db w) (activeSessions w) (console w ++ [(LvLog, "Cerrando sesión: " +:+ sid)])).
Proof.
  intros H. unfold SessionService.closeSession. rewrite H. reflexivity.
Qed.

(** X3.  [POST /session/close]: without a session id the request is
    answered 400 and nothing happens.  With one it is answered 200
    "closed and history deleted" whatever the store did: when the store
    refuses the first deletion the session and every record are still
    there; when it serves both, the entry is gone and so is every history
    record and click of the session's anonymous owner. *)
Theorem closeAnonymousSession_answers (env : Env) (w : World) (sessionId : option string) :
  let r := SearchController.closeAnonymousSession sessionId env w in
  (JS.truthy_opt sessionId = false ->
   r = (Returns (Express.status_error 400 "sessionId requerido"), w))
  /\ (forall sid, sessionId = Some sid -> JS.truthy sid = true ->
        let uid := SessionService.getAnonymousUserId sid in
        fst r = Returns (Express.json
                           (SearchController.mkSuccess
                              "Sesión anónima cerrada y historial temporal eliminado"))
        /\ (db_throws env (HistoryDeleteMany uid) = true ->
            db (snd r) = db w /\ activeSessions (snd r) = activeSessions w)
        /\ (db_throws env (HistoryDeleteMany uid) = false ->
            db_throws env (ClickDeleteMany uid) = false ->
            activeSessions (snd r) = delete sid (activeSessions w)
            /\ (forall h, In h (search_history (db (snd r))) -> h_userId h <> uid)
            /\ (forall c, In c (clicks (db (snd r))) -> click_userId c <> Some uid))).
Proof.
  intros r. subst r. split.
  - intros H. unfold SearchController.closeAnonymousSession, try_catch.
    rewrite H. reflexivity.
  - intros sid -> Hsid uid. subst uid. unfold SessionService.getAnonymousUserId.
    unfold SearchController.closeAnonymousSession, try_catch, bind.
    cbn [JS.truthy_opt ProductsService.from_option]. rewrite Hsid. cbn [negb].
    rewrite (closeSession_eq _ _ _ Hsid).
    set (w0 := mkWorld (db w) (activeSessions w)
                 (console w ++ [(LvLog, "Cerrando sesión: " +:+ sid)])).
    destruct (cleanupSessionHistory_cases env w0 sid) as [Hr [H1 [_ H3]]].
    destruct (SessionService.cleanupSessionHistory sid env w0) as [o w1].
    cbn [fst snd] in *. subst o. cbn [fst snd ret].
    split; [reflexivity|]. split.
    + intros Ht. destruct (H1 Ht) as [Hs Hd]. split; assumption.
    + intros Hf1 Hf2. destruct (H3 Hf1 Hf2) as [Hs [Hh Hc]].
      split; [exact Hs|]. split.
      * intros h Hin Heq. rewrite Hh in Hin. apply filter_In in Hin.
        destruct Hin as [_ Hp]. rewrite Heq, String.eqb_refl in Hp. discriminate Hp.
      * intros c Hin Heq. rewrite Hc in Hin. apply filter_In in Hin.
        destruct Hin as [_ Hp]. rewrite Heq, String.eqb_refl in Hp. discriminate Hp.
Qed.

Lemma closeAnonymousSession_answers_witness :
  let env := mkEnv false false [] [] (ApiError "down")
               (fun c => match c with HistoryDeleteMany _ => true | _ => false end) 5000 in
  let h1 := mkSearchHistory "1" "anonymous_s1" "laptop" noFilters None None 1 20 1000 ["A"] in
  let w := mkWorld (mkDb [h1] [] [] 2) (<["s1" := mkSession "s1" 1000 2000]> ∅) [] in
  SearchController.closeAnonymousSession None env w
  = (Returns (Express.status_error 400 "sessionId requerido"), w)
  /\ fst (SearchController.closeAnonymousSession (Some "s1") env w)
     = Returns (Express.json
                  (SearchController.mkSuccess
                     "Sesión anónima cerrada y historial temporal eliminado"))
  /\ db (snd (SearchController.closeAnonymousSession (Some "s1") env w)) = db w
  /\ activeSessions (snd (SearchController.closeAnonymousSession (Some "s1") env w))
     = activeSessions w.
Proof.
  intros env h1 w.
  split.
  - apply (proj1 (closeAnonymousSession_answers env w None)). reflexivity.
  - pose proof (proj2 (closeAnonymousSession_answers env w (Some "s1")) "s1" eq_refl eq_refl)
      as H.
    cbv zeta in H. destruct H as [H1 [H2 _]].
    split; [exact H1|]. apply H2. reflexivity.
Defined.

(** ** How long a session stays active *)

(** X4.  After [registerSession] a session is active exactly until 12
    hours have passed since that registration, whatever the registry held
    before, and for as long [getSession] gives its entry, last active at
    the time of the registration. *)
Theorem registered_session_active_for_12h (env env2 : Env) (w : World) (sid : string) :
  let w1 := exec (SessionService.registerSession sid) env w in
  run (SessionService.isSessionActive sid) env2 w1
  = Returns (clock env2 - clock env <? 12 * 60 * 60 * 1000)
  /\ exists s, activeSessions w1 !! sid = Some s
               /\ lastActivity s = clock env
               /\ run (SessionService.getSession sid) env2 w1
                  = Returns (if clock env2 - clock env <? 12 * 60 * 60 * 1000
                             then Some s else None).
Proof.
  intros w1. subst w1. unfold run, exec.
  destruct (registerSession_sessions env w sid) as [_ [Hs _]].
  set (w1 := snd (SessionService.registerSession sid env w)) in *.
  set (s := match activeSessions w !! sid with
            | Some s => mkSession (sessionId s) (createdAt s) (clock env)
            | None => mkSession sid (clock env) (clock env)
            end) in *.
  assert (Hl : activeSessions w1 !! sid = Some s) by (rewrite Hs; apply lookup_insert_eq).
  assert (Hla : lastActivity s = clock env) by (subst s; destruct (activeSessions w !! sid); reflexivity).
  split.
  - rewrite isSessionActive_eq, Hl, Hla. reflexivity.
  - exists s. split; [exact Hl|]. split; [exact Hla|].
    unfold SessionService.getSession, bind. rewrite isSessionActive_eq, Hl, Hla.
    change SessionService.SESSION_TIMEOUT with (12 * 60 * 60 * 1000).
    destruct (clock env2 - clock env <? 12 * 60 * 60 * 1000); simpl; [|reflexivity].
    rewrite Hl. reflexivity.
Qed.

(** ** The session map stays well formed *)

(** X5.  The registry invariant -- every entry filed under its own id,
    created no later than last active, last active no later than now -- is
    kept by [registerSession], [closeSession] and the sweep as time goes
    on. *)
Theorem sessions_ok_preserved (env : Env) (w : World) (t0 : Z) (sid : string) :
  Invariants.sessions_ok t0 (activeSessions w) ->
  t0 <= clock env ->
  Invariants.sessions_ok (clock env)
    (activeSessions (exec (SessionService.registerSession sid) env w))
  /\ Invariants.sessions_ok (clock env)
       (activeSessions (exec (SessionService.closeSession sid) env w))
  /\ Invariants.sessions_ok (clock env)
       (activeSessions (exec SessionService.cleanupExpiredSessions env w)).
Proof.
  intros Hok Ht. unfold exec.
  assert (Hweak : forall k s, activeSessions w !! k = Some s ->
            sessionId s = k /\ createdAt s <= lastActivity s /\ lastActivity s <= clock env).
  { intros k s Hs. destruct (Hok k s Hs) as [H1 [H2 H3]]. repeat split; [exact H1|exact H2|lia]. }
  split; [|split].
  - destruct (registerSession_sessions env w sid) as [_ [Hs _]]. rewrite Hs.
    intros k s Hk. destruct (decide (k = sid)) as [->|Hne].
    + rewrite lookup_insert_eq in Hk. inversion Hk; subst s. clear Hk.
      destruct (activeSessions w !! sid) as [s0|] eqn:E; simpl.
      * destruct (Hok sid s0 E) as [H1 [H2 H3]]. repeat split; [exact H1|lia|lia].
      * repeat split; lia.
    + rewrite lookup_insert_ne in Hk by congruence. exact (Hweak k s Hk).
  - intros k s Hk. unfold SessionService.closeSession in Hk.
    destruct (negb (JS.truthy sid)); [exact (Hweak k s Hk)|].
    unfold bind, console_log, modify in Hk. cbn [fst snd] in Hk.
    rewrite cleanupSessionHistory_lookup in Hk. cbn [activeSessions] in Hk.
    destruct (decide (k = sid)); [|exact (Hweak k s Hk)].
    destruct (_ || _); [exact (Hweak k s Hk)|discriminate Hk].
  - intros k s Hk.
    destruct (cleanupExpiredSessions_effect env w) as [_ He]. rewrite He in Hk.
    destruct (_ && _); [discriminate Hk|exact (Hweak k s Hk)].
Qed.

Lemma sessions_ok_preserved_witness :
  let env := mkEnv false false [] [] (ApiError "down") (fun _ => false) 5000 in
  let w := mkWorld (mkDb [] [] [] 0) (<["s1" := mkSession "s1" 1000 2000]> ∅) [] in
  Invariants.sessions_ok 5000
    (activeSessions (exec (SessionService.registerSession "s2") env w))
  /\ Invariants.sessions_ok 5000
       (activeSessions (exec SessionService.cleanupExpiredSessions env w)).
Proof.
  intros env w.
  assert (Hok : Invariants.sessions_ok 2000 (activeSessions w)).
  { intros k s Hk. destruct (decide (k = "s1")) as [->|Hne].
    - vm_compute in Hk. inversion Hk; subst s. repeat split; vm_compute; discriminate.
    - unfold w in Hk. cbn [activeSessions] in Hk.
      rewrite lookup_insert_ne in Hk by congruence. rewrite lookup_empty in Hk.
      discriminate Hk. }
  assert (Ht : 2000 <= clock env) by (vm_compute; discriminate).
  destruct (sessions_ok_preserved env w 2000 "s2" Hok Ht) as [H1 [_ H3]].
  split; [exact H1|exact H3].
Defined.

(** ** The token cache of [verifyToken] *)

Lemma nonblank_token (token : string) :
  JS.trim token <> "" ->
  negb (JS.truthy token) || String.eqb (JS.trim token) "" = false.
Proof.
  intros H. destruct token as [|c t]; [exfalso; apply H; apply trim_empty|].
  simpl negb. simpl orb. apply String.eqb_neq. exact H.
Qed.

(** What a call of [verifyToken] gives for a token that is not blank when
    the test mode is off. *)
Lemma verifyToken_run (cfg : AuthService.Config) (token : string)
    (cache : gmap string AuthService.CacheEntry) (env : Env) (w : World) :
  AuthService.USE_DUMMY_AUTH cfg = false ->
  JS.trim token <> "" ->
  run (AuthService.verifyToken cfg token cache) env w
  = Returns
      match cache !! token with
      | Some entry =>
          if clock env - AuthService.ce_timestamp entry <? AuthService.CACHE_DURATION
          then (Some (AuthService.ce_userInfo entry), cache)
          else match AuthService.auth_me cfg token with
               | AuthService.AuthOk u =>
                   (Some u, <[token := AuthService.mkCacheEntry u (clock env)]> cache)
               | AuthService.AuthFails _ => (None, delete token cache)
               end
      | None =>
          match AuthService.auth_me cfg token with
          | AuthService.AuthOk u =>
              (Some u, <[token := AuthService.mkCacheEntry u (clock env)]> cache)
          | AuthService.AuthFails _ => (None, cache)
          end
      end.
Proof.
  intros Hd Hb. unfold run, AuthService.verifyToken.
  rewrite (nonblank_token _ Hb), Hd.
  unfold bind at 1. unfold Date_now at 1.
  destruct (cache !! token) as [entry|] eqn:E.
  - destruct (clock env - AuthService.ce_timestamp entry <? AuthService.CACHE_DURATION).
    + reflexivity.
    + unfold bind at 1. unfold console_log at 1. unfold modify at 1.
      destruct (AuthService.auth_me cfg token) as [u|err].
      * cbn. rewrite insert_delete_eq. reflexivity.
      * destruct err; reflexivity.
  - cbn [negb]. unfold bind at 1. unfold console_log at 1. unfold modify at 1.
    destruct (AuthService.auth_me cfg token) as [u|err].
    + reflexivity.
    + destruct err; reflexivity.
Qed.

(** [verifyToken] always returns and touches nothing but the console. *)
Lemma verifyToken_returns (cfg : AuthService.Config) (token : string)
    (cache : gmap string AuthService.CacheEntry) (env : Env) (w : World) :
  exists v w', AuthService.verifyToken cfg token cache env w = (Returns v, w')
               /\ db w' = db w /\ activeSessions w' = activeSessions w.
Proof.
  unfold AuthService.verifyToken.
  destruct (negb (JS.truthy token) || String.eqb (JS.trim token) "").
  { eexists _, _. split; [reflexivity|]. split; reflexivity. }
  destruct (AuthService.USE_DUMMY_AUTH cfg).
  { eexists _, _. split; [reflexivity|]. split; reflexivity. }
  unfold bind at 1. unfold Date_now at 1.
  destruct (cache !! token) as [entry|].
  - destruct (clock env - AuthService.ce_timestamp entry <? AuthService.CACHE_DURATION).
    + eexists _, _. split; [reflexivity|]. split; reflexivity.
    + destruct (AuthService.auth_me cfg token) as [u|err];
        [|destruct err]; eexists _, _; (split; [reflexivity|]); split; reflexivity.
  - destruct (AuthService.auth_me cfg token) as [u|err];
      [|destruct err]; eexists _, _; (split; [reflexivity|]); split; reflexivity.
Qed.

(** X6.  A token the authentication service has just accepted is accepted
    again for five minutes from the cache, without the service being asked
    (so also when the service would by then refuse it); from five minutes
    on the service is asked again, and its refusal removes the entry. *)
Theorem verified_token_cached_for_5min
    (cfg cfg2 : AuthService.Config) (token : string)
    (cache : gmap string AuthService.CacheEntry) (u : AuthService.UserInfo)
    (env env2 : Env) (w w2 : World) :
  AuthService.USE_DUMMY_AUTH cfg = false ->
  AuthService.USE_DUMMY_AUTH cfg2 = false ->
  JS.trim token <> "" ->
  (forall entry, cache !! token = Some entry ->
     5 * 60 * 1000 <= clock env - AuthService.ce_timestamp entry) ->
  AuthService.auth_me cfg token = AuthService.AuthOk u ->
  let cache1 := <[token := AuthService.mkCacheEntry u (clock env)]> cache in
  run (AuthService.verifyToken cfg token cache) env w = Returns (Some u, cache1)
  /\ (clock env2 - clock env < 5 * 60 * 1000 ->
      run (AuthService.verifyToken cfg2 token cache1) env2 w2 = Returns (Some u, cache1))
  /\ (5 * 60 * 1000 <= clock env2 - clock env ->
      forall err, AuthService.auth_me cfg2 token = AuthService.AuthFails err ->
      run (AuthService.verifyToken cfg2 token cache1) env2 w2
      = Returns (None, delete token cache)).
Proof.
  intros Hd Hd2 Hb Hstale Hok cache1.
  split; [|split].
  - rewrite (verifyToken_run _ _ _ _ _ Hd Hb), Hok.
    destruct (cache !! token) as [entry|] eqn:E; [|reflexivity].
    specialize (Hstale entry eq_refl).
    assert (Hf : (clock env - AuthService.ce_timestamp entry <? AuthService.CACHE_DURATION)
                 = false).
    { apply Z.ltb_ge. unfold AuthService.CACHE_DURATION. lia. }
    rewrite Hf. reflexivity.
  - intros Hsoon. rewrite (verifyToken_run _ _ _ _ _ Hd2 Hb).
    unfold cache1. rewrite lookup_insert_eq. cbn [AuthService.ce_timestamp AuthService.ce_userInfo].
    assert (Hf : (clock env2 - clock env <? AuthService.CACHE_DURATION) = true).
    { apply Z.ltb_lt. unfold AuthService.CACHE_DURATION. lia. }
    rewrite Hf. reflexivity.
  - intros Hlate err Herr. rewrite (verifyToken_run _ _ _ _ _ Hd2 Hb).
    unfold cache1. rewrite lookup_insert_eq. cbn [AuthService.ce_timestamp AuthService.ce_userInfo].
    assert (Hf : (clock env2 - clock env <? AuthService.CACHE_DURATION) = false).
    { apply Z.ltb_ge. unfold AuthService.CACHE_DURATION. lia. }
    rewrite Hf, Herr, delete_insert_eq. reflexivity.
Qed.

Lemma verified_token_cached_for_5min_witness :
  let u := AuthService.mkUserInfo "42" "Ana" "Rojas" "ana@example.com" ["user"] [] true in
  let anon := AuthService.mkUserInfo "0" "Anon" "" "" [] [] true in
  let cfg := AuthService.mkConfig "http://auth" false u anon
               (fun _ => AuthService.AuthOk u) in
  let cfg2 := AuthService.mkConfig "http://auth" false u anon
                (fun _ => AuthService.AuthFails AuthService.Status401) in
  let env := mkEnv false false [] [] (ApiError "down") (fun _ => false) 1000 in
  let env2 := mkEnv false false [] [] (ApiError "down") (fun _ => false) (1000 + 4 * 60 * 1000) in
  let w := mkWorld (mkDb [] [] [] 0) ∅ [] in
  let cache1 := <["tok" := AuthService.mkCacheEntry u 1000]> (∅ : gmap string AuthService.CacheEntry) in
  run (AuthService.verifyToken cfg "tok" ∅) env w = Returns (Some u, cache1)
  /\ run (AuthService.verifyToken cfg2 "tok" cache1) env2 w = Returns (Some u, cache1).
Proof.
  intros u anon cfg cfg2 env env2 w cache1.
  assert (Hb : JS.trim "tok" <> "") by (vm_compute; discriminate).
  assert (Hstale : forall entry,
            (∅ : gmap string AuthService.CacheEntry) !! "tok" = Some entry ->
            5 * 60 * 1000 <= clock env - AuthService.ce_timestamp entry).
  { intros entry He. rewrite lookup_empty in He. discriminate He. }
  pose proof (verified_token_cached_for_5min cfg cfg2 "tok" ∅ u env env2 w w
                eq_refl eq_refl Hb Hstale eq_refl) as H.
  cbv zeta in H. destruct H as [H1 [H2 _]].
  split; [exact H1|]. apply H2. vm_compute. reflexivity.
Defined.

(** X7.  [verifyToken] always answers; it leaves the entries of other
    tokens alone; it keeps no entry for a token it has refused; and an
    entry it leaves for the token is either the one that was there or the
    user it has just answered, stamped with the current time. *)
Theorem verifyToken_cache_frame (cfg : AuthService.Config) (token : string)
    (cache : gmap string AuthService.CacheEntry) (env : Env) (w : World) :
  exists o cache',
    run (AuthService.verifyToken cfg token cache) env w = Returns (o, cache')
    /\ (forall k, k <> token -> cache' !! k = cache !! k)
    /\ (o = None -> JS.trim token <> "" -> cache' !! token = None)
    /\ (forall e, cache' !! token = Some e ->
          cache !! token = Some e
          \/ (o = Some (AuthService.ce_userInfo e) /\ AuthService.ce_timestamp e = clock env)).
Proof.
  destruct (String.eqb_spec (JS.trim token) "") as [Hblank|Hb].
  { exists None, cache. unfold run, AuthService.verifyToken.
    rewrite Hblank. rewrite orb_true_r. split; [reflexivity|].
    split; [reflexivity|]. split; [intros _ H; contradiction|]. intros e He. left. congruence. }
  destruct (AuthService.USE_DUMMY_AUTH cfg) eqn:Hd.
  { exists (Some (AuthService.testAuthenticatedUser cfg)), cache.
    unfold run, AuthService.verifyToken. rewrite (nonblank_token _ Hb), Hd.
    split; [reflexivity|]. split; [reflexivity|].
    split; [intros H; discriminate H|]. intros e He. left. congruence. }
  rewrite (verifyToken_run _ _ _ _ _ Hd Hb).
  destruct (cache !! token) as [entry|] eqn:E.
  - destruct (clock env - AuthService.ce_timestamp entry <? AuthService.CACHE_DURATION).
    + eexists _, _. split; [reflexivity|]. split; [reflexivity|].
      split; [intros H; discriminate H|]. intros e He. left. congruence.
    + destruct (AuthService.auth_me cfg token) as [u|err].
      * eexists _, _. split; [reflexivity|].
        split; [intros k Hk; apply lookup_insert_ne; congruence|].
        split; [intros H; discriminate H|].
        intros e He. rewrite lookup_insert_eq in He. inversion He; subst e.
        right. split; reflexivity.
      * eexists _, _. split; [reflexivity|].
        split; [intros k Hk; apply lookup_delete_ne; congruence|].
        split; [intros _ _; apply lookup_delete_eq|].
        intros e He. rewrite lookup_delete_eq in He. discriminate He.
  - destruct (AuthService.auth_me cfg token) as [u|err].
    + eexists _, _. split; [reflexivity|].
      split; [intros k Hk; apply lookup_insert_ne; congruence|].
      split; [intros H; discriminate H|].
      intros e He. rewrite lookup_insert_eq in He. inversion He; subst e.
      right. split; reflexivity.
    + eexists _, _. split; [reflexivity|]. split; [reflexivity|].
      split; [intros _ _; exact E|]. intros e He. left. congruence.
Qed.

Lemma verifyToken_cache_frame_witness :
  let u := AuthService.mkUserInfo "42" "Ana" "Rojas" "ana@example.com" ["user"] [] true in
  let cfg := AuthService.mkConfig "http://auth" false u u
               (fun _ => AuthService.AuthFails AuthService.ECONNREFUSED) in
  let env := mkEnv false false [] [] (ApiError "down") (fun _ => false) (10 * 60 * 1000) in
  let w := mkWorld (mkDb [] [] [] 0) ∅ [] in
  let cache := <["tok" := AuthService.mkCacheEntry u 1000]>
                 (<["other" := AuthService.mkCacheEntry u 2000]>
                    (∅ : gmap string AuthService.CacheEntry)) in
  exists o cache',
    run (AuthService.verifyToken cfg "tok" cache) env w = Returns (o, cache')
    /\ o = None
    /\ cache' !! "tok" = None
    /\ cache' !! "other" = cache !! "other".
Proof.
  intros u cfg env w cache.
  destruct (verifyToken_cache_frame cfg "tok" cache env w) as [o [cache' [Hrun [Hk [Hn _]]]]].
  exists o, cache'. split; [exact Hrun|].
  assert (Ho : o = None) by (vm_compute in Hrun; congruence).
  split; [exact Ho|]. split.
  - apply Hn; [exact Ho|]. vm_compute. discriminate.
  - apply Hk. discriminate.
Defined.

(** ** Anonymous sessions of the middleware *)

Lemma extractSessionId_getAnonymousUserId (sid : string) :
  SessionService.extractSessionId (SessionService.getAnonymousUserId sid) = Some sid.
Proof.
  unfold SessionService.extractSessionId, SessionService.getAnonymousUserId,
    SessionService.isAnonymousUserId.
  assert (H : JS.startsWith ("anonymous_" +:+ sid) "anonymous_" = true).
  { cbn. destruct sid; reflexivity. }
  rewrite H. cbn [negb]. rewrite (replace_prefix _ _ _ H). reflexivity.
Qed.

(** What [handleAnonymousSession] answers and does. *)
Lemma handleAnonymousSession_run (cfg : AuthService.Config) (uuid : string)
    (req : AuthMiddleware.Request) (hdr : option string) (env : Env) (w : World) :
  let reuse := JS.truthy_opt hdr
               && match activeSessions w !! ProductsService.from_option "" hdr with
                  | Some s => clock env - lastActivity s <? SessionService.SESSION_TIMEOUT
                  | None => false
                  end in
  let sid := if reuse then ProductsService.from_option "" hdr
             else SessionService.generateSessionId uuid in
  let anonymousUser := AuthService.anonymousUserTemplate cfg in
  let r := AuthMiddleware.handleAnonymousSession cfg uuid req hdr env w in
  fst r = Returns
            (AuthMiddleware.mkRequest
               (Some (SessionService.getAnonymousUserId sid))
               (Some (AuthService.ui_correo anonymousUser))
               (Some (AuthService.ui_nombre anonymousUser +:+ " "
                      +:+ AuthService.ui_apellido anonymousUser))
               (Some (AuthService.ui_roles anonymousUser))
               (Some (AuthService.ui_permisos anonymousUser))
               (Some anonymousUser)
               (AuthMiddleware.first_role (AuthService.ui_roles anonymousUser))
               (Some sid)
               (Some true),
             sid)
  /\ db (snd r) = db w
  /\ activeSessions (snd r)
     = <[sid := match activeSessions w !! sid with
                | Some s => mkSession (sessionId s) (createdAt s) (clock env)
                | None => mkSession sid (clock env) (clock env)
                end]> (activeSessions w).
Proof.
  intros reuse sid anonymousUser r.
  assert (E : exists w2,
            r = (Returns
                   (AuthMiddleware.mkRequest
                      (Some (SessionService.getAnonymousUserId sid))
                      (Some (AuthService.ui_correo anonymousUser))
                      (Some (AuthService.ui_nombre anonymousUser +:+ " "
                             +:+ AuthService.ui_apellido anonymousUser))
                      (Some (AuthService.ui_roles anonymousUser))
                      (Some (AuthService.ui_permisos anonymousUser))
                      (Some anonymousUser)
                      (AuthMiddleware.first_role (AuthService.ui_roles anonymousUser))
                      (Some sid)
                      (Some true),
                    sid), w2)
            /\ db w2 = db w
            /\ activeSessions w2
               = <[sid := match activeSessions w !! sid with
                          | Some s => mkSession (sessionId s) (createdAt s) (clock env)
                          | None => mkSession sid (clock env) (clock env)
                          end]> (activeSessions w)).
  { subst r.
    unfold AuthMiddleware.handleAnonymousSession.
    unfold bind at 1. unfold AuthService.getAnonymousUser at 1.
    unfold bind at 1. unfold console_log at 1. unfold modify at 1. unfold ret at 1.
    set (w0 := mkWorld (db w) (activeSessions w)
                 (console w
                  ++ [(LvLog, "Usando plantilla de usuario anónimo (sin autenticación)")])).
    assert (Hreuse :
              (if JS.truthy_opt hdr
               then SessionService.isSessionActive (ProductsService.from_option "" hdr)
               else ret false) env w0 = (Returns reuse, w0)).
    { subst reuse. destruct (JS.truthy_opt hdr); [|reflexivity].
      rewrite isSessionActive_eq. reflexivity. }
    rewrite (bind_returns _ _ _ _ _ _ Hreuse).
    fold sid.
    assert (Hsid : exists w1,
              (if negb reuse
               then console_log ("Nueva sesión anónima: "
                                 +:+ SessionService.generateSessionId uuid) ;;;
                    ret (SessionService.generateSessionId uuid)
               else console_log ("Sesión anónima existente: "
                                 +:+ ProductsService.from_option "" hdr) ;;;
                    ret (ProductsService.from_option "" hdr)) env w0 = (Returns sid, w1)
              /\ db w1 = db w /\ activeSessions w1 = activeSessions w).
    { subst sid. destruct reuse; eexists; (split; [reflexivity|]); split; reflexivity. }
    destruct Hsid as [w1 [Hsid [Hd1 Hs1]]].
    rewrite (bind_returns _ _ _ _ _ _ Hsid).
    destruct (registerSession_sessions env w1 sid) as [Hr [Hs Hd]].
    unfold bind at 1.
    destruct (SessionService.registerSession sid env w1) as [o w2].
    cbn [fst snd] in Hr, Hs, Hd. subst o. unfold ret.
    exists w2. split; [reflexivity|]. split; [congruence|]. rewrite Hs, Hs1. reflexivity. }
  destruct E as [w2 [E [Hd Hs]]]. rewrite E. cbn [fst snd].
  split; [reflexivity|]. split; assumption.
Qed.

Lemma anonymous_session_resolved_aux (cfg : AuthService.Config) (uuid : string)
    (hdr : option string) (env : Env) (w : World) :
  exists r sid w',
    AuthMiddleware.handleAnonymousSession cfg uuid AuthMiddleware.bare hdr env w
    = (Returns (r, sid), w')
    /\ db w' = db w
    /\ AuthMiddleware.req_isAnonymous r = Some true
    /\ AuthMiddleware.req_sessionId r = Some sid
    /\ AuthMiddleware.req_userId r = Some (SessionService.getAnonymousUserId sid)
    /\ run (SessionService.isSessionActive sid) env w' = Returns true.
Proof.
  pose proof (handleAnonymousSession_run cfg uuid AuthMiddleware.bare hdr env w) as H.
  cbv zeta in H. destruct H as [Hr [Hd Hs]].
  destruct (AuthMiddleware.handleAnonymousSession cfg uuid AuthMiddleware.bare hdr env w)
    as [o w'] eqn:E.
  cbn [fst snd] in Hr, Hd, Hs. subst o.
  eexists _, _, w'. split; [reflexivity|]. split; [exact Hd|].
  split; [reflexivity|]. split; [reflexivity|]. split; [reflexivity|].
  unfold run. rewrite isSessionActive_eq. cbn [fst]. rewrite Hs, lookup_insert_eq.
  f_equal. apply Z.ltb_lt.
  match goal with
  | |- context [activeSessions w !! ?k] => destruct (activeSessions w !! k)
  end; cbn [lastActivity]; unfold SessionService.SESSION_TIMEOUT; lia.
Qed.

(** X8.  [handleAnonymousSession] resolves an owner for every request: it
    keeps the session id of the [X-Session-Id] header when that session is
    still active and makes a new one otherwise; the request leaves as
    anonymous, owned by the anonymous owner id of that session, whose
    session id can be read back from it; the session is registered and
    active afterwards; the store and every other session are untouched. *)
Theorem anonymous_session_resolved (cfg : AuthService.Config) (uuid : string)
    (req : AuthMiddleware.Request) (hdr : option string) (env : Env) (w : World) :
  exists r sid w',
    AuthMiddleware.handleAnonymousSession cfg uuid req hdr env w = (Returns (r, sid), w')
    /\ (forall h, hdr = Some h -> JS.truthy h = true ->
          run (SessionService.isSessionActive h) env w = Returns true -> sid = h)
    /\ (forall h, hdr = Some h ->
          run (SessionService.isSessionActive h) env w = Returns false ->
          sid = SessionService.generateSessionId uuid)
    /\ (JS.truthy_opt hdr = false -> sid = SessionService.generateSessionId uuid)
    /\ AuthMiddleware.req_sessionId r = Some sid
    /\ AuthMiddleware.req_userId r = Some (SessionService.getAnonymousUserId sid)
    /\ AuthMiddleware.req_isAnonymous r = Some true
    /\ SessionService.extractSessionId (SessionService.getAnonymousUserId sid) = Some sid
    /\ run (SessionService.isSessionActive sid) env w' = Returns true
    /\ db w' = db w
    /\ (forall k, k <> sid -> activeSessions w' !! k = activeSessions w !! k).
Proof.
  pose proof (handleAnonymousSession_run cfg uuid req hdr env w) as H. cbv zeta in H.
  destruct H as [Hr [Hd Hs]].
  destruct (AuthMiddleware.handleAnonymousSession cfg uuid req hdr env w) as [o w'] eqn:E.
  cbn [fst snd] in Hr, Hd, Hs. subst o.
  eexists _, _, w'. split; [reflexivity|].
  split; [|split; [|split]].
  - intros h -> Ht Hact. unfold run in Hact. rewrite isSessionActive_eq in Hact.
    cbn [fst] in Hact. cbn [JS.truthy_opt ProductsService.from_option]. rewrite Ht.
    cbn [andb]. inversion Hact as [Hb]. rewrite Hb. reflexivity.
  - intros h -> Hact. unfold run in Hact. rewrite isSessionActive_eq in Hact.
    cbn [fst] in Hact. cbn [JS.truthy_opt ProductsService.from_option].
    inversion Hact as [Hb]. destruct (JS.truthy h); cbn [andb]; rewrite ?Hb; reflexivity.
  - intros Hf. rewrite Hf. reflexivity.
  - split; [reflexivity|]. split; [reflexivity|]. split; [reflexivity|].
    split; [apply extractSessionId_getAnonymousUserId|]. split; [|split; [exact Hd|]].
    + unfold run. rewrite isSessionActive_eq. cbn [fst]. rewrite Hs, lookup_insert_eq.
      f_equal. apply Z.ltb_lt.
      match goal with
      | |- context [activeSessions w !! ?k] => destruct (activeSessions w !! k)
      end; cbn [lastActivity]; unfold SessionService.SESSION_TIMEOUT; lia.
    + intros k Hk. rewrite Hs. apply lookup_insert_ne. congruence.
Qed.

Lemma anonymous_session_resolved_witness :
  let anon := AuthService.mkUserInfo "0" "Usuario" "Anónimo" "anon@example.com" ["guest"] [] true in
  let cfg := AuthService.mkConfig "http://auth" false anon anon
               (fun _ => AuthService.AuthFails AuthService.Status401) in
  let env := mkEnv false false [] [] (ApiError "down") (fun _ => false) 5000 in
  let w := mkWorld (mkDb [] [] [] 0) (<["session_a" := mkSession "session_a" 1000 2000]> ∅) [] in
  exists r w',
    AuthMiddleware.handleAnonymousSession cfg "b" AuthMiddleware.bare (Some "session_a") env w
    = (Returns (r, "session_a"), w')
    /\ AuthMiddleware.req_userId r = Some "anonymous_session_a".
Proof.
  intros anon cfg env w.
  destruct (anonymous_session_resolved cfg "b" AuthMiddleware.bare (Some "session_a") env w)
    as [r [sid [w' [Hrun [Hreuse [_ [_ [_ [Hu _]]]]]]]]].
  assert (Hsid : sid = "session_a") by (apply Hreuse; reflexivity).
  subst sid. exists r, w'. split; [exact Hrun|exact Hu].
Defined.

(** X9.  [optionalAuthenticate] never blocks a request and never touches
    the store.  The request leaves either as the user [verifyToken] has
    just accepted for the token of a [Bearer] header, with no session
    made, or as an anonymous session that is registered and active, whose
    id is sent back in [X-Session-Id]; without an [Authorization] header
    it always leaves anonymous and the token cache is not consulted. *)
Theorem optionalAuthenticate_resolves_owner (cfg : AuthService.Config) (uuid : string)
    (authorization sessionIdHeader : option string)
    (tokenCache : gmap string AuthService.CacheEntry) (env : Env) (w : World) :
  exists req header cache' w',
    AuthMiddleware.optionalAuthenticate cfg uuid authorization sessionIdHeader tokenCache env w
    = (Returns (req, header, cache'), w')
    /\ db w' = db w
    /\ ((exists token u,
           AuthMiddleware.split_space ""
             (ProductsService.from_option "" authorization) = ["Bearer"; token]
           /\ run (AuthService.verifyToken cfg token tokenCache) env w
              = Returns (Some u, cache')
           /\ req = AuthMiddleware.authenticated AuthMiddleware.bare u
           /\ header = None
           /\ activeSessions w' = activeSessions w)
        \/ (exists sid,
              AuthMiddleware.req_isAnonymous req = Some true
              /\ AuthMiddleware.req_sessionId req = Some sid
              /\ AuthMiddleware.req_userId req = Some (SessionService.getAnonymousUserId sid)
              /\ header = Some sid
              /\ run (SessionService.isSessionActive sid) env w' = Returns true))
    /\ (JS.truthy_opt authorization = false ->
        AuthMiddleware.req_isAnonymous req = Some true /\ cache' = tokenCache).
Proof.
  assert (Hanon : forall (w0 : World) (c : gmap string AuthService.CacheEntry),
            db w0 = db w ->
            exists req sid w',
              (r <- AuthMiddleware.handleAnonymousSession cfg uuid AuthMiddleware.bare
                      sessionIdHeader ;;
               ret (fst r, Some (snd r), c)) env w0 = (Returns (req, Some sid, c), w')
              /\ db w' = db w
              /\ AuthMiddleware.req_isAnonymous req = Some true
              /\ AuthMiddleware.req_sessionId req = Some sid
              /\ AuthMiddleware.req_userId req = Some (SessionService.getAnonymousUserId sid)
              /\ run (SessionService.isSessionActive sid) env w' = Returns true).
  { intros w0 c Hd0.
    destruct (anonymous_session_resolved_aux cfg uuid sessionIdHeader env w0)
      as [r [sid [w' [Hrun [H1 [H2 [H3 [H4 H5]]]]]]]].
    exists r, sid, w'. rewrite (bind_returns _ _ _ _ _ _ Hrun). cbn [fst snd ret].
    split; [reflexivity|]. split; [congruence|]. tauto. }
  unfold AuthMiddleware.optionalAuthenticate.
  destruct (JS.truthy_opt authorization) eqn:Hauth.
  2:{ destruct (Hanon w tokenCache eq_refl) as [req [sid [w' [Hrun [Hd [Ha [Hs [Hu Hact]]]]]]]].
      exists req, (Some sid), tokenCache, w'.
      rewrite (try_catch_returns _ _ _ _ _ _ Hrun).
      split; [reflexivity|]. split; [exact Hd|]. split.
      - right. exists sid. tauto.
      - intros _. split; [exact Ha|reflexivity]. }
  assert (Hwarn : forall msg (c : gmap string AuthService.CacheEntry),
            exists req sid w',
              (console_warn msg ;;;
               r <- AuthMiddleware.handleAnonymousSession cfg uuid AuthMiddleware.bare
                      sessionIdHeader ;;
               ret (fst r, Some (snd r), c)) env w = (Returns (req, Some sid, c), w')
              /\ db w' = db w
              /\ AuthMiddleware.req_isAnonymous req = Some true
              /\ AuthMiddleware.req_sessionId req = Some sid
              /\ AuthMiddleware.req_userId req = Some (SessionService.getAnonymousUserId sid)
              /\ run (SessionService.isSessionActive sid) env w' = Returns true).
  { intros msg c. unfold bind at 1. unfold console_warn at 1. unfold modify at 1.
    apply Hanon. reflexivity. }
  assert (Hbad : forall msg,
            exists req header cache' w',
              (console_warn msg ;;;
               r <- AuthMiddleware.handleAnonymousSession cfg uuid AuthMiddleware.bare
                      sessionIdHeader ;;
               ret (fst r, Some (snd r), tokenCache)) env w
              = (Returns (req, header, cache'), w')
              /\ db w' = db w
              /\ ((exists token u,
                     AuthMiddleware.split_space ""
                       (ProductsService.from_option "" authorization) = ["Bearer"; token]
                     /\ run (AuthService.verifyToken cfg token tokenCache) env w
                        = Returns (Some u, cache')
                     /\ req = AuthMiddleware.authenticated AuthMiddleware.bare u
                     /\ header = None
                     /\ activeSessions w' = activeSessions w)
                  \/ (exists sid,
                        AuthMiddleware.req_isAnonymous req = Some true
                        /\ AuthMiddleware.req_sessionId req = Some sid
                        /\ AuthMiddleware.req_userId req
                           = Some (SessionService.getAnonymousUserId sid)
                        /\ header = Some sid
                        /\ run (SessionService.isSessionActive sid) env w' = Returns true))
              /\ (true = false ->
                  AuthMiddleware.req_isAnonymous req = Some true /\ cache' = tokenCache)).
  { intros msg.
    destruct (Hwarn msg tokenCache) as [req [sid [w' [Hrun [Hd [Ha [Hs [Hu Hact]]]]]]]].
    exists req, (Some sid), tokenCache, w'. split; [exact Hrun|]. split; [exact Hd|].
    split; [right; exists sid; tauto|]. intros Hf. discriminate Hf. }
  assert (Hlift : forall (body : M (AuthMiddleware.Request * option string
                                    * gmap string AuthService.CacheEntry)) h P,
            (exists req header cache' w',
               body env w = (Returns (req, header, cache'), w') /\ P req header cache' w') ->
            exists req header cache' w',
              try_catch body h env w = (Returns (req, header, cache'), w')
              /\ P req header cache' w').
  { intros body h P [req [header [cache' [w' [Hrun HP]]]]].
    exists req, header, cache', w'. rewrite (try_catch_returns _ _ _ _ _ _ Hrun).
    split; [reflexivity|exact HP]. }
  apply (Hlift _ _ (fun req header cache' w' =>
           db w' = db w
           /\ ((exists token u,
                  AuthMiddleware.split_space ""
                    (ProductsService.from_option "" authorization) = ["Bearer"; token]
                  /\ run (AuthService.verifyToken cfg token tokenCache) env w
                     = Returns (Some u, cache')
                  /\ req = AuthMiddleware.authenticated AuthMiddleware.bare u
                  /\ header = None
                  /\ activeSessions w' = activeSessions w)
               \/ (exists sid,
                     AuthMiddleware.req_isAnonymous req = Some true
                     /\ AuthMiddleware.req_sessionId req = Some sid
                     /\ AuthMiddleware.req_userId req
                        = Some (SessionService.getAnonymousUserId sid)
                     /\ header = Some sid
                     /\ run (SessionService.isSessionActive sid) env w' = Returns true))
           /\ (true = false ->
               AuthMiddleware.req_isAnonymous req = Some true /\ cache' = tokenCache))).
  destruct (AuthMiddleware.split_space "" (ProductsService.from_option "" authorization))
    as [|scheme [|token [|x rest]]] eqn:Hsplit; try apply Hbad.
  destruct (String.eqb_spec scheme "Bearer") as [->|Hne]; cbn [negb]; [|apply Hbad].
  destruct (verifyToken_returns cfg token tokenCache env w) as [[o c] [w1 [Hv [Hd1 Hs1]]]].
  rewrite (bind_returns _ _ _ _ _ _ Hv). cbn [fst snd].
  destruct o as [u|].
  - eexists _, _, _, _. split; [reflexivity|].
    split; [exact Hd1|]. split; [|intros Hf; discriminate Hf].
    left. exists token, u. split; [reflexivity|].
    split; [unfold run; rewrite Hv; reflexivity|]. split; [reflexivity|].
    split; [reflexivity|]. exact Hs1.
  - unfold bind at 1. unfold console_warn at 1. unfold modify at 1.
    match goal with
    | |- context [bind _ _ env ?w0] =>
        destruct (Hanon w0 c Hd1) as [req [sid [w' [Hrun [Hd [Ha [Hs [Hu Hact]]]]]]]]
    end.
    exists req, (Some sid), c, w'. split; [exact Hrun|]. split; [exact Hd|].
    split; [right; exists sid; tauto|]. intros Hf. discriminate Hf.
Qed.

Lemma optionalAuthenticate_resolves_owner_witness :
  let anon := AuthService.mkUserInfo "0" "Usuario" "Anónimo" "anon@example.com" ["guest"] [] true in
  let cfg := AuthService.mkConfig "http://auth" false anon anon
               (fun _ => AuthService.AuthFails AuthService.Status401) in
  let env := mkEnv false false [] [] (ApiError "down") (fun _ => false) 5000 in
  let w := mkWorld (mkDb [] [] [] 0) ∅ [] in
  exists req header cache' w',
    AuthMiddleware.optionalAuthenticate cfg "b" None None ∅ env w
    = (Returns (req, header, cache'), w')
    /\ AuthMiddleware.req_isAnonymous req = Some true
    /\ cache' = ∅.
Proof.
  intros anon cfg env w.
  destruct (optionalAuthenticate_resolves_owner cfg "b" None None ∅ env w)
    as [req [header [cache' [w' [Hrun [_ [_ Hno]]]]]]].
  exists req, header, cache', w'. split; [exact Hrun|]. apply Hno. reflexivity.
Defined.

(** ** Filtering and sorting the catalog *)

Lemma sort_sorted {A} (cmp : A -> A -> Z) (R : A -> A -> Prop) (l : list A) :
  (forall a b, cmp a b <= 0 -> R a b) ->
  (forall a b, 0 < cmp a b -> R b a) ->
  (forall a b c, R a b -> R b c -> R a c) ->
  StronglySorted R (JS.sort cmp l).
Proof.
  intros Hle Hgt Htr.
  apply Sorted_StronglySorted; [exact Htr|].
  induction l as [|x l IH]; simpl; [constructor|].
  revert IH. generalize (JS.sort cmp l). intros s Hs.
  induction s as [|y s IHs]; simpl.
  - repeat constructor.
  - destruct (cmp x y <=? 0) eqn:E.
    + apply Z.leb_le in E. constructor; [exact Hs|]. constructor. apply Hle. exact E.
    + apply Z.leb_gt in E. inversion Hs as [|? ? Hs' Hhd]; subst.
      constructor; [apply IHs; exact Hs'|].
      destruct s as [|z s]; simpl.
      * constructor. apply Hgt. exact E.
      * destruct (cmp x z <=? 0); constructor; [apply Hgt; exact E|].
        inversion Hhd; subst. assumption.
Qed.

Lemma In_sort {A} (cmp : A -> A -> Z) (l : list A) (x : A) :
  In x (JS.sort cmp l) <-> In x l.
Proof.
  split; apply Permutation_in; [|symmetry]; apply sort_Permutation.
Qed.

(** X10.  What [searchAndFilterProducts] keeps of the catalog (steps 2 to
    5): exactly the products that pass every filter that was given -- the
    text in the title, the description or the brand, whatever the case,
    the price bounds, the category and the condition up to case -- each as
    often as the catalog has it; in ascending order of price for
    [precio-asc], in descending order for [precio-desc]. *)
Theorem filterAndSort_result (filters : ProductsService.FilterOptions)
    (todos : list ProductoNormalizado) :
  let out := ProductsService.filterAndSort filters todos in
  let busqueda := ProductsService.from_option "" (ProductsService.fo_busqueda filters) in
  (forall p,
     In p out <->
     In p todos
     /\ (JS.trim busqueda <> "" ->
         let searchLower := JS.trim (JS.toLowerCase busqueda) in
         JS.includes (JS.toLowerCase (p_titulo p)) searchLower = true
         \/ JS.includes (JS.toLowerCase (p_descripcion p)) searchLower = true
         \/ JS.includes (JS.toLowerCase (p_marca p)) searchLower = true)
     /\ (forall precio_min, ProductsService.fo_precio_min filters = Some precio_min ->
           precio_min <= p_precio p)
     /\ (forall precio_max, ProductsService.fo_precio_max filters = Some precio_max ->
           p_precio p <= precio_max)
     /\ (forall categoria, ProductsService.fo_categoria filters = Some categoria ->
           categoria <> "" ->
           JS.toLowerCase (p_categoria p) = JS.toLowerCase categoria)
     /\ (forall condicion, ProductsService.fo_condicion filters = Some condicion ->
           condicion <> "" ->
           JS.toLowerCase (p_condicion p) = JS.toLowerCase condicion))
  /\ (exists keep, Permutation out (List.filter keep todos))
  /\ (ProductsService.fo_ordenar filters = Some "precio-asc" ->
      StronglySorted (fun a b => p_precio a <= p_precio b) out)
  /\ (ProductsService.fo_ordenar filters = Some "precio-desc" ->
      StronglySorted (fun a b => p_precio b <= p_precio a) out).
Proof.
  intros out busqueda. subst out.
  unfold ProductsService.filterAndSort. fold busqueda.
  set (textp := fun p : ProductoNormalizado =>
         JS.includes (JS.toLowerCase (p_titulo p)) (JS.trim (JS.toLowerCase busqueda))
         || JS.includes (JS.toLowerCase (p_descripcion p)) (JS.trim (JS.toLowerCase busqueda))
         || JS.includes (JS.toLowerCase (p_marca p)) (JS.trim (JS.toLowerCase busqueda))).
  set (l1 := if JS.truthy busqueda && JS.truthy (JS.trim busqueda)
             then List.filter textp todos else todos).
  set (l2 := match ProductsService.fo_precio_min filters with
             | Some precio_min => List.filter (fun p => precio_min <=? p_precio p) l1
             | None => l1
             end).
  set (l3 := match ProductsService.fo_precio_max filters with
             | Some precio_max => List.filter (fun p => p_precio p <=? precio_max) l2
             | None => l2
             end).
  set (catp := fun p : ProductoNormalizado =>
         String.eqb (JS.toLowerCase (p_categoria p))
           (JS.toLowerCase (ProductsService.from_option ""
                              (ProductsService.fo_categoria filters)))).
  set (l4 := if JS.truthy_opt (ProductsService.fo_categoria filters)
             then List.filter catp l3 else l3).
  set (condp := fun p : ProductoNormalizado =>
         String.eqb (JS.toLowerCase (p_condicion p))
           (JS.toLowerCase (ProductsService.from_option ""
                              (ProductsService.fo_condicion filters)))).
  set (l5 := if JS.truthy_opt (ProductsService.fo_condicion filters)
             then List.filter condp l4 else l4).
  set (out := if JS.truthy_opt (ProductsService.fo_ordenar filters)
              then if String.eqb (ProductsService.from_option ""
                                    (ProductsService.fo_ordenar filters)) "precio-asc"
                   then JS.sort (fun a b => p_precio a - p_precio b) l5
                   else if String.eqb (ProductsService.from_option ""
                                         (ProductsService.fo_ordenar filters)) "precio-desc"
                        then JS.sort (fun a b => p_precio b - p_precio a) l5
                        else l5
              else l5).
  assert (H1 : forall p, In p l1 <->
            In p todos /\ (JS.trim busqueda <> "" -> textp p = true)).
  { intros p. subst l1.
    destruct (JS.truthy busqueda && JS.truthy (JS.trim busqueda)) eqn:E.
    - rewrite filter_In. split; [tauto|]. intros [Hin Ht]. split; [exact Hin|].
      apply Ht. apply andb_prop in E. destruct E as [_ E]. apply truthy_iff. exact E.
    - split; [|tauto]. intros Hin. split; [exact Hin|]. intros Hne. exfalso.
      assert (Ht : JS.truthy (JS.trim busqueda) = true) by (apply truthy_iff; exact Hne).
      rewrite Ht, (truthy_trim _ Ht) in E. discriminate E. }
  assert (H2 : forall p, In p l2 <->
            In p l1 /\ (forall m, ProductsService.fo_precio_min filters = Some m ->
                          m <= p_precio p)).
  { intros p. subst l2. destruct (ProductsService.fo_precio_min filters) as [m|].
    - rewrite filter_In. split.
      + intros [Hin Hp]. split; [exact Hin|]. intros m' Hm. inversion Hm; subst m'.
        apply Z.leb_le. exact Hp.
      + intros [Hin Hp]. split; [exact Hin|]. apply Z.leb_le. apply Hp. reflexivity.
    - split; [|tauto]. intros Hin. split; [exact Hin|]. intros m Hm. discriminate Hm. }
  assert (H3 : forall p, In p l3 <->
            In p l2 /\ (forall m, ProductsService.fo_precio_max filters = Some m ->
                          p_precio p <= m)).
  { intros p. subst l3. destruct (ProductsService.fo_precio_max filters) as [m|].
    - rewrite filter_In. split.
      + intros [Hin Hp]. split; [exact Hin|]. intros m' Hm. inversion Hm; subst m'.
        apply Z.leb_le. exact Hp.
      + intros [Hin Hp]. split; [exact Hin|]. apply Z.leb_le. apply Hp. reflexivity.
    - split; [|tauto]. intros Hin. split; [exact Hin|]. intros m Hm. discriminate Hm. }
  assert (Hopt : forall (o : option string) (f : ProductoNormalizado -> string) l p,
            In p (if JS.truthy_opt o
                  then List.filter
                         (fun p => String.eqb (JS.toLowerCase (f p))
                                     (JS.toLowerCase (ProductsService.from_option "" o))) l
                  else l)
            <-> In p l /\ (forall c, o = Some c -> c <> "" ->
                             JS.toLowerCase (f p) = JS.toLowerCase c)).
  { intros o f l p. destruct o as [c|]; cbn [JS.truthy_opt ProductsService.from_option].
    - destruct (JS.truthy c) eqn:Ec.
      + rewrite filter_In. split.
        * intros [Hin Hp]. split; [exact Hin|]. intros c' Hc _. inversion Hc; subst c'.
          apply String.eqb_eq. exact Hp.
        * intros [Hin Hp]. split; [exact Hin|]. apply String.eqb_eq.
          apply Hp; [reflexivity|]. apply truthy_iff. exact Ec.
      + split; [|tauto]. intros Hin. split; [exact Hin|]. intros c' Hc Hne.
        inversion Hc; subst c'. apply truthy_iff in Hne. congruence.
    - split; [|tauto]. intros Hin. split; [exact Hin|]. intros c Hc. discriminate Hc. }
  assert (H4 : forall p, In p l4 <->
            In p l3 /\ (forall c, ProductsService.fo_categoria filters = Some c -> c <> "" ->
                          JS.toLowerCase (p_categoria p) = JS.toLowerCase c)).
  { intros p. subst l4 catp. apply (Hopt _ p_categoria). }
  assert (H5 : forall p, In p l5 <->
            In p l4 /\ (forall c, ProductsService.fo_condicion filters = Some c -> c <> "" ->
                          JS.toLowerCase (p_condicion p) = JS.toLowerCase c)).
  { intros p. subst l5 condp. apply (Hopt _ p_condicion). }
  assert (Hperm : Permutation out l5).
  { subst out. destruct (JS.truthy_opt (ProductsService.fo_ordenar filters)); [|reflexivity].
    destruct (String.eqb _ "precio-asc"); [apply sort_Permutation|].
    destruct (String.eqb _ "precio-desc"); [apply sort_Permutation|reflexivity]. }
  split; [|split; [|split]].
  - intros p. transitivity (In p l5).
    + split; apply Permutation_in; [exact Hperm|symmetry; exact Hperm].
    + rewrite H5, H4, H3, H2, H1. unfold textp.
      rewrite !orb_true_iff. cbv zeta. tauto.
  - assert (F0 : exists keep, todos = List.filter keep todos).
    { exists (fun _ => true). symmetry. apply filter_all. reflexivity. }
    assert (Fs : forall l (p : ProductoNormalizado -> bool),
              (exists keep, l = List.filter keep todos) ->
              exists keep, List.filter p l = List.filter keep todos).
    { intros l p [keep ->]. exists (fun x => keep x && p x). apply filter_filter. }
    assert (F1 : exists keep, l1 = List.filter keep todos).
    { subst l1. destruct (JS.truthy busqueda && JS.truthy (JS.trim busqueda));
        [apply Fs|]; exact F0. }
    assert (F2 : exists keep, l2 = List.filter keep todos).
    { subst l2. destruct (ProductsService.fo_precio_min filters); [apply Fs|]; exact F1. }
    assert (F3 : exists keep, l3 = List.filter keep todos).
    { subst l3. destruct (ProductsService.fo_precio_max filters); [apply Fs|]; exact F2. }
    assert (F4 : exists keep, l4 = List.filter keep todos).
    { subst l4. destruct (JS.truthy_opt (ProductsService.fo_categoria filters));
        [apply Fs|]; exact F3. }
    assert (F5 : exists keep, l5 = List.filter keep todos).
    { subst l5. destruct (JS.truthy_opt (ProductsService.fo_condicion filters));
        [apply Fs|]; exact F4. }
    destruct F5 as [keep E]. exists keep. rewrite Hperm, E. reflexivity.
  - intros Ho. subst out. rewrite Ho. cbn.
    apply sort_sorted; intros; lia.
  - intros Ho. subst out. rewrite Ho. cbn.
    apply sort_sorted; intros; lia.
Qed.

Lemma filterAndSort_result_witness :
  let p1 := mkProducto "1" "A" "Laptop HP" "" 900 "Computacion" "nuevo" 1 "HP" [] None in
  let p2 := mkProducto "2" "B" "Laptop Dell" "" 700 "Computacion" "usado" 1 "Dell" [] None in
  let filters := ProductsService.mkFilterOptions (Some "laptop") None (Some 1000) None None
                   (Some "precio-asc") None None in
  In p2 (ProductsService.filterAndSort filters [p1; p2])
  /\ StronglySorted (fun a b => p_precio a <= p_precio b)
       (ProductsService.filterAndSort filters [p1; p2]).
Proof.
  intros p1 p2 filters.
  pose proof (filterAndSort_result filters [p1; p2]) as H. cbv zeta in H.
  destruct H as [Hin [_ [Hasc _]]].
  split.
  - apply Hin. split; [right; left; reflexivity|].
    split; [intros _; left; reflexivity|].
    split; [intros m Hm; discriminate Hm|].
    split; [intros m Hm; inversion Hm; subst m; vm_compute; discriminate|].
    split; intros c Hc; discriminate Hc.
  - apply Hasc. reflexivity.
Defined.

(** ** Reading the result page by page *)

Lemma searchAndFilterProducts_run (env : Env) (w w1 : World)
    (filters : ProductsService.FilterOptions) (todos : list ProductoNormalizado) :
  ProductsService.todosProductos env w = (Returns todos, w1) ->
  let page := ProductsService.from_option 1 (ProductsService.fo_page filters) in
  let pageSize := ProductsService.from_option 20 (ProductsService.fo_pageSize filters) in
  let filtered := ProductsService.filterAndSort filters todos in
  let total := Z.of_nat (length filtered) in
  run (ProductsService.searchAndFilterProducts filters) env w
  = Returns (ProductsService.mkPaginated
               (JS.slice filtered ((page - 1) * pageSize) ((page - 1) * pageSize + pageSize))
               (ProductsService.mkMetadata total page pageSize
                  (JS.Math_ceil_div total pageSize)
                  (JS.lt_num page (JS.Math_ceil_div total pageSize)))).
Proof.
  intros Htodos page pageSize filtered total.
  unfold run, ProductsService.searchAndFilterProducts.
  fold page pageSize.
  erewrite try_catch_returns; [reflexivity|].
  rewrite (bind_returns _ _ _ _ _ _ Htodos).
  unfold bind, console_log, modify, ret. reflexivity.
Qed.

Lemma chunks_concat {A} (ps n : nat) (l : list A) :
  (length l <= n * ps)%nat ->
  concat (map (fun k => take ps (drop (k * ps) l)) (seq 0 n)) = l.
Proof.
  revert l. induction n as [|n IH]; intros l Hlen.
  - destruct l; [reflexivity|simpl in Hlen; lia].
  - cbn [seq map concat]. rewrite <- seq_shift, map_map.
    cbn [Nat.mul Nat.add]. rewrite drop_0.
    etransitivity; [|apply (take_drop ps l)]. f_equal.
    etransitivity; [|apply (IH (drop ps l)); rewrite length_drop; lia].
    f_equal. apply map_ext. intros k. rewrite drop_drop. reflexivity.
Qed.

(** X11.  Reading a search page by page: with the catalog at hand and a
    page size of at least 1 every page from 1 on is answered, none holds
    more than [pageSize] products, all of them report the same total and
    the same number of pages [n], the pages after [n] are empty, and the
    pages 1 to [n] one after the other are the filtered and sorted list --
    every match once, none left out. *)
Theorem pages_partition_the_result (env : Env) (w : World)
    (filters : ProductsService.FilterOptions) (todos : list ProductoNormalizado) :
  let pageSize := ProductsService.from_option 20 (ProductsService.fo_pageSize filters) in
  let filtered := ProductsService.filterAndSort filters todos in
  let at_page := fun k : Z =>
    ProductsService.mkFilterOptions
      (ProductsService.fo_busqueda filters) (ProductsService.fo_precio_min filters)
      (ProductsService.fo_precio_max filters) (ProductsService.fo_categoria filters)
      (ProductsService.fo_condicion filters) (ProductsService.fo_ordenar filters)
      (Some k) (ProductsService.fo_pageSize filters) in
  let products_of := fun k : Z =>
    match run (ProductsService.searchAndFilterProducts (at_page k)) env w with
    | Returns r => ProductsService.productos r
    | Throws _ => []
    end in
  run ProductsService.todosProductos env w = Returns todos ->
  1 <= pageSize ->
  exists n : nat,
    (forall k, 1 <= k ->
       exists r,
         run (ProductsService.searchAndFilterProducts (at_page k)) env w = Returns r
         /\ ProductsService.md_total (ProductsService.metadata r) = Z.of_nat (length filtered)
         /\ ProductsService.md_totalPages (ProductsService.metadata r) = JS.Int (Z.of_nat n)
         /\ Z.of_nat (length (ProductsService.productos r)) <= pageSize
         /\ (Z.of_nat n < k -> ProductsService.productos r = []))
    /\ concat (map (fun k : nat => products_of (Z.of_nat k + 1)) (seq 0 n)) = filtered.
Proof.
  intros pageSize filtered at_page products_of Htodos Hps.
  unfold run in Htodos.
  destruct (ProductsService.todosProductos env w) as [o w1] eqn:Et.
  cbn [fst] in Htodos. subst o.
  destruct (Math_ceil_div_spec (Z.of_nat (length filtered)) pageSize Hps) as [tp [Htp Hb]].
  assert (Htp0 : 0 <= tp) by nia.
  assert (Hrun : forall k,
            run (ProductsService.searchAndFilterProducts (at_page k)) env w
            = Returns (ProductsService.mkPaginated
                         (JS.slice filtered ((k - 1) * pageSize) ((k - 1) * pageSize + pageSize))
                         (ProductsService.mkMetadata (Z.of_nat (length filtered)) k pageSize
                            (JS.Int tp) (k <? tp)))).
  { intros k. rewrite (searchAndFilterProducts_run env w w1 (at_page k) todos Et).
    cbv zeta. subst at_page. cbn [ProductsService.fo_page ProductsService.fo_pageSize
                                   ProductsService.from_option].
    fold pageSize.
    change (ProductsService.filterAndSort _ todos) with filtered.
    rewrite Htp. reflexivity. }
  assert (Hslice : forall k, 1 <= k ->
            JS.slice filtered ((k - 1) * pageSize) ((k - 1) * pageSize + pageSize)
            = take (Z.to_nat pageSize) (drop (Z.to_nat (k - 1) * Z.to_nat pageSize) filtered)).
  { intros k Hk. rewrite slice_take_drop by nia. f_equal; [f_equal; lia|].
    f_equal. rewrite Z2Nat.inj_mul by lia. reflexivity. }
  exists (Z.to_nat tp). split.
  - intros k Hk. eexists. split; [apply Hrun|].
    cbn [ProductsService.metadata ProductsService.productos ProductsService.md_total
           ProductsService.md_totalPages].
    split; [reflexivity|]. split; [f_equal; lia|]. rewrite (Hslice k Hk). split.
    + rewrite length_take. lia.
    + intros Hlate. rewrite drop_ge; [apply take_nil|]. nia.
  - etransitivity; [|apply (chunks_concat (Z.to_nat pageSize) (Z.to_nat tp) filtered); nia].
    f_equal. apply map_ext. intros k. subst products_of. cbv beta. rewrite Hrun.
    cbn [ProductsService.productos]. rewrite Hslice by lia.
    f_equal. f_equal. f_equal. lia.
Qed.

Lemma pages_partition_the_result_witness :
  let pub := fun id precio =>
    mkPublicacion id id "Laptop" "" [] (Some (mkProductoAPI precio "c" "nuevo" 1 "HP")) in
  let env := mkEnv true false [pub "1" 100; pub "2" 200; pub "3" 300] [] (ApiError "down")
               (fun _ => false) 0 in
  let w := mkWorld (mkDb [] [] [] 0) ∅ [] in
  let filters := ProductsService.mkFilterOptions None None None None None None None (Some 2) in
  exists todos n,
    run ProductsService.todosProductos env w = Returns todos
    /\ concat (map (fun k : nat =>
                      match run (ProductsService.searchAndFilterProducts
                                   (ProductsService.mkFilterOptions None None None None None
                                      None (Some (Z.of_nat k + 1)) (Some 2))) env w with
                      | Returns r => ProductsService.productos r
                      | Throws _ => []
                      end) (seq 0 n))
       = ProductsService.filterAndSort filters todos.
Proof.
  intros pub env w filters.
  set (todos := match run ProductsService.todosProductos env w with
                | Returns t => t
                | Throws _ => []
                end).
  assert (Ht : run ProductsService.todosProductos env w = Returns todos)
    by (vm_compute; reflexivity).
  assert (Hps : 1 <= ProductsService.from_option 20 (ProductsService.fo_pageSize filters))
    by (vm_compute; discriminate).
  destruct (pages_partition_the_result env w filters todos Ht Hps) as [n [_ Hc]].
  exists todos, n. split; [exact Ht|exact Hc].
Defined.

(** ** Reading the catalog *)

Lemma mapM_normalizePublicacion (env : Env) (pubs : list PublicacionFromAPI) (w : World) :
  exists w',
    ProductsService.mapM ProductsService.normalizePublicacion pubs env w
    = (Returns
         (map (fun pub =>
                 match pub_producto pub with
                 | None => None
                 | Some producto =>
                     let sorted := JS.sort (fun a b => m_orden a - m_orden b)
                                     (pub_multimedia pub) in
                     Some (mkProducto (pub_id pub) (pub_id_producto pub) (pub_titulo pub)
                             (pub_descripcion pub) (pa_precio producto)
                             (pa_categoria producto) (pa_condicion producto)
                             (pa_stock producto) (pa_marca producto)
                             sorted (ProductsService.primeraImagen sorted))
                 end) pubs), w')
    /\ db w' = db w /\ activeSessions w' = activeSessions w.
Proof.
  revert w. induction pubs as [|pub pubs IH]; intros w.
  - exists w. split; [reflexivity|]. split; reflexivity.
  - cbn [ProductsService.mapM map].
    unfold bind at 1. unfold ProductsService.normalizePublicacion at 1.
    destruct (pub_producto pub) as [producto|].
    + unfold ret at 1. unfold bind at 1.
      destruct (IH w) as [w' [E [Hd Hs]]]. rewrite E. unfold ret.
      exists w'. split; [reflexivity|]. split; assumption.
    + unfold bind at 1. unfold console_warn at 1. unfold modify at 1. unfold ret at 1.
      unfold bind at 1.
      match goal with
      | |- context [ProductsService.mapM _ pubs env ?w0] =>
          destruct (IH w0) as [w' [E [Hd Hs]]]
      end.
      rewrite E. unfold ret. exists w'. split; [reflexivity|]. split; assumption.
Qed.

Lemma sorted_head_least {A} (key : A -> Z) (l : list A) (x : A) (rest : list A) :
  JS.sort (fun a b => key a - key b) l = x :: rest ->
  In x l /\ forall y, In y l -> key x <= key y.
Proof.
  intros E.
  assert (Hs : StronglySorted (fun a b => key a <= key b)
                 (JS.sort (fun a b => key a - key b) l))
    by (apply sort_sorted; intros; lia).
  rewrite E in Hs. inversion Hs as [|? ? _ Hall]; subst.
  rewrite List.Forall_forall in Hall.
  split.
  - apply (In_sort (fun a b => key a - key b)). rewrite E. left. reflexivity.
  - intros y Hy. apply (In_sort (fun a b => key a - key b)) in Hy. rewrite E in Hy.
    destruct Hy as [<-|Hy]; [lia|]. apply Hall. exact Hy.
Qed.

(** X12.  What the service makes of the publications the catalog sends:
    one product for each publication that carries product data, in the
    order received, and none for the others; the product takes its ids
    and texts from the publication and its price, category, condition,
    stock and brand from the product data; its images are those of the
    publication in ascending [orden], and its main image is the url of an
    image of least [orden], missing only when there is no image. *)
Theorem catalog_normalized (env : Env) (w : World) (pubs : list PublicacionFromAPI) :
  USE_DUMMY_PRODUCTS env = false ->
  publicaciones env = ApiData (Some pubs) ->
  pubs <> [] ->
  exists prods,
    run ProductsService.todosProductos env w = Returns prods
    /\ Forall2
         (fun pub p =>
            p_id p = pub_id pub /\ p_id_producto p = pub_id_producto pub
            /\ p_titulo p = pub_titulo pub /\ p_descripcion p = pub_descripcion pub
            /\ pub_producto pub
               = Some (mkProductoAPI (p_precio p) (p_categoria p) (p_condicion p)
                         (p_stock p) (p_marca p))
            /\ Permutation (p_multimedia p) (pub_multimedia pub)
            /\ StronglySorted (fun a b => m_orden a <= m_orden b) (p_multimedia p)
            /\ (p_imagen p = None <-> pub_multimedia pub = [])
            /\ (forall url, p_imagen p = Some url ->
                  exists m, In m (pub_multimedia pub) /\ m_url m = url
                            /\ forall m', In m' (pub_multimedia pub) ->
                                 m_orden m <= m_orden m'))
         (List.filter (fun pub => match pub_producto pub with
                                  | Some _ => true
                                  | None => false
                                  end) pubs)
         prods.
Proof.
  intros Hmode Hapi Hne.
  destruct pubs as [|pub0 pubs0] eqn:Epubs; [contradiction|]. rewrite <- Epubs in *.
  unfold run, ProductsService.todosProductos.
  unfold bind at 1. unfold ask at 1. rewrite Hmode.
  match goal with
  | |- context [try_catch ?body ?h env w] =>
      assert (Hbody : exists w',
                body env w
                = (Returns (ProductsService.nonNull
                     (map (fun pub =>
                             match pub_producto pub with
                             | None => None
                             | Some producto =>
                                 let sorted := JS.sort (fun a b => m_orden a - m_orden b)
                                                 (pub_multimedia pub) in
                                 Some (mkProducto (pub_id pub) (pub_id_producto pub)
                                         (pub_titulo pub) (pub_descripcion pub)
                                         (pa_precio producto) (pa_categoria producto)
                                         (pa_condicion producto) (pa_stock producto)
                                         (pa_marca producto)
                                         sorted (ProductsService.primeraImagen sorted))
                             end) pubs)), w'))
  end.
  { unfold bind at 1. unfold console_log at 1. unfold modify at 1.
    unfold bind at 1. unfold ProductsService.apiClient_get_publicaciones at 1.
    rewrite Hapi. cbn [publicaciones]. rewrite Epubs. rewrite <- Epubs.
    unfold bind at 1. unfold console_log at 1. unfold modify at 1.
    unfold bind at 1.
    match goal with
    | |- context [ProductsService.mapM _ pubs env ?w0] =>
        destruct (mapM_normalizePublicacion env pubs w0) as [w' [E _]]
    end.
    rewrite E. unfold ret. exists w'. reflexivity. }
  destruct Hbody as [w' Hbody].
  rewrite (try_catch_returns _ _ _ _ _ _ Hbody). cbn [fst].
  eexists. split; [reflexivity|].
  clear. induction pubs as [|pub pubs IH]; [constructor|].
  cbn [map List.filter ProductsService.nonNull flat_map].
  destruct (pub_producto pub) as [producto|] eqn:Ep; [|exact IH].
  cbn [app]. constructor; [|exact IH].
  cbn [p_id p_id_producto p_titulo p_descripcion p_precio p_categoria p_condicion
         p_stock p_marca p_multimedia p_imagen].
  split; [reflexivity|]. split; [reflexivity|]. split; [reflexivity|].
  split; [reflexivity|]. split; [rewrite Ep; destruct producto; reflexivity|].
  split; [apply sort_Permutation|].
  split; [apply sort_sorted; intros; lia|].
  unfold ProductsService.primeraImagen.
  destruct (JS.sort (fun a b => m_orden a - m_orden b) (pub_multimedia pub))
    as [|m rest] eqn:Es.
  - assert (Hnil : pub_multimedia pub = []).
    { apply Permutation_nil. rewrite <- Es. apply sort_Permutation. }
    split; [tauto|]. intros url Hu. discriminate Hu.
  - destruct (sorted_head_least m_orden _ _ _ Es) as [Hin Hleast].
    split.
    + split; [intros H; discriminate H|]. intros Hnil. rewrite Hnil in Hin. destruct Hin.
    + intros url Hu. inversion Hu; subst url. exists m. tauto.
Qed.

Lemma catalog_normalized_witness :
  let img := fun u o => mkMultimedia u o in
  let pubA := mkPublicacion "1" "A" "Laptop" "" [img "b.png" 2; img "a.png" 1]
                (Some (mkProductoAPI 900 "c" "nuevo" 1 "HP")) in
  let pubB := mkPublicacion "2" "B" "Mouse" "" [] None in
  let env := mkEnv false false [] [] (ApiData (Some [pubA; pubB])) (fun _ => false) 0 in
  let w := mkWorld (mkDb [] [] [] 0) ∅ [] in
  exists prods,
    run ProductsService.todosProductos env w = Returns prods /\ length prods = 1%nat.
Proof.
  intros img pubA pubB env w.
  assert (Hne : [pubA; pubB] <> []) by discriminate.
  destruct (catalog_normalized env w [pubA; pubB] eq_refl eq_refl Hne) as [prods [Hrun HF]].
  exists prods. split; [exact Hrun|].
  apply Forall2_length in HF. rewrite <- HF. reflexivity.
Defined.

(** X13.  When the catalog cannot be had -- the request fails, the body
    carries no array, or the array is empty -- nothing is searched: the
    service throws "No se pudo conectar con la API de publicaciones",
    whatever the filters, and the search endpoint answers 500 without
    writing a query or history record.  An empty catalog is such a
    failure too, not an empty result. *)
Theorem catalog_unavailable_fails_search (env : Env) (w : World) (req : Express.Auth)
    (safe : SearchController.SearchQueryParams) (filters : ProductsService.FilterOptions) :
  USE_DUMMY_PRODUCTS env = false ->
  (forall pub pubs, publicaciones env <> ApiData (Some (pub :: pubs))) ->
  let reason := match publicaciones env with
                | ApiError message => message
                | ApiData _ => "API no retornó datos"
                end in
  run (ProductsService.searchAndFilterProducts filters) env w
  = Throws (Err ("No se pudo conectar con la API de publicaciones: " +:+ reason))
  /\ run (SearchController.search req safe) env w
     = Returns (Express.status_error 500 "Error al realizar la búsqueda")
  /\ db (exec (SearchController.search req safe) env w) = db w
  /\ activeSessions (exec (SearchController.search req safe) env w) = activeSessions w.
Proof.
  intros Hmode Hdata reason.
  assert (Htodos : forall w0, exists w1,
            ProductsService.todosProductos env w0
            = (Throws (Err ("No se pudo conectar con la API de publicaciones: " +:+ reason)),
               w1)).
  { intros w0. unfold ProductsService.todosProductos.
    unfold bind at 1. unfold ask at 1. rewrite Hmode.
    unfold try_catch, bind, console_log, console_error, modify, throw,
      ProductsService.apiClient_get_publicaciones.
    subst reason. cbn [fst snd publicaciones].
    destruct (publicaciones env) as [message|[[|pub pubs]|]] eqn:E.
    - eexists. reflexivity.
    - eexists. reflexivity.
    - exfalso. exact (Hdata pub pubs eq_refl).
    - eexists. reflexivity. }
  assert (Hsearch : forall f w0, exists w2,
            ProductsService.searchAndFilterProducts f env w0
            = (Throws (Err ("No se pudo conectar con la API de publicaciones: " +:+ reason)),
               w2)).
  { intros f w0. destruct (Htodos w0) as [w1 E].
    unfold ProductsService.searchAndFilterProducts.
    rewrite (try_catch_throws _ _ _ _ _ _ (bind_throws _ _ _ _ _ _ E)).
    unfold bind, console_error, modify, throw. eexists. reflexivity. }
  split.
  - destruct (Hsearch filters w) as [w2 E]. unfold run. rewrite E. reflexivity.
  - destruct (Hsearch (SearchController.searchOptions safe) w) as [w2 E].
    pose proof (console_only_searchAndFilterProducts (SearchController.searchOptions safe)
                  env w) as [Hd Hs].
    rewrite E in Hd, Hs. cbn [snd] in Hd, Hs.
    unfold run, exec, SearchController.search.
    rewrite (try_catch_throws _ _ _ _ _ _ (bind_throws _ _ _ _ _ _ E)).
    unfold bind, console_error, modify, ret. cbn [fst snd db activeSessions].
    split; [reflexivity|]. split; assumption.
Qed.

Lemma catalog_unavailable_fails_search_witness :
  let env := mkEnv false false [] [] (ApiData (Some [])) (fun _ => false) 0 in
  let w := mkWorld (mkDb [] [] [] 0) ∅ [] in
  let req := Express.mkAuth (Some "user_7") None false in
  let safe := SearchController.mkSearchQueryParams (Some "laptop") None None None None 1 20 in
  run (ProductsService.searchAndFilterProducts ProductsService.noOptions) env w
  = Throws (Err "No se pudo conectar con la API de publicaciones: API no retornó datos")
  /\ run (SearchController.search req safe) env w
     = Returns (Express.status_error 500 "Error al realizar la búsqueda")
  /\ db (exec (SearchController.search req safe) env w) = db w.
Proof.
  intros env w req safe.
  assert (Hdata : forall pub pubs, publicaciones env <> ApiData (Some (pub :: pubs)))
    by (intros pub pubs H; discriminate H).
  destruct (catalog_unavailable_fails_search env w req safe ProductsService.noOptions
              eq_refl Hdata) as [H1 [H2 [H3 _]]].
  split; [exact H1|]. split; [exact H2|exact H3].
Defined.

(** ** The products of a category *)

Lemma getProductos_categoria (env : Env) (w : World) (categoria : option string) :
  run (ProductsService.getProductos categoria) env w
  = match run (ProductsService.getProductos None) env w with
    | Returns all =>
        Returns (if JS.truthy_opt categoria
                 then List.filter
                        (fun p => String.eqb (JS.toLowerCase (p_categoria p))
                                    (JS.toLowerCase (ProductsService.from_option "" categoria)))
                        all
                 else all)
    | Throws e => Throws e
    end.
Proof.
  unfold run, ProductsService.getProductos.
  unfold try_catch, bind, ask. cbn [fst snd].
  destruct (USE_DUMMY_PRODUCTS env).
  - unfold console_log, modify. cbn [fst snd].
    destruct (ProductsService.getDemoProducts env _) as [[demo|e] w1]; reflexivity.
  - unfold console_log at 1 3. unfold modify. cbn [fst snd].
    unfold ProductsService.apiClient_get_publicaciones.
    destruct (publicaciones env) as [message|[[|pub pubs]|]]; try reflexivity.
    destruct (ProductsService.mapM ProductsService.normalizePublicacion (pub :: pubs) env _)
      as [[l|e] w1]; reflexivity.
Qed.

(** X14.  [getProductsByCategory] gives the products [getProductos] gives
    for the whole catalog whose category is the asked one up to case, in
    the same order; for the empty name it gives them all; and it fails
    exactly when the catalog cannot be read, with the same error. *)
Theorem products_by_category (env : Env) (w : World) (categoryName : string) :
  run (CategoriesService.getProductsByCategory categoryName) env w
  = match run (ProductsService.getProductos None) env w with
    | Returns all =>
        Returns (if JS.truthy categoryName
                 then List.filter
                        (fun p => String.eqb (JS.toLowerCase (p_categoria p))
                                    (JS.toLowerCase categoryName))
                        all
                 else all)
    | Throws e => Throws e
    end.
Proof.
  pose proof (getProductos_categoria env w (Some categoryName)) as H.
  cbn [JS.truthy_opt ProductsService.from_option] in H.
  unfold run in *. unfold CategoriesService.getProductsByCategory, try_catch.
  destruct (ProductsService.getProductos (Some categoryName) env w) as [[l|e] w1];
    cbn [fst] in H.
  - exact H.
  - unfold bind, console_error, modify, throw. cbn [fst]. exact H.
Qed.

(** ** The top clicked products of the categories service *)

Lemma count_add_None (gs : list (option string * Z)) :
  (forall g, In g gs -> fst g = None) ->
  forall g, In g (CategoriesService.count_add None gs) -> fst g = None.
Proof.
  induction gs as [|g0 gs IH]; intros Hall g Hin; simpl in Hin.
  - destruct Hin as [<-|[]]. reflexivity.
  - destruct (bool_decide (fst g0 = None)).
    + destruct Hin as [<-|Hin]; [cbn [fst]; apply Hall; left; reflexivity|].
      apply Hall. right. exact Hin.
    + destruct Hin as [<-|Hin]; [apply Hall; left; reflexivity|].
      apply IH; [|exact Hin]. intros g' Hg'. apply Hall. right. exact Hg'.
Qed.

Lemma group_count_None (l : list Click) :
  forall g, In g (CategoriesService.group_count CategoriesService.field_productId l) ->
            fst g = None.
Proof.
  unfold CategoriesService.group_count.
  assert (H : forall acc, (forall g, In g acc -> fst g = None) ->
            forall g, In g (fold_left
                              (fun gs c => CategoriesService.count_add
                                             (CategoriesService.field_productId c) gs)
                              l acc) -> fst g = None).
  { induction l as [|c l IH]; intros acc Hacc g Hin; simpl in Hin.
    - apply Hacc. exact Hin.
    - apply (IH _ (count_add_None acc Hacc) g Hin). }
  apply H. intros g [].
Qed.

Lemma filter_map_none {A B} (p : B -> bool) (f : A -> B) (l : list A) :
  (forall x, In x l -> p (f x) = false) -> List.filter p (map f l) = [].
Proof.
  induction l as [|x l IH]; intros H; simpl; [reflexivity|].
  rewrite (H x (or_introl eq_refl)). apply IH. intros y Hy. apply H. right. exact Hy.
Qed.

(** X15.  [CategoriesService.getTopClickedProducts] never names a product:
    it groups the clicks by a field [productId], which no stored click
    has, so its one group has no id, no product of the catalog matches it,
    and the answer is the empty list whatever the clicks and the catalog
    hold.  It throws when the store refuses the aggregation, when the
    limit is not a positive integer, or when the catalog cannot be read.
    The store is not changed. *)
Theorem categories_top_clicked_always_empty (limit : JS.Number) (env : Env) (w : World) :
  run (CategoriesService.getTopClickedProducts limit) env w
  = (if db_throws env ClickAggregate then Throws (Err "MongoError")
     else match Mongo.limit_stage limit ([] : list unit) with
          | Throws e => Throws e
          | Returns _ =>
              match run (ProductsService.getProductos None) env w with
              | Returns _ => Returns []
              | Throws e => Throws e
              end
          end)
  /\ db (exec (CategoriesService.getTopClickedProducts limit) env w) = db w.
Proof.
  assert (H : exists o w',
            CategoriesService.getTopClickedProducts limit env w = (o, w')
            /\ db w' = db w
            /\ o = (if db_throws env ClickAggregate then Throws (Err "MongoError")
                    else match Mongo.limit_stage limit ([] : list unit) with
                         | Throws e => Throws e
                         | Returns _ =>
                             match run (ProductsService.getProductos None) env w with
                             | Returns _ => Returns []
                             | Throws e => Throws e
                             end
                         end)).
  { unfold CategoriesService.getTopClickedProducts.
    unfold try_catch at 1. unfold bind at 1. unfold Mongo.Click_aggregate at 1.
    destruct (db_throws env ClickAggregate).
    { unfold bind, console_error, modify, throw. eexists _, _.
      split; [reflexivity|]. split; reflexivity. }
    destruct (Mongo.limit_stage limit _) as [top|e] eqn:El.
    2:{ unfold bind, console_error, modify, throw. eexists _, _.
        split; [reflexivity|]. split; [reflexivity|].
        unfold Mongo.limit_stage in *.
        destruct limit as [z| | |]; try (inversion El; reflexivity).
        destruct (1 <=? z); [discriminate El|inversion El; reflexivity]. }
    assert (Htop : forall item, In item top -> fst item = None).
    { intros item Hin. unfold Mongo.limit_stage in El.
      destruct limit as [z| | |]; try discriminate El.
      destruct (1 <=? z); [|discriminate El].
      inversion El; subst top. apply In_take in Hin. apply In_sort in Hin.
      exact (group_count_None _ _ Hin). }
    assert (Hok : exists u, Mongo.limit_stage limit ([] : list unit) = Returns u).
    { unfold Mongo.limit_stage in *. destruct limit as [z| | |]; try discriminate El.
      destruct (1 <=? z); [|discriminate El]. eexists. reflexivity. }
    destruct Hok as [u ->].
    unfold bind at 1. unfold run.
    pose proof (console_only_getProductos None env w) as [Hd _].
    destruct (ProductsService.getProductos None env w) as [[productos|e] w1]; cbn [snd] in Hd.
    - unfold ret. eexists _, _. split; [reflexivity|]. split; [exact Hd|]. cbn [fst]. f_equal.
      apply filter_map_none. intros item Hin. cbn [CategoriesService.tp_producto].
      rewrite (Htop item Hin).
      assert (Hf : forall l : list ProductoNormalizado, JS.find (fun _ => false) l = None).
      { intros l. induction l as [|p l IH]; [reflexivity|exact IH]. }
      rewrite Hf. reflexivity.
    - unfold bind, console_error, modify, throw. eexists _, _.
      split; [reflexivity|]. split; [exact Hd|]. reflexivity. }
  destruct H as [o [w' [E [Hd Ho]]]]. unfold exec. unfold run at 1. rewrite E. cbn [fst snd].
  split; [exact Ho|exact Hd].
Qed.

(** ** Listing and clearing the history *)

(** X16.  [GET /history]: without an owner the request is answered 401;
    when the store fails, 500.  Otherwise the answer lists records of the
    store that belong to the caller, never more than ten, the most recent
    first; and a record of the caller that is left out is no more recent
    than any record listed, the list then being full.  Nothing is
    changed in the store. *)
Theorem history_listing (env : Env) (w : World) (req : Express.Auth) :
  (JS.truthy_opt (Express.userId req) = false ->
   SearchController.getSearchHistory req env w
   = (Returns (Express.status_error 401 "Usuario no autenticado"), w))
  /\ (forall u, Express.userId req = Some u -> JS.truthy u = true ->
        db (exec (SearchController.getSearchHistory req) env w) = db w
        /\ (db_throws env (HistoryFind u) = true ->
            run (SearchController.getSearchHistory req) env w
            = Returns (Express.status_error 500 "Error al obtener el historial"))
        /\ (db_throws env (HistoryFind u) = false ->
            exists l,
              run (SearchController.getSearchHistory req) env w
              = Returns (Express.json
                           (SearchController.mkHistoryPayload l
                              (if Express.isAnonymous req
                                  && JS.truthy_opt (Express.sessionId req)
                               then Express.sessionId req else None)))
              /\ (length l <= 10)%nat
              /\ (forall h, In h l -> In h (search_history (db w)) /\ h_userId h = u)
              /\ StronglySorted (fun a b => h_requestedAt b <= h_requestedAt a) l
              /\ (forall h, In h (search_history (db w)) -> h_userId h = u -> ~ In h l ->
                    length l = 10%nat
                    /\ forall h', In h' l -> h_requestedAt h <= h_requestedAt h'))).
Proof.
  split.
  - intros H. unfold SearchController.getSearchHistory, try_catch. rewrite H. reflexivity.
  - intros u Hu Ht.
    assert (Hopt : JS.truthy_opt (Express.userId req) = true) by (rewrite Hu; exact Ht).
    set (S := JS.sort (fun a b => h_requestedAt b - h_requestedAt a)
                (List.filter (fun h => String.eqb (h_userId h) u) (search_history (db w)))).
    assert (E : SearchController.getSearchHistory req env w
                = if db_throws env (HistoryFind u)
                  then (Returns (Express.status_error 500 "Error al obtener el historial"),
                        mkWorld (db w) (activeSessions w)
                          (console w ++ [(LvError, "Error al obtener historial:")]))
                  else (Returns (Express.json
                                   (SearchController.mkHistoryPayload (take 10 S)
                                      (if Express.isAnonymous req
                                          && JS.truthy_opt (Express.sessionId req)
                                       then Express.sessionId req else None))),
                        mkWorld (db w) (activeSessions w)
                          (console w ++ [(LvLog, "Historial obtenido en 0ms")]))).
    { unfold SearchController.getSearchHistory, try_catch. rewrite Hopt. cbn [negb].
      unfold bind at 1. unfold SearchService.getSearchHistory. rewrite Hu, Ht.
      unfold Mongo.SearchHistory_find_sorted, Mongo.call.
      destruct (db_throws env (HistoryFind u)).
      - destruct w as [d s c]. reflexivity.
      - destruct w as [d s c]. reflexivity. }
    unfold run, exec. rewrite E.
    split; [destruct (db_throws env (HistoryFind u)); reflexivity|].
    split; [intros ->; reflexivity|].
    intros ->. exists (take 10 S). split; [reflexivity|].
    assert (HS : StronglySorted (fun a b => h_requestedAt b <= h_requestedAt a) S)
      by (apply sort_desc_sorted).
    destruct (StronglySorted_take_drop _ S 10 HS) as [Hst Hsd].
    assert (HinS : forall h, In h S <-> In h (search_history (db w)) /\ h_userId h = u).
    { intros h. unfold S. rewrite In_sort, filter_In, String.eqb_eq. tauto. }
    split; [rewrite length_take; lia|]. split; [|split; [exact Hst|]].
    + intros h Hin. apply HinS. exact (In_take _ _ _ Hin).
    + intros h Hin Hown Hout.
      assert (HhS : In h S) by (apply HinS; tauto).
      rewrite <- (take_drop 10 S) in HhS. apply in_app_or in HhS.
      destruct HhS as [Hl|Hr]; [contradiction|].
      split.
      * rewrite length_take.
        destruct (le_lt_dec (length S) 10) as [Hle|Hgt]; [|lia].
        rewrite drop_ge in Hr by exact Hle. destruct Hr.
      * intros h' Hh'. exact (Hsd h' h Hh' Hr).
Qed.

Lemma history_listing_witness :
  let env := mkEnv false false [] [] (ApiError "down") (fun _ => false) 5000 in
  let h1 := mkSearchHistory "1" "user_7" "laptop" noFilters None None 1 20 1000 ["A"] in
  let h2 := mkSearchHistory "2" "user_8" "mouse" noFilters None None 1 20 1500 ["B"] in
  let h3 := mkSearchHistory "3" "user_7" "teclado" noFilters None None 1 20 2000 ["C"] in
  let w := mkWorld (mkDb [h1; h2; h3] [] [] 4) ∅ [] in
  SearchController.getSearchHistory (Express.mkAuth None None false) env w
  = (Returns (Express.status_error 401 "Usuario no autenticado"), w)
  /\ exists l,
       run (SearchController.getSearchHistory (Express.mkAuth (Some "user_7") None false)) env w
       = Returns (Express.json (SearchController.mkHistoryPayload l None))
       /\ forall h, In h l -> In h (search_history (db w)) /\ h_userId h = "user_7".
Proof.
  intros env h1 h2 h3 w. split.
  - apply (proj1 (history_listing env w (Express.mkAuth None None false))). reflexivity.
  - destruct (proj2 (history_listing env w (Express.mkAuth (Some "user_7") None false))
                "user_7" eq_refl eq_refl) as [_ [_ H]].
    destruct (H eq_refl) as [l [Hrun [_ [Hown _]]]].
    exists l. split; [exact Hrun|exact Hown].
Defined.

(** X17.  [DELETE /history]: without an owner the request is answered 401
    and when the store fails 500, nothing being deleted.  Otherwise every
    history record of the caller is deleted, and only those: the records
    of the other owners stay as they were and in their order, as do the
    query records and the clicks; the answer counts the deleted records. *)
Theorem clear_history_deletes_own_records (env : Env) (w : World) (req : Express.Auth) :
  let w' := exec (SearchController.clearSearchHistory req) env w in
  (JS.truthy_opt (Express.userId req) = false ->
   SearchController.clearSearchHistory req env w
   = (Returns (Express.status_error 401 "Usuario no autenticado"), w))
  /\ (forall u, Express.userId req = Some u -> JS.truthy u = true ->
        (db_throws env (HistoryDeleteMany u) = true ->
         run (SearchController.clearSearchHistory req) env w
         = Returns (Express.status_error 500 "Error al limpiar el historial")
         /\ db w' = db w)
        /\ (db_throws env (HistoryDeleteMany u) = false ->
            let n := Z.of_nat (length (List.filter (fun h => String.eqb (h_userId h) u)
                                         (search_history (db w)))) in
            run (SearchController.clearSearchHistory req) env w
            = Returns (Express.json
                         (SearchController.mkCleared
                            ("Historial completo eliminado: " +:+ show n +:+ " registros") n))
            /\ search_history (db w')
               = List.filter (fun h => negb (String.eqb (h_userId h) u)) (search_history (db w))
            /\ (forall h, In h (search_history (db w')) -> h_userId h <> u)
            /\ search_queries (db w') = search_queries (db w)
            /\ clicks (db w') = clicks (db w)
            /\ activeSessions w' = activeSessions w)).
Proof.
  intros w'. subst w'. split.
  - intros H. unfold SearchController.clearSearchHistory, try_catch. rewrite H. reflexivity.
  - intros u Hu Ht.
    assert (Hopt : JS.truthy_opt (Express.userId req) = true) by (rewrite Hu; exact Ht).
    set (own := fun h => String.eqb (h_userId h) u).
    set (n := Z.of_nat (length (List.filter own (search_history (db w))))).
    assert (E : SearchController.clearSearchHistory req env w
                = if db_throws env (HistoryDeleteMany u)
                  then (Returns (Express.status_error 500 "Error al limpiar el historial"),
                        mkWorld (db w) (activeSessions w)
                          (console w ++ [(LvError, "Error al limpiar historial:")]))
                  else (Returns (Express.json
                                   (SearchController.mkCleared
                                      ("Historial completo eliminado: " +:+ show n
                                       +:+ " registros") n)),
                        mkWorld
                          (set_search_history
                             (List.filter (fun h => negb (own h)) (search_history (db w)))
                             (db w))
                          (activeSessions w)
                          (console w
                           ++ [(LvLog, "Historial completo eliminado para usuario " +:+ u
                                       +:+ ": " +:+ show n +:+ " registros")]))).
    { unfold SearchController.clearSearchHistory, try_catch. rewrite Hopt. cbn [negb].
      unfold bind at 1. unfold SearchService.clearUserHistory. rewrite Hu.
      cbn [ProductsService.from_option].
      unfold bind at 1. unfold Mongo.SearchHistory_deleteMany, Mongo.call, Mongo.deleteAll.
      destruct (db_throws env (HistoryDeleteMany u)); reflexivity. }
    unfold run, exec. rewrite E. split.
    + intros ->. split; reflexivity.
    + intros ->. cbv zeta. fold own. fold n. cbn [fst snd db activeSessions].
      split; [reflexivity|]. split; [reflexivity|]. split; [|repeat split].
      intros h Hin Heq. apply filter_In in Hin. destruct Hin as [_ Hp].
      unfold own in Hp. rewrite Heq, String.eqb_refl in Hp. discriminate Hp.
Qed.

Lemma clear_history_deletes_own_records_witness :
  let env := mkEnv false false [] [] (ApiError "down") (fun _ => false) 5000 in
  let h1 := mkSearchHistory "1" "user_7" "laptop" noFilters None None 1 20 1000 ["A"] in
  let h2 := mkSearchHistory "2" "user_8" "mouse" noFilters None None 1 20 1500 ["B"] in
  let w := mkWorld (mkDb [h1; h2] [] [] 3) ∅ [] in
  let req := Express.mkAuth (Some "user_7") None false in
  SearchController.clearSearchHistory (Express.mkAuth None None false) env w
  = (Returns (Express.status_error 401 "Usuario no autenticado"), w)
  /\ search_history (db (exec (SearchController.clearSearchHistory req) env w)) = [h2]
  /\ run (SearchController.clearSearchHistory req) env w
     = Returns (Express.json
                  (SearchController.mkCleared "Historial completo eliminado: 1 registros" 1)).
Proof.
  intros env h1 h2 w req. split.
  - apply (proj1 (clear_history_deletes_own_records env w (Express.mkAuth None None false))).
    reflexivity.
  - pose proof (proj2 (clear_history_deletes_own_records env w req) "user_7" eq_refl eq_refl)
      as [_ H].
    destruct (H eq_refl) as [Hrun [Hh _]].
    split; [rewrite Hh; reflexivity|]. rewrite Hrun. reflexivity.
Defined.

(** ** The clicks of a product *)

Lemma getProductClicks_run (env : Env) (w : World) (params : list (string * string))
    (id : string) :
  SearchController.param "id_producto" params = Some id ->
  JS.truthy id = true ->
  SearchController.getProductClicks params env w
  = if db_throws env ClickFind
    then (Returns (Express.status_error 500 "Error al obtener clicks del producto"),
          mkWorld (db w) (activeSessions w)
            (console w ++ [(LvError, "Error al obtener clicks del producto:")]))
    else let found :=
           take 100 (JS.sort (fun a b => click_fecha b - click_fecha a)
                       (List.filter (fun c => String.eqb (click_id_producto c) id)
                          (clicks (db w)))) in
         (Returns (Express.json
                     (SearchController.mkProductClicks id (Z.of_nat (length found)) found)),
          w).
Proof.
  intros Hp Ht. unfold SearchController.getProductClicks, try_catch. rewrite Hp.
  cbn [JS.truthy_opt ProductsService.from_option]. rewrite Ht. cbn [negb].
  unfold bind, SearchService.getClicksByProduct, Mongo.Click_find_by_producto, Mongo.call.
  destruct (db_throws env ClickFind); [reflexivity|].
  destruct w as [d s c]. reflexivity.
Qed.

(** X18.  The clicks of a product ([getProductClicks], for a request
    whose parameters name [id_producto]): the answer lists clicks of the
    store made on that product, the most recent first, and never more
    than one hundred; [totalClicks] is the length of that list, so it
    never exceeds one hundred either, however many clicks are stored; a
    click of the product that is left out is no more recent than any
    listed.  Nothing is changed. *)
Theorem product_clicks_listing (env : Env) (w : World) (params : list (string * string))
    (id : string) :
  SearchController.param "id_producto" params = Some id ->
  JS.truthy id = true ->
  db_throws env ClickFind = false ->
  exists found,
    SearchController.getProductClicks params env w
    = (Returns (Express.json
                  (SearchController.mkProductClicks id (Z.of_nat (length found)) found)), w)
    /\ Z.of_nat (length found)
       = Z.min 100 (Z.of_nat (length (List.filter
                                        (fun c => String.eqb (click_id_producto c) id)
                                        (clicks (db w)))))
    /\ (forall c, In c found -> In c (clicks (db w)) /\ click_id_producto c = id)
    /\ StronglySorted (fun a b => click_fecha b <= click_fecha a) found
    /\ (forall c, In c (clicks (db w)) -> click_id_producto c = id -> ~ In c found ->
          length found = 100%nat
          /\ forall c', In c' found -> click_fecha c <= click_fecha c').
Proof.
  intros Hp Ht Hdb.
  rewrite (getProductClicks_run env w params id Hp Ht), Hdb. cbv zeta.
  set (S := JS.sort (fun a b => click_fecha b - click_fecha a)
              (List.filter (fun c => String.eqb (click_id_producto c) id) (clicks (db w)))).
  exists (take 100 S). split; [reflexivity|].
  assert (HS : StronglySorted (fun a b => click_fecha b <= click_fecha a) S)
    by (apply sort_desc_sorted).
  destruct (StronglySorted_take_drop _ S 100 HS) as [Hst Hsd].
  assert (HinS : forall c, In c S <-> In c (clicks (db w)) /\ click_id_producto c = id).
  { intros c. unfold S. rewrite In_sort, filter_In, String.eqb_eq. tauto. }
  split; [|split; [|split; [exact Hst|]]].
  - rewrite length_take. unfold S. rewrite sort_length. lia.
  - intros c Hin. apply HinS. exact (In_take _ _ _ Hin).
  - intros c Hin Hown Hout.
    assert (HcS : In c S) by (apply HinS; tauto).
    rewrite <- (take_drop 100 S) in HcS. apply in_app_or in HcS.
    destruct HcS as [Hl|Hr]; [contradiction|].
    split.
    + rewrite length_take.
      destruct (le_lt_dec (length S) 100) as [Hle|Hgt]; [|lia].
      rewrite drop_ge in Hr by exact Hle. destruct Hr.
    + intros c' Hc'. exact (Hsd c' c Hc' Hr).
Qed.

Lemma product_clicks_listing_witness :
  let env := mkEnv false false [] [] (ApiError "down") (fun _ => false) 5000 in
  let c1 := mkClick "1" "A" "Laptop" 1000 None in
  let c2 := mkClick "2" "B" "Mouse" 1500 (Some "user_7") in
  let c3 := mkClick "3" "A" "Laptop" 2000 (Some "user_7") in
  let w := mkWorld (mkDb [] [] [c1; c2; c3] 4) ∅ [] in
  exists found,
    SearchController.getProductClicks [("id_producto", "A")] env w
    = (Returns (Express.json (SearchController.mkProductClicks "A" 2 found)), w)
    /\ forall c, In c found -> In c (clicks (db w)) /\ click_id_producto c = "A".
Proof.
  intros env c1 c2 c3 w.
  destruct (product_clicks_listing env w [("id_producto", "A")] "A" eq_refl eq_refl eq_refl)
    as [found [Hrun [Hlen [Hown _]]]].
  exists found. split; [|exact Hown].
  rewrite Hrun. rewrite Hlen. reflexivity.
Defined.

(** X19.  [getProductClicks] answers 400 "id_producto es requerido"
    exactly when the request parameters bind no non-empty [id_producto],
    and then reads and changes nothing.  The route [GET
    /clicks/:productId] binds the path segment to the name [productId],
    not [id_producto]: a request that reaches the handler through this
    route is answered 400 whatever the segment and the store hold. *)
Theorem clicks_route_always_400 (env : Env) (w : World) (segment : string) :
  SearchController.route_clicks_productId segment env w
  = (Returns (Express.status_error 400 "id_producto es requerido"), w)
  /\ (forall params,
        run (SearchController.getProductClicks params) env w
        = Returns (Express.status_error 400 "id_producto es requerido")
        <-> JS.truthy_opt (SearchController.param "id_producto" params) = false)
  /\ (forall params,
        JS.truthy_opt (SearchController.param "id_producto" params) = false ->
        exec (SearchController.getProductClicks params) env w = w).
Proof.
  assert (Hmissing : forall params,
            JS.truthy_opt (SearchController.param "id_producto" params) = false ->
            SearchController.getProductClicks params env w
            = (Returns (Express.status_error 400 "id_producto es requerido"), w)).
  { intros params H. unfold SearchController.getProductClicks, try_catch.
    rewrite H. reflexivity. }
  split; [apply Hmissing; reflexivity|]. split.
  - intros params. split.
    + intros Hrun.
      destruct (SearchController.param "id_producto" params) as [id|] eqn:Ep; [|reflexivity].
      cbn [JS.truthy_opt]. destruct (JS.truthy id) eqn:Et; [|reflexivity].
      unfold run in Hrun. rewrite (getProductClicks_run env w params id Ep Et) in Hrun.
      destruct (db_throws env ClickFind); cbn [fst] in Hrun; discriminate Hrun.
    + intros H. unfold run. rewrite (Hmissing params H). reflexivity.
  - intros params H. unfold exec. rewrite (Hmissing params H). reflexivity.
Qed.

Lemma clicks_route_always_400_witness :
  let env := mkEnv false false [] [] (ApiError "down") (fun _ => false) 5000 in
  let w := mkWorld (mkDb [] [] [mkClick "1" "A" "Laptop" 1000 None] 2) ∅ [] in
  SearchController.route_clicks_productId "A" env w
  = (Returns (Express.status_error 400 "id_producto es requerido"), w)
  /\ exec (SearchController.getProductClicks [("productId", "A")]) env w = w.
Proof.
  intros env w.
  destruct (clicks_route_always_400 env w "A") as [H1 [_ H3]].
  split; [exact H1|]. apply H3. reflexivity.
Defined.

(** ** Registering a click *)

Lemma registerProductClick_run (env : Env) (w : World) (req : Express.Auth)
    (id nombre : string) :
  JS.truthy id = true ->
  JS.truthy nombre = true ->
  SearchController.registerProductClick req (Some id) (Some nombre) env w
  = if db_throws env ClickCreate
    then (Returns (Express.status_error 500 "Error al registrar el click"),
          mkWorld (db w) (activeSessions w)
            (console w ++ [(LvError, "Error al registrar click:")]))
    else (Returns (Express.json (SearchController.mkSuccess "Click registrado exitosamente")),
          mkWorld
            (mkDb (search_history (db w)) (search_queries (db w))
               (clicks (db w)
                ++ [mkClick (HexString.of_N (next_oid (db w))) id nombre (clock env)
                      (Express.userId req)])
               (N.succ (next_oid (db w))))
            (activeSessions w)
            (console w
             ++ [(LvLog,
                  "Click "
                  +:+ (if JS.truthy_opt (Express.userId req)
                          && negb (SessionService.isAnonymousUserId
                                     (ProductsService.from_option "" (Express.userId req)))
                       then "permanente" else "temporal")
                  +:+ " registrado: " +:+ nombre +:+ " (" +:+ id +:+ ")")])).
Proof.
  intros Hi Hn. unfold SearchController.registerProductClick, try_catch.
  cbn [JS.truthy_opt ProductsService.from_option]. rewrite Hi, Hn. cbn [negb].
  unfold bind, SearchService.saveClick, bind, Date_now, Mongo.Click_create, Mongo.call.
  rewrite Hi, Hn. cbn [negb orb].
  destruct (db_throws env ClickCreate); reflexivity.
Qed.

(** X20.  [POST /clicks]: a request without a product id or without a
    name is answered 400 and stores nothing.  Otherwise, the store
    serving, exactly one click is added, with the product id and name of
    the request, the owner of the request and the current time, nothing
    else changing; and from then on the product's click listing counts one
    click more (up to its cap of one hundred). *)
Theorem click_registered (env env2 : Env) (w : World) (req : Express.Auth)
    (id_producto nombre : option string) :
  let w' := exec (SearchController.registerProductClick req id_producto nombre) env w in
  let count := fun x : World =>
    Z.of_nat (length (List.filter
                        (fun c => String.eqb (click_id_producto c)
                                    (ProductsService.from_option "" id_producto))
                        (clicks (db x)))) in
  (JS.truthy_opt id_producto = false ->
   SearchController.registerProductClick req id_producto nombre env w
   = (Returns (Express.status_error 400 "id_producto es requerido y debe ser string"), w))
  /\ (JS.truthy_opt id_producto = true -> JS.truthy_opt nombre = false ->
      SearchController.registerProductClick req id_producto nombre env w
      = (Returns (Express.status_error 400 "nombre es requerido y debe ser string"), w))
  /\ (JS.truthy_opt id_producto = true -> JS.truthy_opt nombre = true ->
      db_throws env ClickCreate = false ->
      run (SearchController.registerProductClick req id_producto nombre) env w
      = Returns (Express.json (SearchController.mkSuccess "Click registrado exitosamente"))
      /\ (exists c, clicks (db w') = clicks (db w) ++ [c]
                    /\ Some (click_id_producto c) = id_producto
                    /\ Some (click_nombre c) = nombre
                    /\ click_userId c = Express.userId req
                    /\ click_fecha c = clock env)
      /\ search_history (db w') = search_history (db w)
      /\ search_queries (db w') = search_queries (db w)
      /\ activeSessions w' = activeSessions w
      /\ count w' = count w + 1
      /\ (db_throws env2 ClickFind = false ->
          exists found,
            run (SearchController.getProductClicks
                   [("id_producto", ProductsService.from_option "" id_producto)]) env2 w'
            = Returns (Express.json
                         (SearchController.mkProductClicks
                            (ProductsService.from_option "" id_producto)
                            (Z.min 100 (count w + 1)) found)))).
Proof.
  intros w' count. subst w'. split; [|split].
  - intros H. unfold SearchController.registerProductClick, try_catch. rewrite H. reflexivity.
  - intros H1 H2. unfold SearchController.registerProductClick, try_catch.
    rewrite H1, H2. reflexivity.
  - intros H1 H2 Hdb.
    destruct id_producto as [id|]; [|discriminate H1].
    destruct nombre as [nombre|]; [|discriminate H2].
    cbn [JS.truthy_opt] in H1, H2. cbn [ProductsService.from_option] in *.
    unfold run, exec. rewrite (registerProductClick_run env w req id nombre H1 H2), Hdb.
    cbn [fst snd].
    match goal with
    | |- context [activeSessions ?x = activeSessions w] => set (w1 := x)
    end.
    assert (Hcount : count w1 = count w + 1).
    { unfold count, w1. cbn [db clicks]. rewrite List.filter_app, length_app.
      cbn [List.filter click_id_producto]. rewrite String.eqb_refl. cbn [length]. lia. }
    split; [reflexivity|]. split.
    { eexists. split; [reflexivity|]. repeat split. }
    split; [reflexivity|]. split; [reflexivity|]. split; [reflexivity|].
    split; [exact Hcount|].
    intros Hfind.
    assert (Hp : SearchController.param "id_producto" [("id_producto", id)] = Some id)
      by reflexivity.
    rewrite (getProductClicks_run env2 w1 _ id Hp H1), Hfind. cbv zeta. cbn [fst].
    eexists. f_equal. f_equal. f_equal.
    rewrite length_take, sort_length. unfold count in Hcount |- *. lia.
Qed.

Lemma click_registered_witness :
  let env := mkEnv false false [] [] (ApiError "down") (fun _ => false) 5000 in
  let c1 := mkClick "1" "A" "Laptop" 1000 None in
  let w := mkWorld (mkDb [] [] [c1] 2) ∅ [] in
  let req := Express.mkAuth (Some "user_7") None false in
  SearchController.registerProductClick req None (Some "Laptop") env w
  = (Returns (Express.status_error 400 "id_producto es requerido y debe ser string"), w)
  /\ SearchController.registerProductClick req (Some "A") None env w
     = (Returns (Express.status_error 400 "nombre es requerido y debe ser string"), w)
  /\ exists c,
       clicks (db (exec (SearchController.registerProductClick req (Some "A") (Some "Laptop"))
                     env w))
       = [c1; c]
       /\ click_userId c = Some "user_7".
Proof.
  intros env c1 w req.
  split; [|split].
  - apply (proj1 (click_registered env env w req None (Some "Laptop"))). reflexivity.
  - apply (proj1 (proj2 (click_registered env env w req (Some "A") None))); reflexivity.
  - destruct (proj2 (proj2 (click_registered env env w req (Some "A") (Some "Laptop")))
                eq_refl eq_refl eq_refl) as [_ [[c [Hc [_ [_ [Hu _]]]]] _]].
    exists c. split; [exact Hc|exact Hu].
Defined.

(** ** The ids of the history records *)

Lemma of_N_inj (n m : N) : HexString.of_N n = HexString.of_N m -> n = m.
Proof.
  intros H. rewrite <- (HexString.to_N_of_N n), <- (HexString.to_N_of_N m), H. reflexivity.
Qed.

Lemma NoDup_map_filter {A B} (f : A -> B) (p : A -> bool) (l : list A) :
  NoDup (map f l) -> NoDup (map f (List.filter p l)).
Proof.
  induction l as [|x l IH]; simpl; intros H; [constructor|].
  apply NoDup_cons in H. destruct H as [Hx Hl].
  destruct (p x); simpl; [|auto].
  apply NoDup_cons. split; [|auto].
  intros Hin. apply Hx. apply list_elem_of_In in Hin. apply list_elem_of_In.
  apply in_map_iff in Hin. destruct Hin as [y [Hy Hin]].
  apply filter_In in Hin. apply in_map_iff. exists y. tauto.
Qed.

Lemma deleteFirst_In {A} (p : A -> bool) (l : list A) (x : A) :
  In x (snd (Mongo.deleteFirst p l)) -> In x l.
Proof.
  induction l as [|y l IH]; simpl; [tauto|].
  destruct (p y); simpl; [tauto|].
  destruct (Mongo.deleteFirst p l) as [n r]. simpl in *. intros [H|H]; [auto|].
  right. apply IH. exact H.
Qed.

Lemma NoDup_map_deleteFirst {A B} (f : A -> B) (p : A -> bool) (l : list A) :
  NoDup (map f l) -> NoDup (map f (snd (Mongo.deleteFirst p l))).
Proof.
  induction l as [|x l IH]; simpl; intros H; [constructor|].
  apply NoDup_cons in H. destruct H as [Hx Hl].
  destruct (p x); simpl; [exact Hl|].
  pose proof (deleteFirst_In p l) as Hsub.
  destruct (Mongo.deleteFirst p l) as [n r]. simpl in *.
  apply NoDup_cons. split; [|auto].
  intros Hin. apply Hx. apply list_elem_of_In in Hin. apply list_elem_of_In.
  apply in_map_iff in Hin. destruct Hin as [y [Hy Hin]].
  apply in_map_iff. exists y. split; [exact Hy|]. apply Hsub. exact Hin.
Qed.

Lemma deleteFirst_app_last {A} (p : A -> bool) (l : list A) (y : A) :
  (forall x, In x l -> p x = false) -> p y = true ->
  Mongo.deleteFirst p (l ++ [y]) = (1, l).
Proof.
  induction l as [|x l IH]; intros Hl Hy; simpl.
  - rewrite Hy. reflexivity.
  - rewrite (Hl x (or_introl eq_refl)).
    rewrite IH; [reflexivity| |exact Hy]. intros z Hz. apply Hl. right. exact Hz.
Qed.

Lemma ids_issued_shrink (d d' : Db) :
  Invariants.ids_issued d ->
  (forall h, In h (search_history d') -> In h (search_history d)) ->
  NoDup (map h_id (search_history d')) ->
  (next_oid d <= next_oid d')%N ->
  Invariants.ids_issued d'.
Proof.
  intros [Hid Hnd] Hsub Hnd' Hle. split; [|exact Hnd'].
  intros h Hin. destruct (Hid h (Hsub h Hin)) as [n [Hn Hlt]].
  exists n. split; [exact Hn|lia].
Qed.

Lemma ids_issued_fresh (d : Db) (h : SearchHistory) :
  Invariants.ids_issued d -> In h (search_history d) ->
  h_id h <> HexString.of_N (next_oid d).
Proof.
  intros [Hid _] Hin Heq. destruct (Hid h Hin) as [n [Hn Hlt]].
  rewrite Hn in Heq. apply of_N_inj in Heq. lia.
Qed.

Lemma ids_issued_save (d : Db) (doc : SearchHistory) (q : list SearchQuery) (c : list Click) :
  Invariants.ids_issued d ->
  Invariants.ids_issued
    (mkDb (search_history d ++ [Mongo.with_id (HexString.of_N (next_oid d)) doc])
       q c (N.succ (next_oid d))).
Proof.
  intros Hok. pose proof Hok as [Hid Hnd]. split; cbn [search_history next_oid].
  - intros h Hin. apply in_app_or in Hin. destruct Hin as [Hin|[<-|[]]].
    + destruct (Hid h Hin) as [n [Hn Hlt]]. exists n. split; [exact Hn|lia].
    + exists (next_oid d). split; [reflexivity|lia].
  - rewrite map_app. cbn [map Mongo.with_id h_id].
    apply (proj2 (NoDup_app _ _)). split; [exact Hnd|]. split; [|apply NoDup_singleton].
    intros x Hx Hx'. apply list_elem_of_In in Hx. apply list_elem_of_In in Hx'.
    destruct Hx' as [<-|[]].
    apply in_map_iff in Hx. destruct Hx as [h [Hh Hin]].
    exact (ids_issued_fresh d h Hok Hin Hh).
Qed.

(** The ids of the history records are issued by the store and stay
    unique: an empty store satisfies this, and saving a search, recording
    a query or a click, deleting one record, clearing a history and the
    cascade of a session all keep it. *)
Lemma record_ids_stay_unique (env : Env) (w : World)
    (data : SearchService.SaveSearchHistoryData) (queryText id_producto nombre : string)
    (owner : option string) (searchId userId sid : string) :
  Invariants.ids_issued (mkDb [] [] [] 0)
  /\ (Invariants.ids_issued (db w) ->
      Invariants.ids_issued (db (exec (SearchService.saveSearchHistory data) env w))
      /\ Invariants.ids_issued (db (exec (SearchService.saveSearchQuery queryText) env w))
      /\ Invariants.ids_issued
           (db (exec (SearchService.saveClick id_producto nombre owner) env w))
      /\ Invariants.ids_issued
           (db (exec (SearchService.deleteSearchHistory searchId userId) env w))
      /\ Invariants.ids_issued (db (exec (SearchService.clearUserHistory userId) env w))
      /\ Invariants.ids_issued (db (exec (SessionService.cleanupSessionHistory sid) env w))).
Proof.
  split.
  { split; [intros h []|constructor]. }
  intros Hok. unfold exec.
  split; [|split; [|split; [|split; [|split]]]].
  - unfold SearchService.saveSearchHistory, bind, Date_now, Mongo.SearchHistory_save,
      Mongo.call, console_log, modify, ret.
    cbn [h_userId h_queryText fst snd].
    destruct (negb (JS.truthy (SearchService.sd_userId data))
              || negb (JS.truthy (SearchService.sd_queryText data)));
      [exact Hok|].
    destruct (db_throws env HistorySave); [exact Hok|].
    cbn [fst snd db]. destruct (SearchService.sd_isAnonymous data);
      cbn [fst snd db]; apply (ids_issued_save (db w) _ _ _ Hok).
  - rewrite saveSearchQuery_run.
    destruct (JS.truthy (JS.trim queryText)); [|exact Hok].
    destruct (db_throws env QueryCreate); [exact Hok|]. cbn [snd db].
    apply (ids_issued_shrink (db w)); cbn [search_history next_oid];
      [exact Hok|tauto|exact (proj2 Hok)|lia].
  - unfold SearchService.saveClick, bind, Date_now, Mongo.Click_create, Mongo.call,
      console_log, modify.
    cbn [fst snd].
    destruct (negb (JS.truthy id_producto) || negb (JS.truthy nombre)); [exact Hok|].
    destruct (db_throws env ClickCreate); [exact Hok|]. cbn [fst snd db].
    apply (ids_issued_shrink (db w)); simpl;
      [exact Hok|tauto|exact (proj2 Hok)|lia].
  - unfold SearchService.deleteSearchHistory, bind, Mongo.SearchHistory_deleteOne, Mongo.call,
      ret.
    destruct (db_throws env (HistoryDeleteOne searchId userId)); [exact Hok|].
    pose proof (deleteFirst_In
                  (fun h => String.eqb (h_id h) searchId && String.eqb (h_userId h) userId)
                  (search_history (db w))) as Hsub.
    pose proof (NoDup_map_deleteFirst h_id
                  (fun h => String.eqb (h_id h) searchId && String.eqb (h_userId h) userId)
                  (search_history (db w)) (proj2 Hok)) as Hnd.
    destruct (Mongo.deleteFirst _ (search_history (db w))) as [n r].
    cbn [fst snd db] in *.
    apply (ids_issued_shrink (db w)); simpl;
      [exact Hok|exact Hsub|exact Hnd|lia].
  - unfold SearchService.clearUserHistory, bind, Mongo.SearchHistory_deleteMany, Mongo.call,
      Mongo.deleteAll, console_log, modify, ret.
    destruct (db_throws env (HistoryDeleteMany userId)); [exact Hok|].
    cbn [fst snd db].
    apply (ids_issued_shrink (db w)); simpl.
    + exact Hok.
    + intros h Hin. apply filter_In in Hin. tauto.
    + apply NoDup_map_filter. exact (proj2 Hok).
    + lia.
  - pose proof (cleanupSessionHistory_db env w sid) as Hd. cbv zeta in Hd.
    destruct Hd as [_ [Hn [Hh _]]].
    apply (ids_issued_shrink (db w)).
    + exact Hok.
    + rewrite Hh. intros h Hin. apply filter_In in Hin. tauto.
    + rewrite Hh. apply NoDup_map_filter. exact (proj2 Hok).
    + rewrite Hn. lia.
Qed.

(** X21.  A saved search can be taken back.  In a store whose record ids
    are unique, [saveSearchHistory] files the record under an id no other
    record has, owned by the user it was saved for; deleting that id as
    that user answers true and leaves the history exactly as it was before
    the save. *)
Theorem saved_search_can_be_deleted (env env2 : Env) (w w1 : World)
    (data : SearchService.SaveSearchHistoryData) (saved : SearchHistory) :
  Invariants.ids_issued (db w) ->
  SearchService.saveSearchHistory data env w = (Returns saved, w1) ->
  db_throws env2 (HistoryDeleteOne (h_id saved) (SearchService.sd_userId data)) = false ->
  search_history (db w1) = search_history (db w) ++ [saved]
  /\ h_userId saved = SearchService.sd_userId data
  /\ h_queryText saved = SearchService.sd_queryText data
  /\ h_requestedAt saved = clock env
  /\ (forall h, In h (search_history (db w)) -> h_id h <> h_id saved)
  /\ run (SearchService.deleteSearchHistory (h_id saved) (SearchService.sd_userId data))
       env2 w1 = Returns true
  /\ search_history
       (db (exec (SearchService.deleteSearchHistory (h_id saved)
                    (SearchService.sd_userId data)) env2 w1))
     = search_history (db w).
Proof.
  intros Hok Hsave Hdel.
  assert (Hu : JS.truthy (SearchService.sd_userId data) = true).
  { destruct (JS.truthy (SearchService.sd_userId data)) eqn:E; [reflexivity|].
    unfold SearchService.saveSearchHistory, bind, Date_now, Mongo.SearchHistory_save in Hsave.
    cbn [h_userId h_queryText] in Hsave. rewrite E in Hsave. discriminate Hsave. }
  assert (Hq : JS.truthy (SearchService.sd_queryText data) = true).
  { destruct (JS.truthy (SearchService.sd_queryText data)) eqn:E; [reflexivity|].
    unfold SearchService.saveSearchHistory, bind, Date_now, Mongo.SearchHistory_save in Hsave.
    cbn [h_userId h_queryText] in Hsave. rewrite Hu, E in Hsave. discriminate Hsave. }
  pose proof (saveSearchHistory_run env w data Hu Hq) as Hrun. cbv zeta in Hrun.
  rewrite Hsave in Hrun.
  destruct (db_throws env HistorySave); [discriminate Hrun|].
  injection Hrun as Hs Hw. subst saved w1.
  set (new := mkSearchHistory (HexString.of_N (next_oid (db w)))
                (SearchService.sd_userId data) (SearchService.sd_queryText data)
                (match SearchService.sd_filters data with Some f => f | None => noFilters end)
                (SearchService.sd_sortBy data) (SearchService.sd_sortDir data)
                (SearchService.num_or (SearchService.sd_page data) 1)
                (SearchService.num_or (SearchService.sd_pageSize data) 20)
                (clock env) (SearchService.sd_results data)) in *.
  assert (Hfresh : forall h, In h (search_history (db w)) -> h_id h <> h_id new).
  { intros h Hin. exact (ids_issued_fresh (db w) h Hok Hin). }
  cbn [db search_history].
  split; [reflexivity|]. split; [reflexivity|]. split; [reflexivity|].
  split; [reflexivity|]. split; [exact Hfresh|].
  assert (Hdf : Mongo.deleteFirst
                  (fun h => String.eqb (h_id h) (h_id new)
                            && String.eqb (h_userId h) (SearchService.sd_userId data))
                  (search_history (db w) ++ [new])
                = (1, search_history (db w))).
  { apply deleteFirst_app_last.
    - intros h Hin. apply andb_false_iff. left. apply String.eqb_neq. exact (Hfresh h Hin).
    - cbn [h_id h_userId new]. rewrite !String.eqb_refl. reflexivity. }
  unfold run, exec, SearchService.deleteSearchHistory, bind, Mongo.SearchHistory_deleteOne,
    Mongo.call, ret.
  rewrite Hdel. cbn [db search_history]. rewrite Hdf. cbn [fst snd db search_history
    set_search_history set_db].
  split; reflexivity.
Qed.

Lemma saved_search_can_be_deleted_witness :
  let env := mkEnv false false [] [] (ApiError "down") (fun _ => false) 5000 in
  let h0 := mkSearchHistory (HexString.of_N 0) "user_7" "mouse" noFilters None None 1 20 1000
              ["B"] in
  let w := mkWorld (mkDb [h0] [] [] 1) ∅ [] in
  let data := SearchService.mkSaveData "user_7" "laptop" None None None None None ["A"] false in
  exists saved w1,
    SearchService.saveSearchHistory data env w = (Returns saved, w1)
    /\ search_history
         (db (exec (SearchService.deleteSearchHistory (h_id saved) "user_7") env w1))
       = [h0].
Proof.
  intros env h0 w data.
  assert (Hok : Invariants.ids_issued (db w)).
  { split.
    - intros h [<-|[]]. exists 0%N. split; [reflexivity|reflexivity].
    - apply NoDup_singleton. }
  destruct (SearchService.saveSearchHistory data env w) as [o w1] eqn:E.
  assert (Ho : exists saved, o = Returns saved) by (vm_compute in E; inversion E; eexists; reflexivity).
  destruct Ho as [saved ->].
  exists saved, w1. split; [reflexivity|].
  assert (Hdel : db_throws env (HistoryDeleteOne (h_id saved) (SearchService.sd_userId data))
                 = false) by reflexivity.
  exact (proj2 (proj2 (proj2 (proj2 (proj2 (proj2
           (saved_search_can_be_deleted env env w w1 data saved Hok E Hdel))))))).
Defined.

(** ** A search is remembered *)

Lemma sort_app_last_first {A} (cmp : A -> A -> Z) (l : list A) (x : A) :
  (forall y, In y l -> 0 < cmp y x) ->
  JS.sort cmp (l ++ [x]) = x :: JS.sort cmp l.
Proof.
  induction l as [|a l IH]; intros H; [reflexivity|].
  cbn [app JS.sort]. rewrite IH by (intros y Hy; apply H; right; exact Hy).
  cbn [JS.insert_sorted].
  assert (Hc : (cmp a x <=? 0) = false)
    by (apply Z.leb_gt; apply H; left; reflexivity).
  rewrite Hc. reflexivity.
Qed.

(** X22.  A search that is recorded heads the history: when a search with
    text, an owner and a non-empty result page is answered with the store
    serving, the owner's history listing then starts with a record of
    that search -- its text, the ids of the products of the page, the
    time of the search -- provided the owner's earlier records are
    older. *)
Theorem recorded_search_heads_history
    (env env2 : Env) (w w1 : World) (req : Express.Auth) (u : string)
    (safe : SearchController.SearchQueryParams)
    (result : ProductsService.PaginatedResponse) :
  let text := ProductsService.from_option "" (SearchController.sq_busqueda safe) in
  let w' := exec (SearchController.search req safe) env w in
  ProductsService.searchAndFilterProducts (SearchController.searchOptions safe) env w
  = (Returns result, w1) ->
  Express.userId req = Some u ->
  JS.truthy u = true ->
  JS.trim text <> "" ->
  ProductsService.productos result <> [] ->
  db_throws env QueryCreate = false ->
  db_throws env HistorySave = false ->
  db_throws env2 (HistoryFind u) = false ->
  (forall h, In h (search_history (db w)) -> h_userId h = u -> h_requestedAt h < clock env) ->
  exists h rest,
    run (SearchController.getSearchHistory req) env2 w'
    = Returns (Express.json
                 (SearchController.mkHistoryPayload (h :: rest)
                    (if Express.isAnonymous req && JS.truthy_opt (Express.sessionId req)
                     then Express.sessionId req else None)))
    /\ h_userId h = u
    /\ h_queryText h = text
    /\ h_results h = map p_id_producto (ProductsService.productos result)
    /\ h_requestedAt h = clock env
    /\ (length rest <= 9)%nat
    /\ (forall h', In h' rest -> In h' (search_history (db w)) /\ h_userId h' = u).
Proof.
  intros text w' Hs Hu Ht Htext Hres Hq Hh Hf Hold. subst w'.
  pose proof (console_only_searchAndFilterProducts (SearchController.searchOptions safe)
                env w) as [Hd1 _].
  rewrite Hs in Hd1. cbn [snd] in Hd1.
  assert (Htt : JS.truthy (JS.trim text) = true) by (apply truthy_iff; exact Htext).
  assert (Hcond : JS.truthy_opt (Express.userId req)
                  && (0 <? length (ProductsService.productos result))%nat = true).
  { rewrite Hu. cbn [JS.truthy_opt]. rewrite Ht.
    destruct (ProductsService.productos result); [contradiction|reflexivity]. }
  assert (Hdata_u : SearchService.sd_userId (SearchController.historyData req safe result) = u).
  { unfold SearchController.historyData. cbn [SearchService.sd_userId]. rewrite Hu.
    reflexivity. }
  assert (Hdata_q : SearchService.sd_queryText (SearchController.historyData req safe result)
                    = text) by reflexivity.
  set (data := SearchController.historyData req safe result) in *.
  set (w2 := exec (SearchService.saveSearchQuery text) env w1).
  assert (Hw2 : search_history (db w2) = search_history (db w)).
  { unfold w2, exec. rewrite saveSearchQuery_run, Htt, Hq. cbn [snd db search_history].
    rewrite Hd1. reflexivity. }
  pose proof (saveSearchHistory_run env w2 data) as Hsave.
  rewrite Hdata_u, Hdata_q in Hsave.
  specialize (Hsave Ht (truthy_trim _ Htt)). cbv zeta in Hsave. rewrite Hh in Hsave.
  set (new := mkSearchHistory (HexString.of_N (next_oid (db w2))) u text
                (match SearchService.sd_filters data with Some f => f | None => noFilters end)
                (SearchService.sd_sortBy data) (SearchService.sd_sortDir data)
                (SearchService.num_or (SearchService.sd_page data) 1)
                (SearchService.num_or (SearchService.sd_pageSize data) 20)
                (clock env) (SearchService.sd_results data)) in *.
  assert (Hfinal : search_history (db (exec (SearchController.search req safe) env w))
                   = search_history (db w) ++ [new]).
  { unfold exec at 1. rewrite (search_run env w w1 req safe result Hs). cbv zeta.
    fold text. rewrite Htt, Hq. fold w2. rewrite Hcond, Hh. fold data.
    unfold exec. rewrite Hsave. cbn [snd db search_history]. rewrite Hw2. reflexivity. }
  assert (Hopt : JS.truthy_opt (Express.userId req) = true) by (rewrite Hu; exact Ht).
  set (wf := exec (SearchController.search req safe) env w) in *.
  set (S := JS.sort (fun a b => h_requestedAt b - h_requestedAt a)
              (List.filter (fun h => String.eqb (h_userId h) u) (search_history (db w)))).
  assert (Hlist : run (SearchController.getSearchHistory req) env2 wf
                  = Returns (Express.json
                               (SearchController.mkHistoryPayload (take 10 (new :: S))
                                  (if Express.isAnonymous req
                                      && JS.truthy_opt (Express.sessionId req)
                                   then Express.sessionId req else None)))).
  { unfold run, SearchController.getSearchHistory, try_catch. rewrite Hopt. cbn [negb].
    unfold bind at 1. unfold SearchService.getSearchHistory. rewrite Hu, Ht.
    unfold Mongo.SearchHistory_find_sorted, Mongo.call. rewrite Hf.
    cbn [fst snd]. rewrite Hfinal, List.filter_app.
    cbn [List.filter h_userId new]. rewrite String.eqb_refl.
    rewrite sort_app_last_first; [reflexivity|].
    intros y Hy. apply filter_In in Hy. destruct Hy as [Hin Hown].
    apply String.eqb_eq in Hown. cbn [h_requestedAt new].
    specialize (Hold y Hin Hown). lia. }
  exists new, (take 9 S). split; [exact Hlist|].
  split; [reflexivity|]. split; [reflexivity|]. split; [reflexivity|].
  split; [reflexivity|]. split; [rewrite length_take; lia|].
  intros h' Hin. apply In_take in Hin. unfold S in Hin.
  apply In_sort in Hin. apply filter_In in Hin. rewrite String.eqb_eq in Hin. exact Hin.
Qed.

Lemma recorded_search_heads_history_witness :
  let env := mkEnv false false [] []
               (ApiData (Some [mkPublicacion "p1" "A" "Laptop HP" "portable" []
                                 (Some (mkProductoAPI 500000 "Electronica" "nuevo" 2 "HP"))]))
               (fun _ => false) 1000 in
  let w := mkWorld (mkDb [] [] [] 0) ∅ [] in
  let req := Express.mkAuth (Some "user_7") None false in
  let typed := SearchController.mkSearchQueryParams (Some "laptop") None None None None 1 20 in
  exists h rest,
    run (SearchController.getSearchHistory req) env
      (exec (SearchController.search req typed) env w)
    = Returns (Express.json (SearchController.mkHistoryPayload (h :: rest) None))
    /\ h_queryText h = "laptop".
Proof.
  intros env w req typed.
  pose proof (fun r w1 Hs =>
                recorded_search_heads_history env env w w1 req "user_7" typed r Hs
                  eq_refl eq_refl) as HC.
  edestruct HC as (h & rest & Hrun & _ & Hq & _).
  { vm_compute. reflexivity. }
  { vm_compute. discriminate. }
  { vm_compute. discriminate. }
  { reflexivity. }
  { reflexivity. }
  { reflexivity. }
  { intros h0 []. }
  exists h, rest. split; [exact Hrun|exact Hq].
Defined.

(** ** The size of the popular-products answer *)

Lemma bind_inv {A B} (m : M A) (f : A -> M B) (env : Env) (w w' : World) (b : B) :
  bind m f env w = (Returns b, w') ->
  exists a w1, m env w = (Returns a, w1) /\ f a env w1 = (Returns b, w').
Proof.
  unfold bind. destruct (m env w) as [[a|e] w1]; intros H; [|discriminate H].
  exists a, w1. split; [reflexivity|exact H].
Qed.

Lemma try_catch_inv {A} (body : M A) (h : Error -> M A) (env : Env) (w w' : World) (a : A) :
  try_catch body h env w = (Returns a, w') ->
  body env w = (Returns a, w')
  \/ exists e w1, body env w = (Throws e, w1) /\ h e env w1 = (Returns a, w').
Proof.
  unfold try_catch. destruct (body env w) as [[x|e] w1]; intros H.
  - left. exact H.
  - right. exists e, w1. split; [reflexivity|exact H].
Qed.

Lemma getPopularProducts_length (n : JS.Number) (z : Z) (env : Env) (w w' : World)
    (l : list AnalyticsService.PopularProduct) :
  (n = JS.Int z /\ 1 <= z) \/ (n = JS.NaN /\ z = 0) ->
  AnalyticsService.getPopularProducts n env w = (Returns l, w') ->
  (length l <= Z.to_nat z)%nat.
Proof.
  intros Hn Hrun. unfold AnalyticsService.getPopularProducts in Hrun.
  apply try_catch_inv in Hrun. destruct Hrun as [Hrun|[e [w1 [_ Hh]]]].
  2:{ unfold bind, console_error, modify, throw in Hh. discriminate Hh. }
  apply bind_inv in Hrun. destruct Hrun as [env' [w1 [_ Hrun]]].
  apply bind_inv in Hrun. destruct Hrun as [useDummy [w2 [_ Hrun]]].
  destruct useDummy.
  - apply bind_inv in Hrun. destruct Hrun as [_ [w3 [_ Hrun]]].
    unfold AnalyticsService.getPopularProductsFromDummy in Hrun.
    apply bind_inv in Hrun. destruct Hrun as [env'' [w4 [_ Hrun]]].
    apply bind_inv in Hrun. destruct Hrun as [productos [w5 [_ Hrun]]].
    cbv zeta in Hrun.
    apply bind_inv in Hrun. destruct Hrun as [_ [w6 [_ Hrun]]].
    unfold ret in Hrun. injection Hrun as Hl _. subst l.
    destruct Hn as [[-> Hz]|[-> ->]].
    + unfold AnalyticsService.slice_to. rewrite slice_take_drop by lia.
      rewrite length_take. lia.
    + simpl. lia.
  - apply bind_inv in Hrun. destruct Hrun as [topClicks [w3 [Hagg Hrun]]].
    assert (Htop : (length topClicks <= Z.to_nat z)%nat).
    { unfold Mongo.Click_aggregate in Hagg.
      destruct (db_throws env ClickAggregate); [discriminate Hagg|].
      unfold AnalyticsService.topClicks_pipeline, Mongo.limit_stage in Hagg.
      destruct Hn as [[-> Hz]|[-> ->]]; [|discriminate Hagg].
      destruct (1 <=? z); [|discriminate Hagg].
      injection Hagg as Ht _. subst topClicks. rewrite length_take. lia. }
    apply bind_inv in Hrun. destruct Hrun as [_ [w4 [_ Hrun]]].
    apply try_catch_inv in Hrun. destruct Hrun as [Hrun|[e [w5 [_ Hrun]]]].
    + apply bind_inv in Hrun. destruct Hrun as [result [w5 [_ Hrun]]].
      unfold ret in Hrun. injection Hrun as Hl _. subst l.
      rewrite length_map. exact Htop.
    + apply bind_inv in Hrun. destruct Hrun as [_ [w6 [_ Hrun]]].
      unfold ret in Hrun. injection Hrun as Hl _. subst l.
      rewrite length_map. exact Htop.
Qed.

Lemma console_only_call_read {A} (c : DbCall) (f : Db -> A) :
  console_only (Mongo.call c (fun d => (f d, d))).
Proof.
  intros env w. unfold Mongo.call. destruct (db_throws env c); [split; reflexivity|].
  destruct w as [d s l]. split; reflexivity.
Qed.

Lemma console_only_getPopularProducts (n : JS.Number) :
  console_only (AnalyticsService.getPopularProducts n).
Proof.
  unfold AnalyticsService.getPopularProducts.
  apply console_only_try_catch.
  - apply console_only_bind; [apply console_only_ask|]. intros env.
    apply console_only_bind.
    + apply console_only_if; [|apply console_only_ret].
      apply console_only_bind; [|intros; apply console_only_ret].
      unfold Mongo.Click_countDocuments. apply console_only_call_read.
    + intros useDummy. apply console_only_if.
      * apply console_only_bind; [apply console_only_log|]. intros _.
        unfold AnalyticsService.getPopularProductsFromDummy.
        apply console_only_bind; [apply console_only_ask|]. intros env'.
        apply console_only_bind; [apply console_only_getProductos|]. intros productos.
        apply console_only_bind; [apply console_only_log|]. intros _. apply console_only_ret.
      * apply console_only_bind.
        -- intros env' w. unfold Mongo.Click_aggregate.
           destruct (db_throws env' ClickAggregate); [split; reflexivity|].
           destruct (AnalyticsService.topClicks_pipeline n _); split; reflexivity.
        -- intros topClicks. apply console_only_bind; [apply console_only_log|]. intros _.
           apply console_only_try_catch.
           ++ apply console_only_bind; [apply console_only_searchAndFilterProducts|].
              intros result. apply console_only_ret.
           ++ intros e. apply console_only_bind; [apply console_only_warn|].
              intros _. apply console_only_ret.
  - intros e. apply console_only_bind; [apply console_only_error|].
    intros _. apply console_only_throw.
Qed.

(** X23.  [GET /api/analytics/top-products] never lists more than twenty
    products, whatever [limit] the request carries and whichever source
    (store or fixture) is used, and never more than a [limit] of at least
    one; [total] is the length of the list.  When the popular products
    cannot be had the answer is 500.  The store is not changed. *)
Theorem top_products_at_most_twenty (limit : option JS.Number) (env : Env) (w : World) :
  ((exists payload,
      run (AnalyticsController.getTopProducts limit) env w = Returns (Express.json payload)
      /\ AnalyticsController.total payload
         = Z.of_nat (length (AnalyticsController.productos payload))
      /\ (length (AnalyticsController.productos payload) <= 20)%nat
      /\ (forall z, limit = Some (JS.Int z) -> 1 <= z ->
            Z.of_nat (length (AnalyticsController.productos payload)) <= z))
   \/ run (AnalyticsController.getTopProducts limit) env w
      = Returns (Express.status_error 500 "Error al obtener productos más buscados"))
  /\ db (exec (AnalyticsController.getTopProducts limit) env w) = db w.
Proof.
  set (requested := match limit with Some n => n | None => JS.Int 6 end).
  set (limitSafe := AnalyticsController.min_with
                      (AnalyticsController.max_with requested 1) 20).
  assert (Hsafe : exists z,
            ((limitSafe = JS.Int z /\ 1 <= z) \/ (limitSafe = JS.NaN /\ z = 0))
            /\ z <= 20
            /\ (forall z0, limit = Some (JS.Int z0) -> 1 <= z0 -> z <= z0)).
  { subst limitSafe requested. destruct limit as [[z0| | |]|]; cbn.
    - exists (Z.min (Z.max z0 1) 20). unfold JS.Math_min, JS.Math_max.
      split; [left; split; [reflexivity|lia]|]. split; [lia|].
      intros z1 Hz1 Hle. inversion Hz1; subst z1. lia.
    - exists 20. split; [left; split; [reflexivity|lia]|]. split; [lia|].
      intros z1 Hz1. discriminate Hz1.
    - exists 1. unfold JS.Math_min. split; [left; split; [reflexivity|lia]|].
      split; [lia|]. intros z1 Hz1. discriminate Hz1.
    - exists 0. split; [right; split; reflexivity|]. split; [lia|].
      intros z1 Hz1. discriminate Hz1.
    - exists 6. unfold JS.Math_min, JS.Math_max.
      split; [left; split; [reflexivity|lia]|]. split; [lia|].
      intros z1 Hz1. discriminate Hz1. }
  destruct Hsafe as [z [Hz [Hz20 Hreq]]].
  assert (E : AnalyticsController.getTopProducts limit env w
              = match AnalyticsService.getPopularProducts limitSafe env w with
                | (Returns topProducts, w1) =>
                    (Returns (Express.json
                                (AnalyticsController.mkTopProducts
                                   (Z.of_nat (length topProducts)) topProducts)),
                     mkWorld (db w1) (activeSessions w1)
                       (console w1 ++ [(LvLog, "Top productos obtenidos en 0ms")]))
                | (Throws _, w1) =>
                    (Returns (Express.status_error 500
                                "Error al obtener productos más buscados"),
                     mkWorld (db w1) (activeSessions w1)
                       (console w1 ++ [(LvError, "Error al obtener top productos:")]))
                end).
  { unfold AnalyticsController.getTopProducts, try_catch, bind. fold requested limitSafe.
    destruct (AnalyticsService.getPopularProducts limitSafe env w) as [[l|e] w1]; reflexivity. }
  unfold run, exec. rewrite E.
  pose proof (console_only_getPopularProducts limitSafe env w) as [Hd _].
  pose proof (getPopularProducts_length limitSafe z env w) as Hlen.
  destruct (AnalyticsService.getPopularProducts limitSafe env w) as [[l|e] w1];
    cbn [fst snd db] in *.
  - split; [|exact Hd]. left. eexists. split; [reflexivity|].
    cbn [AnalyticsController.total AnalyticsController.productos].
    specialize (Hlen w1 l Hz eq_refl).
    split; [reflexivity|]. split; [lia|].
    intros z0 Hl Hz0. specialize (Hreq z0 Hl Hz0). lia.
  - split; [right; reflexivity|exact Hd].
Qed.

Lemma top_products_at_most_twenty_witness :
  let env := mkEnv false false [] [] (ApiError "down") (fun _ => false) 5000 in
  let c := fun n id => mkClick n id "Producto" 1000 None in
  let w := mkWorld (mkDb [] [] [c "1" "A"; c "2" "B"; c "3" "A"; c "4" "C"] 5) ∅ [] in
  exists payload,
    run (AnalyticsController.getTopProducts (Some (JS.Int 2))) env w
    = Returns (Express.json payload)
    /\ Z.of_nat (length (AnalyticsController.productos payload)) <= 2.
Proof.
  intros env c w.
  destruct (proj1 (top_products_at_most_twenty (Some (JS.Int 2)) env w))
    as [[payload [Hrun [_ [_ Hle]]]]|Hfail].
  - exists payload. split; [exact Hrun|]. apply Hle; [reflexivity|lia].
  - vm_compute in Hfail. discriminate Hfail.
Defined.

(** ** The export of the clicks *)

(** X24.  What [GET /api/analytics/clicks] answers from the store: one
    entry for each stored click, carrying its id, product id, name and
    date, the most recent click first.  Only when the store holds no click
    at all and the fixture mode is on does it answer the fixture instead,
    entries as they are. *)
Theorem clicks_export_newest_first (env : Env) (w : World) :
  db_throws env ClickCount = false ->
  ((USE_DUMMY_ANALYTICS env = false \/ clicks (db w) <> []) ->
   db_throws env ClickFind = false ->
   exists sorted,
     run AnalyticsController.getAllClicks env w
     = Returns (Express.json
                  (map (fun c => [("_id", VStr (click_id c));
                                  ("id_producto", VStr (click_id_producto c));
                                  ("nombre", VStr (click_nombre c));
                                  ("fecha", VDate (click_fecha c))]) sorted))
     /\ Permutation sorted (clicks (db w))
     /\ StronglySorted (fun a b => click_fecha b <= click_fecha a) sorted)
  /\ (USE_DUMMY_ANALYTICS env = true -> clicks (db w) = [] ->
      run AnalyticsController.getAllClicks env w
      = Returns (Express.json (map dummy_obj (clicksDummy env)))).
Proof.
  intros Hcount. rewrite getAllClicks_run, Hcount. split.
  - intros Hstore Hfind.
    assert (Hbranch : (Z.of_nat (length (clicks (db w))) =? 0) && USE_DUMMY_ANALYTICS env
                      = false).
    { destruct Hstore as [-> | Hne]; [apply andb_false_r|].
      destruct (clicks (db w)); [congruence|reflexivity]. }
    rewrite Hbranch, Hfind.
    exists (JS.sort (fun a b => click_fecha b - click_fecha a) (clicks (db w))).
    split; [|split; [apply sort_Permutation|apply sort_desc_sorted]].
    f_equal. f_equal. apply map_ext. intros c. apply select_lean_click.
  - intros Hd Hnil. rewrite Hd, Hnil. reflexivity.
Qed.

Lemma clicks_export_newest_first_witness :
  let env := mkEnv false false [] [] (ApiError "down") (fun _ => false) 5000 in
  let env2 := mkEnv false true [] [mkDummyClick "D" "Demo" 10 [("userId", VStr "u")]]
                (ApiError "down") (fun _ => false) 5000 in
  let c1 := mkClick "1" "A" "Laptop" 1000 None in
  let c2 := mkClick "2" "B" "Mouse" 2000 (Some "user_7") in
  let w := mkWorld (mkDb [] [] [c1; c2] 3) ∅ [] in
  let w0 := mkWorld (mkDb [] [] [] 0) ∅ [] in
  (exists sorted,
     run AnalyticsController.getAllClicks env w
     = Returns (Express.json
                  (map (fun c => [("_id", VStr (click_id c));
                                  ("id_producto", VStr (click_id_producto c));
                                  ("nombre", VStr (click_nombre c));
                                  ("fecha", VDate (click_fecha c))]) sorted))
     /\ StronglySorted (fun a b => click_fecha b <= click_fecha a) sorted)
  /\ run AnalyticsController.getAllClicks env2 w0
     = Returns (Express.json (map dummy_obj (clicksDummy env2))).
Proof.
  intros env env2 c1 c2 w w0. split.
  - destruct (proj1 (clicks_export_newest_first env w eq_refl) (or_introl eq_refl) eq_refl)
      as [sorted [Hrun [_ Hs]]].
    exists sorted. split; [exact Hrun|exact Hs].
  - apply (proj2 (clicks_export_newest_first env2 w0 eq_refl)); reflexivity.
Defined.

(** ** The validated search query *)

Lemma has_In (set : list string) (x : string) :
  ValidateSearchParams.has set x = true <-> In x set.
Proof. apply existsb_eqb_In. Qed.

Lemma check_keys_allowed (cleaned : ValidateSearchParams.Query) :
  ValidateSearchParams.check_keys cleaned = None ->
  forall k v, In (k, v) cleaned ->
    In k ValidateSearchParams.ALLOWED_KEYS /\ forall l, v <> ValidateSearchParams.QArray l.
Proof.
  induction cleaned as [|[k0 v0] rest IH]; intros H k v Hin; [destruct Hin|].
  cbn [ValidateSearchParams.check_keys] in H.
  destruct (ValidateSearchParams.has ValidateSearchParams.ALLOWED_KEYS k0) eqn:Ek;
    [|discriminate H].
  cbn [negb] in H.
  destruct Hin as [Heq|Hin].
  - inversion Heq; subst k0 v0. split; [apply has_In; exact Ek|].
    intros l ->. discriminate H.
  - apply IH; [|exact Hin]. destruct v0; [exact H|discriminate H|exact H].
Qed.

Lemma rangoPrecio_known (precio : string) :
  In precio ValidateSearchParams.RANGOS_PRECIO ->
  SearchController.rangoPrecio precio <> (None, None).
Proof.
  intros Hin. unfold ValidateSearchParams.RANGOS_PRECIO in Hin.
  repeat (destruct Hin as [<-|Hin]; [vm_compute; discriminate|]).
  destruct Hin.
Qed.

Section ValidatedQuery.

Context (escapeRegex : string -> string).

(** X25.  A query that [validateSearchParams] lets through is safe for
    the controller: every key is one of the eight allowed and none is
    repeated; [page] is at least 1 and [pageSize] between 1 and 100 (1 and
    20 when absent); a price label is one of the eight known ranges, so
    the controller finds bounds for it; [ordenar] is [precio-asc] or
    [precio-desc]; the search text is the escaped, trimmed text of the
    request, of at most 100 characters before escaping. *)
Theorem validated_query_is_safe (cleaned : ValidateSearchParams.Query)
    (sq : SearchController.SearchQueryParams) (ubicacion : option string) :
  ValidateSearchParams.validateSearchParams escapeRegex cleaned
  = ValidateSearchParams.Next sq ubicacion ->
  (forall k v, In (k, v) cleaned ->
     In k ValidateSearchParams.ALLOWED_KEYS /\ forall l, v <> ValidateSearchParams.QArray l)
  /\ 1 <= SearchController.sq_page sq
  /\ 1 <= SearchController.sq_pageSize sq <= 100
  /\ (ValidateSearchParams.lookup_key "page" cleaned = None -> SearchController.sq_page sq = 1)
  /\ (ValidateSearchParams.lookup_key "pageSize" cleaned = None ->
      SearchController.sq_pageSize sq = 20)
  /\ (forall precio, SearchController.sq_precio sq = Some precio -> precio <> "" ->
        In precio ValidateSearchParams.RANGOS_PRECIO
        /\ SearchController.rangoPrecio precio <> (None, None))
  /\ (forall ordenar, SearchController.sq_ordenar sq = Some ordenar -> ordenar <> "" ->
        ordenar = "precio-asc" \/ ordenar = "precio-desc")
  /\ (forall busqueda, SearchController.sq_busqueda sq = Some busqueda ->
        exists raw,
          ValidateSearchParams.lookup_key "busqueda" cleaned
          = Some (ValidateSearchParams.QString raw)
          /\ JS.trim raw <> ""
          /\ (String.length (JS.trim raw) <= 100)%nat
          /\ busqueda = escapeRegex (JS.trim raw)).
Proof.
  intros H. unfold ValidateSearchParams.validateSearchParams in H.
  destruct (ValidateSearchParams.check_keys cleaned) eqn:Ekeys; [discriminate H|].
  cbv zeta in H.
  destruct (ValidateSearchParams.not_string
              (ValidateSearchParams.lookup_key "busqueda" cleaned)) eqn:N1;
    [discriminate H|].
  destruct (ValidateSearchParams.not_string
              (ValidateSearchParams.lookup_key "categoria" cleaned)); [discriminate H|].
  destruct (ValidateSearchParams.not_string
              (ValidateSearchParams.lookup_key "ubicacion" cleaned)); [discriminate H|].
  destruct (ValidateSearchParams.not_string
              (ValidateSearchParams.lookup_key "condicion" cleaned)); [discriminate H|].
  destruct (ValidateSearchParams.not_string
              (ValidateSearchParams.lookup_key "precio" cleaned)); [discriminate H|].
  destruct (ValidateSearchParams.not_string
              (ValidateSearchParams.lookup_key "ordenar" cleaned)); [discriminate H|].
  destruct (ValidateSearchParams.longer_than 100
              (ValidateSearchParams.trimmed
                 (ValidateSearchParams.lookup_key "busqueda" cleaned))) eqn:L1;
    [discriminate H|].
  destruct (ValidateSearchParams.longer_than 50
              (ValidateSearchParams.trimmed
                 (ValidateSearchParams.lookup_key "categoria" cleaned)));
    [discriminate H|].
  destruct (ValidateSearchParams.longer_than 50
              (ValidateSearchParams.trimmed
                 (ValidateSearchParams.lookup_key "ubicacion" cleaned)));
    [discriminate H|].
  destruct (ValidateSearchParams.longer_than 20
              (ValidateSearchParams.trimmed
                 (ValidateSearchParams.lookup_key "condicion" cleaned)));
    [discriminate H|].
  set (precio := ValidateSearchParams.trimmed
                   (ValidateSearchParams.lookup_key "precio" cleaned)) in *.
  set (ordenar := ValidateSearchParams.trimmed
                    (ValidateSearchParams.lookup_key "ordenar" cleaned)) in *.
  destruct (JS.truthy_opt precio
            && negb (ValidateSearchParams.has ValidateSearchParams.RANGOS_PRECIO
                       (ProductsService.from_option "" precio))) eqn:P1;
    [discriminate H|].
  destruct (JS.truthy_opt ordenar
            && negb (ValidateSearchParams.has ValidateSearchParams.ORDENAMIENTO_VALIDOS
                       (ProductsService.from_option "" ordenar))) eqn:O1;
    [discriminate H|].
  set (page_check := match ValidateSearchParams.lookup_key "page" cleaned with
                     | Some pageRaw =>
                         match ValidateSearchParams.parseInt_value pageRaw with
                         | JS.Int parsed => if parsed <? 1 then None else Some parsed
                         | _ => None
                         end
                     | None => Some 1
                     end) in *.
  destruct page_check as [page|] eqn:Epage; [|discriminate H].
  set (pageSize_check := match ValidateSearchParams.lookup_key "pageSize" cleaned with
                         | Some pageSizeRaw =>
                             match ValidateSearchParams.parseInt_value pageSizeRaw with
                             | JS.Int parsed =>
                                 if (parsed <? 1) || (100 <? parsed) then None
                                 else Some parsed
                             | _ => None
                             end
                         | None => Some 20
                         end) in *.
  destruct pageSize_check as [pageSize|] eqn:Esize; [|discriminate H].
  injection H as Hsq Hub. subst sq.
  cbn [SearchController.sq_page SearchController.sq_pageSize SearchController.sq_precio
         SearchController.sq_ordenar SearchController.sq_busqueda].
  split; [exact (check_keys_allowed cleaned Ekeys)|].
  assert (Hpage : 1 <= page
                  /\ (ValidateSearchParams.lookup_key "page" cleaned = None -> page = 1)).
  { subst page_check.
    destruct (ValidateSearchParams.lookup_key "page" cleaned) as [raw|].
    - split; [|intros Hn; discriminate Hn].
      destruct (ValidateSearchParams.parseInt_value raw) as [parsed| | |];
        try discriminate Epage.
      destruct (parsed <? 1) eqn:E; [discriminate Epage|].
      apply Z.ltb_ge in E. inversion Epage; subst page. exact E.
    - inversion Epage; subst page. split; [lia|reflexivity]. }
  assert (Hsize : 1 <= pageSize <= 100
                  /\ (ValidateSearchParams.lookup_key "pageSize" cleaned = None ->
                      pageSize = 20)).
  { subst pageSize_check.
    destruct (ValidateSearchParams.lookup_key "pageSize" cleaned) as [raw|].
    - split; [|intros Hn; discriminate Hn].
      destruct (ValidateSearchParams.parseInt_value raw) as [parsed| | |];
        try discriminate Esize.
      destruct ((parsed <? 1) || (100 <? parsed)) eqn:E; [discriminate Esize|].
      apply orb_false_iff in E. destruct E as [E1 E2].
      apply Z.ltb_ge in E1. apply Z.ltb_ge in E2. inversion Esize; subst pageSize. lia.
    - inversion Esize; subst pageSize. split; [lia|reflexivity]. }
  split; [exact (proj1 Hpage)|]. split; [exact (proj1 Hsize)|].
  split; [exact (proj2 Hpage)|]. split; [exact (proj2 Hsize)|].
  split; [|split].
  - intros p Hp Hne. rewrite Hp in P1. cbn [JS.truthy_opt ProductsService.from_option] in P1.
    apply truthy_iff in Hne. rewrite Hne in P1. cbn [andb] in P1.
    apply negb_false_iff in P1. apply has_In in P1.
    split; [exact P1|exact (rangoPrecio_known p P1)].
  - intros o Ho Hne. rewrite Ho in O1. cbn [JS.truthy_opt ProductsService.from_option] in O1.
    apply truthy_iff in Hne. rewrite Hne in O1. cbn [andb] in O1.
    apply negb_false_iff in O1. apply has_In in O1.
    destruct O1 as [<-|[<-|[]]]; [left|right]; reflexivity.
  - intros b Hb. unfold ValidateSearchParams.safe in Hb.
    destruct (ValidateSearchParams.lookup_key "busqueda" cleaned) as [[raw|l|]|];
      cbn [ValidateSearchParams.trimmed] in *; try discriminate Hb.
    destruct (JS.truthy (JS.trim raw)) eqn:Et; [|discriminate Hb].
    inversion Hb; subst b. exists raw. split; [reflexivity|].
    split; [apply truthy_iff; exact Et|]. split; [|reflexivity].
    unfold ValidateSearchParams.longer_than in L1. rewrite Et in L1. cbn [andb] in L1.
    apply Nat.ltb_ge in L1. exact L1.
Qed.

End ValidatedQuery.

Lemma validated_query_is_safe_witness :
  let cleaned := [("busqueda", ValidateSearchParams.QString " laptop ");
                  ("precio", ValidateSearchParams.QString "hasta 5000");
                  ("page", ValidateSearchParams.QString "2")] in
  exists sq ubicacion,
    ValidateSearchParams.validateSearchParams (fun s => s) cleaned
    = ValidateSearchParams.Next sq ubicacion
    /\ 1 <= SearchController.sq_page sq
    /\ SearchController.sq_pageSize sq = 20.
Proof.
  intros cleaned.
  destruct (ValidateSearchParams.validateSearchParams (fun s => s) cleaned)
    as [sq ubicacion|error] eqn:E; [|vm_compute in E; discriminate E].
  exists sq, ubicacion. split; [reflexivity|].
  destruct (validated_query_is_safe (fun s => s) cleaned sq ubicacion E)
    as [_ [Hp [_ [_ [Hs _]]]]].
  split; [exact Hp|]. apply Hs. reflexivity.
Defined.

(** ** Popular products from the fixture *)

Lemma env_only_getProductos (categoria : option string) :
  env_only (ProductsService.getProductos categoria).
Proof.
  unfold ProductsService.getProductos.
  apply env_only_try_catch; [|intros e; auto with envonly].
  apply env_only_bind; [apply env_only_ask|]. intros env.
  apply env_only_if; [auto 6 with envonly|].
  apply env_only_bind; [auto with envonly|]. intros _.
  apply env_only_bind; [auto with envonly|]. intros data.
  destruct data as [[|pub pubs]|]; auto 6 with envonly.
Qed.

Lemma filter_none {A} (p : A -> bool) (l : list A) :
  (forall x, In x l -> p x = false) -> List.filter p l = [].
Proof.
  induction l as [|x l IH]; intros H; simpl; [reflexivity|].
  rewrite (H x (or_introl eq_refl)). apply IH. intros y Hy. apply H. right. exact Hy.
Qed.

Lemma filter_map_length {A B} (p : B -> bool) (f : A -> B) (l : list A) :
  length (List.filter p (map f l)) = length (List.filter (fun x => p (f x)) l).
Proof.
  induction l as [|x l IH]; simpl; [reflexivity|].
  destruct (p (f x)); simpl; rewrite IH; reflexivity.
Qed.

Lemma getPopularProducts_fixture_run (env : Env) (w : World) (z : Z) :
  USE_DUMMY_ANALYTICS env = true ->
  db_throws env ClickCount = false ->
  (forall c, In c (clicks (db w)) -> Mongo.valid_id_producto c = false) ->
  1 <= z ->
  run (AnalyticsService.getPopularProducts (JS.Int z)) env w
  = match run (ProductsService.getProductos None) env w with
    | Returns all =>
        Returns (map (AnalyticsService.joined_entry all)
                   (take (Z.to_nat z)
                      (Mongo.sort_clickCount_desc
                         (Mongo.group_by_id_producto
                            (map AnalyticsService.dummy_click (clicksDummy env))))))
    | Throws err => Throws err
    end.
Proof.
  intros Hmode Hcount Hnone Hz. unfold run.
  unfold AnalyticsService.getPopularProducts.
  unfold try_catch at 1. unfold bind at 1. unfold ask at 1.
  assert (Hfirst :
            (if USE_DUMMY_ANALYTICS env
             then (validClickCount <- Mongo.Click_countDocuments Mongo.valid_id_producto ;;
                   ret (validClickCount =? 0))
             else ret false) env w
            = (Returns true, mkWorld (db w) (activeSessions w) (console w))).
  { rewrite Hmode. unfold bind, Mongo.Click_countDocuments, Mongo.call. rewrite Hcount.
    cbn [fst snd]. unfold ret. rewrite (filter_none _ _ Hnone). reflexivity. }
  rewrite (bind_returns _ _ _ _ _ _ Hfirst).
  unfold bind at 1. unfold console_log at 1. unfold modify at 1.
  unfold AnalyticsService.getPopularProductsFromDummy.
  unfold bind at 1. unfold ask at 1. unfold bind at 1.
  match goal with
  | |- context [ProductsService.getProductos None env ?w0] =>
      pose proof (env_only_getProductos None env w0 w) as He;
      destruct (ProductsService.getProductos None env w0) as [o1 w1]
  end.
  cbn [fst] in He. rewrite <- He.
  destruct o1 as [all|err].
  - unfold bind, console_log, modify, ret. cbn [fst]. f_equal.
    unfold AnalyticsService.slice_to. rewrite slice_take_drop by lia.
    rewrite drop_0, Z.sub_0_r.
    rewrite <- (sort_map (AnalyticsService.joined_entry all)
                  (fun a b => Mongo.g_clickCount b - Mongo.g_clickCount a)
                  (fun a b => AnalyticsService.pp_clickCount b
                              - AnalyticsService.pp_clickCount a))
      by reflexivity.
    unfold Mongo.sort_clickCount_desc. apply List.firstn_map.
  - unfold bind, console_error, modify, throw. reflexivity.
Qed.

(** X26.  Popular products in fixture mode.  With the fixture mode on and
    no click with a usable product id in the store, the answer is made
    from the fixture clicks alone: they are grouped by product id and
    counted, the groups are put in descending order of count and the
    first [limit] are kept, each joined with the product of that id in
    the catalog ([null] when there is none); a product left out has no
    more clicks than any product listed.  Here an unreadable catalog
    fails the call: there is no answer without product data as there is
    from the store. *)
Theorem popular_products_from_fixture (env : Env) (w : World) (z : Z) :
  let count := fun s =>
    Z.of_nat (length (List.filter (fun d => String.eqb (dc_id_producto d) s)
                        (clicksDummy env))) in
  USE_DUMMY_ANALYTICS env = true ->
  db_throws env ClickCount = false ->
  (forall c, In c (clicks (db w)) -> Mongo.valid_id_producto c = false) ->
  1 <= z ->
  (forall err,
     run (ProductsService.getProductos None) env w = Throws err ->
     run (AnalyticsService.getPopularProducts (JS.Int z)) env w = Throws err)
  /\ (forall all,
        run (ProductsService.getProductos None) env w = Returns all ->
        exists out,
          run (AnalyticsService.getPopularProducts (JS.Int z)) env w = Returns out
          /\ NoDup (map AnalyticsService.pp_id_producto out)
          /\ (forall e, In e out ->
                In (AnalyticsService.pp_id_producto e)
                  (map dc_id_producto (clicksDummy env))
                /\ AnalyticsService.pp_clickCount e = count (AnalyticsService.pp_id_producto e)
                /\ AnalyticsService.pp_producto e
                   = Some (List.find
                             (fun p => String.eqb (p_id_producto p)
                                         (AnalyticsService.pp_id_producto e)) all))
          /\ StronglySorted
               (fun a b => AnalyticsService.pp_clickCount b <= AnalyticsService.pp_clickCount a)
               out
          /\ (length out <= Z.to_nat z)%nat
          /\ (forall d, In d (clicksDummy env) ->
                ~ In (dc_id_producto d) (map AnalyticsService.pp_id_producto out) ->
                length out = Z.to_nat z
                /\ forall e, In e out ->
                     count (dc_id_producto d) <= AnalyticsService.pp_clickCount e)).
Proof.
  intros count Hmode Hcount Hnone Hz.
  pose proof (getPopularProducts_fixture_run env w z Hmode Hcount Hnone Hz) as Hrun.
  set (fixture := map AnalyticsService.dummy_click (clicksDummy env)) in *.
  set (G := Mongo.group_by_id_producto fixture) in *.
  set (S := Mongo.sort_clickCount_desc G) in *.
  set (T := take (Z.to_nat z) S) in *.
  split.
  { intros err Herr. rewrite Hrun, Herr. reflexivity. }
  intros all Hall. rewrite Hall in Hrun.
  set (entry := AnalyticsService.joined_entry all) in *.
  destruct (group_by_spec fixture) as [Hnd [_ [Hids Hcnt]]]. fold G in Hnd, Hids, Hcnt.
  assert (Hperm : Permutation S G) by apply sort_Permutation.
  assert (Hsorted : StronglySorted (fun a b => Mongo.g_clickCount b <= Mongo.g_clickCount a) S)
    by apply (sort_desc_sorted Mongo.g_clickCount).
  destruct (StronglySorted_take_drop _ S (Z.to_nat z) Hsorted) as [HsT Hrest].
  fold T in HsT, Hrest.
  assert (HTG : forall g, In g T -> In g G).
  { intros g Hg. apply (Permutation_in _ Hperm). exact (In_take _ _ _ Hg). }
  assert (Hfix : forall s,
            Z.of_nat (length (List.filter (fun c => String.eqb (click_id_producto c) s)
                                fixture)) = count s).
  { intros s. unfold fixture, count. rewrite filter_map_length. reflexivity. }
  assert (Hgcount : forall g, In g G -> Mongo.g_clickCount g = count (Mongo.g_id g)).
  { intros g Hg. specialize (Hcnt (Mongo.g_id g)).
    rewrite (find_NoDup_key G g Hnd Hg) in Hcnt. rewrite <- Hfix. exact Hcnt. }
  assert (Hfixids : map click_id_producto fixture = map dc_id_producto (clicksDummy env)).
  { unfold fixture. rewrite map_map. reflexivity. }
  assert (Hmapid : map AnalyticsService.pp_id_producto (map entry T) = map Mongo.g_id T).
  { rewrite map_map. reflexivity. }
  exists (map entry T). split; [exact Hrun|]. rewrite Hmapid.
  split; [|split; [|split; [|split]]].
  - apply NoDup_map_take.
    assert (HP : map Mongo.g_id S ≡ₚ map Mongo.g_id G) by (apply Permutation_map; exact Hperm).
    rewrite HP. exact Hnd.
  - intros e He. apply in_map_iff in He. destruct He as [g [<- Hg]].
    cbn [entry AnalyticsService.joined_entry AnalyticsService.pp_id_producto
           AnalyticsService.pp_clickCount AnalyticsService.pp_producto].
    split; [|split; [apply Hgcount; apply HTG; exact Hg|reflexivity]].
    rewrite <- Hfixids. apply Hids. apply in_map. apply HTG. exact Hg.
  - apply StronglySorted_map.
    eapply StronglySorted_ind with (P := fun l => StronglySorted _ l); [constructor| |exact HsT].
    intros a l Hl IH Hall'. constructor; [exact IH|].
    apply List.Forall_forall. intros x Hx.
    cbn [entry AnalyticsService.joined_entry AnalyticsService.pp_clickCount].
    rewrite List.Forall_forall in Hall'. apply Hall'. exact Hx.
  - rewrite length_map. subst T. rewrite length_take. lia.
  - intros d Hd Hnot.
    assert (Hg : exists g, In g G /\ Mongo.g_id g = dc_id_producto d).
    { assert (In (dc_id_producto d) (map Mongo.g_id G)) as Hin.
      { apply Hids. rewrite Hfixids. apply in_map. exact Hd. }
      apply in_map_iff in Hin. destruct Hin as [g [Hgid Hg]]. exists g. auto. }
    destruct Hg as [g [Hg Hgid]].
    assert (HgS : In g S) by (apply (Permutation_in _ (Permutation_sym Hperm)); exact Hg).
    rewrite <- (take_drop (Z.to_nat z) S) in HgS. apply in_app_or in HgS.
    destruct HgS as [HgT|HgD].
    { exfalso. apply Hnot. rewrite <- Hgid. apply in_map. exact HgT. }
    split.
    + rewrite length_map. subst T. apply length_take_le.
      destruct (le_lt_dec (Z.to_nat z) (length S)) as [Hle|Hlt]; [exact Hle|].
      rewrite drop_ge in HgD by lia. destruct HgD.
    + intros e He. apply in_map_iff in He. destruct He as [a [<- Ha]].
      cbn [entry AnalyticsService.joined_entry AnalyticsService.pp_clickCount].
      rewrite <- Hgid, <- (Hgcount g Hg). apply (Hrest a g Ha HgD).
Qed.

Lemma popular_products_from_fixture_witness :
  let pub := fun s => mkPublicacion s s s "" []
                        (Some (mkProductoAPI 1000 "General" "nuevo" 1 "")) in
  let dc := fun s t => mkDummyClick s s t [] in
  let env := mkEnv true true [pub "A"; pub "B"] [dc "A" 10; dc "B" 20; dc "A" 30]
               (ApiError "down") (fun _ => false) 9000 in
  let w := mkWorld (mkDb [] [] [] 0) ∅ [] in
  exists out,
    run (AnalyticsService.getPopularProducts (JS.Int 6)) env w = Returns out
    /\ map (fun e => (AnalyticsService.pp_id_producto e, AnalyticsService.pp_clickCount e)) out
       = [("A", 2); ("B", 1)].
Proof.
  intros pub dc env w.
  assert (Hnone : forall c, In c (clicks (db w)) -> Mongo.valid_id_producto c = false)
    by (intros c []).
  assert (Hz : 1 <= 6) by lia.
  set (all := match run (ProductsService.getProductos None) env w with
              | Returns a => a
              | Throws _ => []
              end).
  assert (Hall : run (ProductsService.getProductos None) env w = Returns all)
    by (vm_compute; reflexivity).
  destruct (proj2 (popular_products_from_fixture env w 6 eq_refl eq_refl Hnone Hz) all Hall)
    as [out [Hrun _]].
  exists out. split; [exact Hrun|].
  vm_compute in Hrun. injection Hrun as <-. reflexivity.
Defined.
